(** * Flipper Zero protocol file generator: encoders, normalizer, serializer

    A shallow embedding of [Sub_IR_Protocol.py] (class
    [InteractiveFlipperGenerator]) and the properties its specification
    states about it.

    Conventions of the embedding.
    - A Python [str] is a [string]; a character stands for the code point of
      the same number.  The operator's text is ASCII: [upper], [lower],
      [isspace] are the ASCII restrictions of the Python methods.
    - A Python [int] is a [Z]; [//] is [Z.div] (both round towards minus
      infinity) and [abs] is [Z.abs].
    - Every call of [input()] becomes one [string] argument of the embedded
      function, in the order of the calls: the line the operator typed.
    - An exception is a value of [exn]; [try ... except ValueError] is a
      match on the result of the protected block.
    - [print] calls that only decorate are dropped; where the printed text is
      the result (the analyzer), the printed lines are the returned value. *)

From Stdlib Require Import ZArith List Bool Ascii String Lia.
From Stdlib Require Import Decimal DecimalString DecimalFacts DecimalPos DecimalZ.
Import ListNotations.

#[local] Open Scope string_scope.
#[local] Open Scope Z_scope.

(** ** Exceptions *)

Inductive exn : Type :=
| ValueError
| KeyError
| ZeroDivisionError.

Inductive result (A : Type) : Type :=
| Ok (a : A)
| Raise (e : exn).

Arguments Ok {A} a.
Arguments Raise {A} e.

Definition bind {A B : Type} (m : result A) (k : A -> result B) : result B :=
  match m with
  | Ok a => k a
  | Raise e => Raise e
  end.

Notation "x <- m ;; k" := (bind m (fun x => k))
  (at level 61, m at next level, right associativity).

(** A comprehension [[f(x) for x in xs]] whose body may raise. *)
Fixpoint mapM {A B : Type} (f : A -> result B) (xs : list A) : result (list B) :=
  match xs with
  | [] => Ok []
  | x :: r => y <- f x ;; ys <- mapM f r ;; Ok (y :: ys)
  end.

(** [xs.append(x)] and [xs.extend(ys)] on a list that is then rebound. *)
Definition append {A : Type} (xs : list A) (x : A) : list A := (xs ++ [x])%list.
Definition extend {A : Type} (xs ys : list A) : list A := (xs ++ ys)%list.

(** ** The Python built-ins the program uses *)

Module Py.

Definition code (c : ascii) : Z := Z.of_N (N_of_ascii c).

Definition between (lo hi : Z) (c : ascii) : bool :=
  (lo <=? code c) && (code c <=? hi).

(** [str.isspace] on one ASCII character: TAB..CR, FS..US and the space. *)
Definition isspace (c : ascii) : bool := between 9 13 c || between 28 32 c.

(** The C-level [Py_ISSPACE] that [int()] skips: TAB..CR and the space. *)
Definition c_isspace (c : ascii) : bool := between 9 13 c || (code c =? 32).

Definition upper_char (c : ascii) : ascii :=
  if between 97 122 c then ascii_of_N (N_of_ascii c - 32) else c.

Definition lower_char (c : ascii) : ascii :=
  if between 65 90 c then ascii_of_N (N_of_ascii c + 32) else c.

Fixpoint map_str (f : ascii -> ascii) (s : string) : string :=
  match s with
  | EmptyString => EmptyString
  | String c r => String (f c) (map_str f r)
  end.

Definition upper : string -> string := map_str upper_char.
Definition lower : string -> string := map_str lower_char.

(** [bool(s)] for a [str] and for an [int]. *)
Definition truthy_str (s : string) : bool :=
  match s with EmptyString => false | String _ _ => true end.

Definition truthy_int (z : Z) : bool := negb (z =? 0).

Fixpoint lstrip (s : string) : string :=
  match s with
  | EmptyString => EmptyString
  | String c r => if isspace c then lstrip r else s
  end.

Fixpoint rstrip (s : string) : string :=
  match s with
  | EmptyString => EmptyString
  | String c r =>
      match rstrip r with
      | EmptyString => if isspace c then EmptyString else String c EmptyString
      | r' => String c r'
      end
  end.

(** [s.strip()] *)
Definition strip (s : string) : string := rstrip (lstrip s).

(** [s.split()]: maximal runs of non-space characters.  [tok] is the token
    being read, if one has started. *)
Fixpoint split_from (tok : option string) (s : string) : list string :=
  match s with
  | EmptyString => match tok with None => [] | Some t => [t] end
  | String c r =>
      if isspace c then
        match tok with
        | None => split_from None r
        | Some t => t :: split_from None r
        end
      else
        split_from
          (Some (match tok with None => "" | Some t => t end ++ String c "")) r
  end.

Definition split (s : string) : list string := split_from None s.

(** [sep.join(parts)] *)
Fixpoint join (sep : string) (parts : list string) : string :=
  match parts with
  | [] => ""
  | [p] => p
  | p :: r => p ++ sep ++ join sep r
  end.

(** [s[:n]] and [s[n:]] for [n >= 0]. *)
Fixpoint take (n : nat) (s : string) : string :=
  match n, s with
  | S k, String c r => String c (take k r)
  | _, _ => ""
  end.

Fixpoint drop (n : nat) (s : string) : string :=
  match n, s with
  | S k, String _ r => drop k r
  | _, _ => s
  end.

(** [s.startswith(p)] *)
Fixpoint startswith (p s : string) : bool :=
  match p, s with
  | EmptyString, _ => true
  | String a p', String b s' => Ascii.eqb a b && startswith p' s'
  | String _ _, EmptyString => false
  end.

(** [s.replace('0x', '')]: occurrences are found from the left and do not
    overlap. *)
Fixpoint remove_0x (s : string) : string :=
  match s with
  | String "0" (String "x" r) => remove_0x r
  | String c r => String c (remove_0x r)
  | EmptyString => EmptyString
  end.

(** [s.replace(' ', '')] *)
Fixpoint remove_spaces (s : string) : string :=
  match s with
  | EmptyString => EmptyString
  | String c r =>
      if Ascii.eqb c " " then remove_spaces r else String c (remove_spaces r)
  end.

Fixpoint zeros (n : nat) : string :=
  match n with
  | O => ""
  | S k => String "0" (zeros k)
  end.

(** [s.zfill(width)]: zeros go after a leading sign. *)
Definition zfill (width : nat) (s : string) : string :=
  let pad := (width - String.length s)%nat in
  match pad, s with
  | O, _ => s
  | _, String c r =>
      if Ascii.eqb c "+" || Ascii.eqb c "-"
      then String c (zeros pad ++ r)
      else zeros pad ++ s
  | _, EmptyString => zeros pad
  end.

(** [str(z)] for an [int]. *)
Definition str (z : Z) : string := NilZero.string_of_int (Z.to_int z).

(** [_PyLong_DigitValue]: 37 marks a character that is no digit in any base. *)
Definition digit_value (c : ascii) : Z :=
  if between 48 57 c then code c - 48
  else if between 97 122 c then code c - 87
  else if between 65 90 c then code c - 55
  else 37.

Inductive scan_state : Type := AtStart | AfterDigit | AfterUnderscore.

(** The digit loop of [PyLong_FromString]: digits of the base with single
    underscores between them; returns the value and the unread rest. *)
Fixpoint scan_digits (base : Z) (st : scan_state) (acc : Z) (s : string)
  : result (Z * string) :=
  let stop :=
    match st with
    | AfterDigit => Ok (acc, s)
    | AtStart | AfterUnderscore => Raise ValueError
    end in
  match s with
  | EmptyString => stop
  | String c r =>
      if Ascii.eqb c "_" then
        match st with
        | AfterUnderscore => Raise ValueError
        | _ => scan_digits base AfterUnderscore acc r
        end
      else if digit_value c <? base then
        scan_digits base AfterDigit (acc * base + digit_value c) r
      else stop
  end.

Fixpoint skip_c_space (s : string) : string :=
  match s with
  | EmptyString => EmptyString
  | String c r => if c_isspace c then skip_c_space r else s
  end.

Definition read_sign (s : string) : Z * string :=
  match s with
  | String "+" r => (1, r)
  | String "-" r => (-1, r)
  | _ => (1, s)
  end.

(** After the sign, base 16 accepts [0x] or [0X] and one underscore. *)
Definition skip_base_prefix (base : Z) (s : string) : string :=
  match s with
  | String "0" (String c r) =>
      if (base =? 16) && (Ascii.eqb c "x" || Ascii.eqb c "X") then
        match r with
        | String "_" r' => r'
        | _ => r
        end
      else s
  | _ => s
  end.

(** What [PyLong_FromString] does after the sign: the base prefix, no
    leading underscore, the digits, then only white space up to the end. *)
Definition int_after_sign (base sign : Z) (s1 : string) : result Z :=
  let s2 := skip_base_prefix base s1 in
  match s2 with
  | String "_" _ => Raise ValueError
  | _ =>
      vr <- scan_digits base AtStart 0 s2 ;;
      match skip_c_space (snd vr) with
      | EmptyString => Ok (sign * fst vr)
      | String _ _ => Raise ValueError
      end
  end.

(** [int(s, base)] for base 10 and base 16. *)
Definition int (base : Z) (s : string) : result Z :=
  let (sign, s1) := read_sign (skip_c_space s) in
  int_after_sign base sign s1.

(** The binary digits of a positive number, most significant first. *)
Fixpoint bin_digits (p : positive) : string :=
  match p with
  | xH => "1"
  | xO q => bin_digits q ++ "0"
  | xI q => bin_digits q ++ "1"
  end.

(** [bin(z)] *)
Definition bin (z : Z) : string :=
  match z with
  | Z0 => "0b0"
  | Zpos p => "0b" ++ bin_digits p
  | Zneg p => "-0b" ++ bin_digits p
  end.

(** [a // b] *)
Definition floordiv (a b : Z) : result Z :=
  if b =? 0 then Raise ZeroDivisionError else Ok (a / b).

(** [min(xs)] and [max(xs)] raise [ValueError] on an empty list. *)
Definition min (xs : list Z) : result Z :=
  match xs with
  | [] => Raise ValueError
  | x :: r => Ok (fold_left Z.min r x)
  end.

Definition max (xs : list Z) : result Z :=
  match xs with
  | [] => Raise ValueError
  | x :: r => Ok (fold_left Z.max r x)
  end.

Definition sum (xs : list Z) : Z := fold_left Z.add xs 0.

Definition len {A : Type} (xs : list A) : Z := Z.of_nat (List.length xs).

Definition chars (s : string) : list ascii := list_ascii_of_string s.

End Py.

(** The line feed: ['\n']. *)
Definition nl : string := String "010" "".

(** ** Protocol catalog: [self.subghz_protocols] *)

Record subghz_info : Type := {
  bits : Z;
  key_bytes : nat;
  needs_te : bool;
  default_te : option Z;
  description : string
}.

(** The dict literal of [__init__], in its order of declaration. *)
Definition subghz_protocols : list (string * subghz_info) :=
  [ ("Princeton", {| bits := 24; key_bytes := 8; needs_te := true;
       default_te := Some 400;
       description := "Common garage door openers (24-bit data, 8-byte key)" |});
    ("Nice_Flo", {| bits := 12; key_bytes := 3; needs_te := false;
       default_te := None;
       description := "Nice rolling code remotes (12-bit)" |});
    ("Came", {| bits := 12; key_bytes := 3; needs_te := false;
       default_te := None; description := "CAME gate remotes (12-bit)" |});
    ("Linear", {| bits := 10; key_bytes := 3; needs_te := false;
       default_te := None;
       description := "Linear garage door openers (10-bit)" |});
    ("Gate_TX", {| bits := 24; key_bytes := 6; needs_te := false;
       default_te := None;
       description := "Generic gate transmitters (24-bit)" |});
    ("Chamberlain", {| bits := 32; key_bytes := 8; needs_te := false;
       default_te := None;
       description := "Chamberlain garage doors (32-bit)" |});
    ("DoorHan", {| bits := 24; key_bytes := 6; needs_te := false;
       default_te := None; description := "DoorHan gate systems (24-bit)" |});
    ("Somfy_Telis", {| bits := 56; key_bytes := 14; needs_te := false;
       default_te := None; description := "Somfy window blinds (56-bit)" |});
    ("Star_Line", {| bits := 64; key_bytes := 16; needs_te := false;
       default_te := None; description := "StarLine car alarms (64-bit)" |});
    ("Holtek", {| bits := 40; key_bytes := 10; needs_te := false;
       default_te := None;
       description := "Holtek microcontroller remotes (40-bit)" |});
    ("RAW", {| bits := 0; key_bytes := 0; needs_te := false;
       default_te := None; description := "Custom raw timing data" |}) ].

(** [d[name]]: the entry, or [KeyError]. *)
Fixpoint getitem {V : Type} (d : list (string * V)) (name : string) : result V :=
  match d with
  | [] => Raise KeyError
  | (k, v) :: r => if String.eqb k name then Ok v else getitem r name
  end.

(** ** Pattern encoders *)

(** What an encoder hands back: the pattern, or, from its
    [except ValueError] branch, the printed message with the empty list. *)
Inductive outcome : Type :=
| Pattern (pattern : list Z)
| Invalid (message : string).

Definition returned (o : outcome) : list Z :=
  match o with
  | Pattern p => p
  | Invalid _ => []
  end.

(** One pass of the loop body of [generate_manchester]; [-bit_time//2] is
    [(-bit_time)//2], the unary minus binding tighter than [//]. *)
Definition manchester_step (bit_time : Z) (pattern : list Z) (bit : ascii)
  : list Z :=
  if Ascii.eqb bit "1" then extend pattern [bit_time / 2; (- bit_time) / 2]
  else if Ascii.eqb bit "0" then
    extend pattern [(- bit_time) / 2; bit_time / 2]
  else pattern.

(** The loop of [generate_manchester] over the characters of [data]. *)
Definition manchester_pattern (bit_time : Z) (data : string) : list Z :=
  fold_left (manchester_step bit_time) (Py.chars data) [].

Definition generate_manchester (in_bit_time in_data : string) : outcome :=
  match Py.int 10 in_bit_time with
  | Ok bit_time => Pattern (manchester_pattern bit_time (Py.strip in_data))
  | Raise _ => Invalid "Invalid input"
  end.

(** One pass of the bit loop of [generate_nec_like]; every character other
    than ['1'] takes the [else] branch. *)
Definition nec_step (pattern : list Z) (bit : ascii) : list Z :=
  if Ascii.eqb bit "1" then extend pattern [560; -1690]
  else extend pattern [560; -560].

(** The text [generate_nec_like] hands to [int(data, 16)]: the typed line,
    stripped, without a leading [0x]. *)
Definition nec_data (in_data : string) : string :=
  let data := Py.strip in_data in
  if Py.startswith "0x" data then Py.drop 2 data else data.

Definition generate_nec_like (in_data : string) : outcome :=
  let pattern := [9000; -4500] in
  let data := nec_data in_data in
  match Py.int 16 data with
  | Ok value =>
      let binary := Py.zfill 32 (Py.drop 2 (Py.bin value)) in
      let pattern := fold_left nec_step (Py.chars binary) pattern in
      Pattern (append pattern 560)
  | Raise _ => Invalid "Invalid hex data"
  end.

(** ** Timing analyzer *)

(** The lines [analyze_timing] prints, by the values put into them. *)
Inductive report_line : Type :=
| TotalValues (n : Z)
| PositiveValues (n : Z)
| NegativeValues (n : Z)
| OnTimes (min max avg : Z)
| OffTimes (min max avg : Z)
| InvalidTimingData.

(** A computation that prints: the lines printed so far are threaded
    through and survive an exception. *)
Definition printing (A : Type) : Type :=
  list report_line -> list report_line * result A.

Definition print (l : report_line) : printing unit :=
  fun out => (append out l, Ok tt).

Definition lift {A : Type} (r : result A) : printing A := fun out => (out, r).

Definition pbind {A B : Type} (m : printing A) (k : A -> printing B)
  : printing B :=
  fun out =>
    match m out with
    | (out', Ok a) => k a out'
    | (out', Raise e) => (out', Raise e)
    end.

Notation "x <~ m ;; k" := (pbind m (fun x => k))
  (at level 61, m at next level, right associativity).
Notation "m ;;; k" := (pbind m (fun _ => k))
  (at level 61, right associativity).

(** The statistics of one side: [min], [max] and [sum // len]. *)
Definition side_stats (vals : list Z) : result (Z * Z * Z) :=
  mn <- Py.min vals ;;
  mx <- Py.max vals ;;
  avg <- Py.floordiv (Py.sum vals) (Py.len vals) ;;
  Ok (mn, mx, avg).

(** [if vals: print(f"... Min: {min(vals)}, Max: {max(vals)}, Avg:
    {sum(vals)//len(vals)}")]: the line of one side. *)
Definition report_side (line : Z -> Z -> Z -> report_line) (vals : list Z)
  : printing unit :=
  match vals with
  | [] => lift (Ok tt)
  | _ :: _ =>
      s <~ lift (side_stats vals) ;;
      print (line (fst (fst s)) (snd (fst s)) (snd s))
  end.

(** The body of the [try] block of [analyze_timing] after the parse. *)
Definition analyze (timing : list Z) : printing unit :=
  print (TotalValues (Py.len timing)) ;;;
  print (PositiveValues (Py.len (filter (fun x => 0 <? x) timing))) ;;;
  print (NegativeValues (Py.len (filter (fun x => x <? 0) timing))) ;;;
  let positive_vals := filter (fun x => 0 <? x) timing in
  let negative_vals := map Z.abs (filter (fun x => x <? 0) timing) in
  report_side OnTimes positive_vals ;;;
  report_side OffTimes negative_vals.

(** [[int(x) for x in text.split()]] *)
Definition parse_ints (text : string) : result (list Z) :=
  mapM (Py.int 10) (Py.split text).

Definition analyze_timing (in_timing : string) : printing unit :=
  fun out =>
    match (timing <~ lift (parse_ints (Py.strip in_timing)) ;; analyze timing) out with
    | (out', Raise ValueError) => (append out' InvalidTimingData, Ok tt)
    | r => r
    end.

(** ** Key and data normalizer *)

(** [[s[i:i+2] for i in range(0, len(s), 2)]]: the byte pairs of [s], the
    last one a single digit when the length is odd. *)
Fixpoint byte_pairs (s : string) : list string :=
  match s with
  | EmptyString => []
  | String a EmptyString => [String a ""]
  | String a (String b r) => String a (String b "") :: byte_pairs r
  end.

Definition group_pairs (s : string) : string := Py.join " " (byte_pairs s).

(** [s.replace('0x', '').replace(' ', '').upper()] *)
Definition clean_hex (s : string) : string :=
  Py.upper (Py.remove_spaces (Py.remove_0x s)).

(** The [else] branch of the key prompt in [get_protocol_data]: validate and
    format the typed key to [hex_chars] characters. *)
Definition format_key (hex_chars : nat) (key : string) : string :=
  if Py.truthy_str key then
    let key := clean_hex key in
    let key :=
      if (hex_chars <? String.length key)%nat then Py.take hex_chars key
      else if (String.length key <? hex_chars)%nat then Py.zfill hex_chars key
      else key in
    group_pairs key
  else key.

(** [''.join(random.choice('0123456789ABCDEF') for _ in range(n))]; the
    [i]-th draw of the generator is [draw i]. *)
Definition hex_alphabet : list ascii := Py.chars "0123456789ABCDEF".

Definition random_hex (draw : nat -> nat) (n : nat) : string :=
  string_of_list_ascii
    (map (fun i => nth (draw i mod 16) hex_alphabet "0"%char) (seq 0 n)).

Definition get_protocol_data (draw : nat -> nat)
  (protocol in_key in_data in_te : string)
  : result (string * string * option Z) :=
  protocol_info <- getitem subghz_protocols protocol ;;
  let hex_chars := (key_bytes protocol_info * 2)%nat in
  let key := Py.strip in_key in
  let key :=
    if String.eqb (Py.lower key) "random"
    then group_pairs (random_hex draw hex_chars)
    else format_key hex_chars key in
  let data := Py.strip in_data in
  let data :=
    if Py.truthy_str data
    then group_pairs (clean_hex data)
    else data in
  te <- (if needs_te protocol_info then
           let default_te :=
             match default_te protocol_info with Some t => t | None => 400 end in
           let te_input := Py.strip in_te in
           if Py.truthy_str te_input
           then t <- Py.int 10 te_input ;; Ok (Some t)
           else Ok (Some default_te)
         else Ok None) ;;
  Ok (key, data, te).

(** [get_repeat_count] *)
Definition get_repeat_count (in_repeat : string) : result Z :=
  let repeat_str := Py.strip in_repeat in
  if Py.truthy_str repeat_str then Py.int 10 repeat_str else Ok 1.

(** ** File serializer *)

(** The keyword arguments of [create_subghz_file].  [protocol], [frequency]
    and [output_file] are read with [kwargs[...]] and every caller passes
    them; the others are optional. *)
Record kwargs : Type := {
  kw_protocol : string;
  kw_frequency : Z;
  kw_output_file : string;
  kw_preset : option string;
  kw_raw_data : option (list Z);
  kw_bit_count : option Z;
  kw_key : option string;
  kw_te : option Z;
  kw_data : option string;
  kw_repeat : option Z
}.

(** [' '.join(map(str, raw_data))] *)
Definition render_timing (raw_data : list Z) : string :=
  Py.join " " (map Py.str raw_data).

(** [if kwargs.get(name): lines.append(...)] *)
Definition append_if {A : Type} (truthy : A -> bool) (field : option A)
  (line : A -> string) (lines : list string) : list string :=
  match field with
  | Some v => if truthy v then append lines (line v) else lines
  | None => lines
  end.

(** The list [lines] of [create_subghz_file] when it is joined. *)
Definition subghz_lines (kw : kwargs) : result (list string) :=
  let lines := ["Filetype: Flipper SubGhz Key File"; "Version: 1"] in
  let lines := append lines ("Frequency: " ++ Py.str (kw_frequency kw)) in
  let lines :=
    append lines
      ("Preset: " ++
       match kw_preset kw with
       | Some p => p
       | None => "FuriHalSubGhzPresetOok270Async"
       end) in
  let lines := append lines ("Protocol: " ++ kw_protocol kw) in
  if String.eqb (kw_protocol kw) "RAW" then
    match kw_raw_data kw with
    | Some raw_data =>
        Ok (append lines ("RAW_Data: " ++ render_timing raw_data))
    | None => Raise KeyError
    end
  else
    let lines :=
      append_if Py.truthy_int (kw_bit_count kw)
        (fun v => "Bit: " ++ Py.str v) lines in
    let lines :=
      append_if Py.truthy_str (kw_key kw) (fun v => "Key: " ++ v) lines in
    let lines :=
      append_if Py.truthy_int (kw_te kw) (fun v => "TE: " ++ Py.str v) lines in
    let lines :=
      append_if Py.truthy_str (kw_data kw) (fun v => "Data: " ++ v) lines in
    let repeat := match kw_repeat kw with Some r => r | None => 1 end in
    let lines :=
      if 1 <? repeat then append lines ("Repeat: " ++ Py.str repeat)
      else lines in
    Ok lines.

(** A written file: its name and its whole content. *)
Record file : Type := { file_name : string; file_content : string }.

(** [create_subghz_file]: the name and the content of the file it writes.
    Opening the file is taken to succeed. *)
Definition create_subghz_file (kw : kwargs) : result file :=
  lines <- subghz_lines kw ;;
  let content := Py.join nl lines ++ nl in
  Ok {| file_name := kw_output_file kw; file_content := content |}.

(** The parameters [subghz_wizard] builds for a protocol other than RAW from
    what [get_protocol_data] and [get_repeat_count] returned. *)
Definition wizard_params (protocol : string) (frequency : Z)
  (key data : string) (te : option Z) (repeat : Z) (output_file : string)
  : result kwargs :=
  bit_count <- (info <- getitem subghz_protocols protocol ;; Ok (bits info)) ;;
  protocol_info <- getitem subghz_protocols protocol ;;
  let te_param :=
    match te with
    | Some t => if needs_te protocol_info && Py.truthy_int t then Some t else None
    | None => None
    end in
  let data_param := if Py.truthy_str data then Some data else None in
  Ok {| kw_protocol := protocol;
        kw_frequency := frequency;
        kw_output_file := output_file;
        kw_preset := None;
        kw_raw_data := None;
        kw_bit_count := Some bit_count;
        kw_key := Some key;
        kw_te := te_param;
        kw_data := data_param;
        kw_repeat := Some repeat |}.

(** [subghz_wizard] once [select_protocol], [select_frequency],
    [create_raw_subghz_data] and [get_output_filename] have returned
    [protocol], [frequency], [raw_data] and [output_file]; [None] is the
    wizard giving up without a file.  The model covers the steps between
    these calls and the text handed to the file: the exceptions of
    [select_frequency] ([OverflowError] of a custom frequency) and of
    [open(filename, 'w')] ([OSError]) are outside it, the write is taken to
    succeed. *)
Definition subghz_wizard (draw : nat -> nat) (protocol : string)
  (frequency : Z) (raw_data : list Z)
  (in_key in_data in_te in_repeat output_file : string)
  : result (option file) :=
  if negb (Py.truthy_str protocol) then Ok None
  else if negb (Py.truthy_int frequency) then Ok None
  else if String.eqb protocol "RAW" then
    match raw_data with
    | [] => Ok None
    | _ :: _ =>
        f <- create_subghz_file
               {| kw_protocol := "RAW";
                  kw_frequency := frequency;
                  kw_output_file := output_file;
                  kw_preset := None;
                  kw_raw_data := Some raw_data;
                  kw_bit_count := None;
                  kw_key := None;
                  kw_te := None;
                  kw_data := None;
                  kw_repeat := None |} ;;
        Ok (Some f)
    end
  else
    kdt <- get_protocol_data draw protocol in_key in_data in_te ;;
    let key := fst (fst kdt) in
    let data := snd (fst kdt) in
    let te := snd kdt in
    repeat <- get_repeat_count in_repeat ;;
    params <- wizard_params protocol frequency key data te repeat output_file ;;
    f <- create_subghz_file params ;;
    Ok (Some f).

(** The Holtek sample of [generate_samples]. *)
Definition sample_holtek : kwargs :=
  {| kw_protocol := "Holtek";
     kw_frequency := 418000000;
     kw_output_file := "sample_holtek.sub";
     kw_preset := None;
     kw_raw_data := None;
     kw_bit_count := Some 40;
     kw_key := Some "00 00 52 AA AA BB CC DD EE FF";
     kw_te := None;
     kw_data := None;
     kw_repeat := None |}.

(** ** Reading a timing file back *)

(** [load_raw_from_file] on a file system that maps a name to the content of
    the file, if there is one; [None] is the error return after
    [FileNotFoundError] or [ValueError]. *)
Definition load_raw_from_file (fs : string -> option string)
  (in_filename : string) : option (list Z) :=
  let filename := Py.strip in_filename in
  match fs filename with
  | Some text =>
      let content := Py.strip text in
      match parse_ints content with
      | Ok raw_data => Some raw_data
      | Raise _ => None
      end
  | None => None
  end.

(** ** Reading the written text *)

(** The lines of a text that ends each line with a line feed. *)
Fixpoint text_lines_from (cur : string) (s : string) : list string :=
  match s with
  | EmptyString => match cur with EmptyString => [] | _ => [cur] end
  | String c r =>
      if Ascii.eqb c "010" then cur :: text_lines_from "" r
      else text_lines_from (cur ++ String c "") r
  end.

Definition text_lines (s : string) : list string := text_lines_from "" s.

Definition has_line (prefix : string) (lines : list string) : bool :=
  existsb (Py.startswith prefix) lines.


(** * Vocabulary of the properties *)

(** The value of a digit sequence read from the left onto [acc]. *)
Fixpoint uint_value (acc : Z) (d : uint) : Z :=
  match d with
  | Nil => acc
  | D0 r => uint_value (acc * 10 + 0) r
  | D1 r => uint_value (acc * 10 + 1) r
  | D2 r => uint_value (acc * 10 + 2) r
  | D3 r => uint_value (acc * 10 + 3) r
  | D4 r => uint_value (acc * 10 + 4) r
  | D5 r => uint_value (acc * 10 + 5) r
  | D6 r => uint_value (acc * 10 + 6) r
  | D7 r => uint_value (acc * 10 + 7) r
  | D8 r => uint_value (acc * 10 + 8) r
  | D9 r => uint_value (acc * 10 + 9) r
  end.

(** A token: no white space inside. *)
Definition spaceless (s : string) : bool :=
  forallb (fun c => negb (Py.isspace c)) (Py.chars s).

(** The [n]-bit binary expansion of [v], most significant bit first. *)
Fixpoint msb_bits (n : nat) (v : Z) : list bool :=
  match n with
  | O => []
  | S k => Z.testbit v (Z.of_nat k) :: msb_bits k v
  end.

(** The mark and space of one NEC bit. *)
Definition nec_bit (b : bool) : list Z :=
  if b then [560; -1690] else [560; -560].

Definition is_one (c : ascii) : bool := Ascii.eqb c "1".

(** The pair the specification gives for one character: both halves
    [bit_time / 2] with the division truncating towards zero. *)
Definition manchester_truncated_bit (bit_time : Z) (c : ascii) : list Z :=
  if Ascii.eqb c "1" then [bit_time ÷ 2; - (bit_time ÷ 2)]
  else if Ascii.eqb c "0" then [- (bit_time ÷ 2); bit_time ÷ 2]
  else [].

(** The pair the program emits: a short half and a long half that add up to
    [bit_time]. *)
Definition manchester_bit (bit_time : Z) (c : ascii) : list Z :=
  let short := bit_time ÷ 2 in
  let long := bit_time - short in
  if Ascii.eqb c "1" then [short; - long]
  else if Ascii.eqb c "0" then [- long; short]
  else [].

Definition is_min (m : Z) (xs : list Z) : Prop :=
  In m xs /\ Forall (fun x => m <= x) xs.

Definition is_max (m : Z) (xs : list Z) : Prop :=
  In m xs /\ Forall (fun x => x <= m) xs.

(** What the report says of one side: nothing when the side is empty, else
    one line with its minimum, its maximum and its floored average. *)
Inductive side_lines (line : Z -> Z -> Z -> report_line) (vals : list Z)
  : list report_line -> Prop :=
| side_omitted : vals = [] -> side_lines line vals []
| side_reported (mn mx : Z) :
    vals <> [] -> is_min mn vals -> is_max mx vals ->
    Py.len vals <> 0 ->
    side_lines line vals [line mn mx (Py.sum vals / Py.len vals)].

Definition no_line_feed (s : string) : bool :=
  forallb (fun c => negb (Ascii.eqb c "010")) (Py.chars s).

(** The lines only the structured branch writes. *)
Definition is_structured_line (l : string) : bool :=
  existsb (fun p => Py.startswith p l)
    ["Bit: "; "Key: "; "TE: "; "Data: "; "Repeat: "].

Definition is_raw_line (l : string) : bool := Py.startswith "RAW_Data: " l.

(** The record of the Holtek test property: the key is the typed text
    [52AAAABBCCDDEEFF] formatted to the 10 bytes of the catalog entry. *)
Definition holtek_record : kwargs :=
  {| kw_protocol := "Holtek";
     kw_frequency := 418000000;
     kw_output_file := "holtek.sub";
     kw_preset := None;
     kw_raw_data := None;
     kw_bit_count := Some 40;
     kw_key := Some (format_key (10 * 2) "52AAAABBCCDDEEFF");
     kw_te := None;
     kw_data := None;
     kw_repeat := None |}.


(** What the wizard hands to the serializer for Holtek when a timing
    element of 400 is supplied all the same, and the lines written. *)
Definition holtek_with_repeat : kwargs :=
  {| kw_protocol := "Holtek";
     kw_frequency := 418000000;
     kw_output_file := "holtek.sub";
     kw_preset := None;
     kw_raw_data := None;
     kw_bit_count := Some 40;
     kw_key := Some "00 00 52 AA AA BB CC DD EE FF";
     kw_te := None;
     kw_data := None;
     kw_repeat := Some 1 |}.

Definition holtek_lines : list string :=
  [ "Filetype: Flipper SubGhz Key File";
    "Version: 1";
    "Frequency: 418000000";
    "Preset: FuriHalSubGhzPresetOok270Async";
    "Protocol: Holtek";
    "Bit: 40";
    "Key: 00 00 52 AA AA BB CC DD EE FF" ].

(** The RAW sample of [generate_samples]. *)
Definition sample_raw : kwargs :=
  {| kw_protocol := "RAW";
     kw_frequency := 315000000;
     kw_output_file := "sample_raw.sub";
     kw_preset := None;
     kw_raw_data := Some [500; -500; 1000; -500; 500; -1000; 1000; -500];
     kw_bit_count := None;
     kw_key := None;
     kw_te := None;
     kw_data := None;
     kw_repeat := None |}.

(** [kwargs.get(name)] is there and truthy. *)
Definition given {A : Type} (truthy : A -> bool) (field : option A) : bool :=
  match field with Some v => truthy v | None => false end.

(** [kwargs.get('repeat', 1) > 1] *)
Definition repeats (kw : kwargs) : bool :=
  1 <? match kw_repeat kw with Some r => r | None => 1 end.


(** What the serializer is handed for Holtek with a timing element. *)
Definition holtek_with_te : kwargs :=
  {| kw_protocol := "Holtek";
     kw_frequency := 418000000;
     kw_output_file := "holtek.sub";
     kw_preset := None;
     kw_raw_data := None;
     kw_bit_count := Some 40;
     kw_key := Some "00 00 52 AA AA BB CC DD EE FF";
     kw_te := Some 400;
     kw_data := None;
     kw_repeat := None |}.

Definition all_chars (P : ascii -> bool) (s : string) : bool :=
  forallb P (Py.chars s).

Definition is_hex_digit (c : ascii) : bool := Py.digit_value c <? 16.

Definition hex_or_space (c : ascii) : bool :=
  is_hex_digit c || Ascii.eqb c " ".

Definition is_lower (c : ascii) : bool := Py.between 97 122 c.

(** Neither a space nor a lowercase letter. *)
Definition cleaned_char (c : ascii) : bool :=
  negb (Ascii.eqb c " ") && negb (is_lower c).

(** No text argument of the record holds a line feed. *)
Definition clean_fields (kw : kwargs) : bool :=
  no_line_feed (kw_protocol kw)
  && match kw_preset kw with Some p => no_line_feed p | None => true end
  && match kw_key kw with Some k => no_line_feed k | None => true end
  && match kw_data kw with Some d => no_line_feed d | None => true end.

(** * The rest of the generator *)

(** ** More of the run-time *)

(** [range(n)] *)
Definition py_range (n : Z) : list Z := map Z.of_nat (seq 0 (Z.to_nat n)).

(** A dialogue that reads its lines from the operator: it ends with a
    value, or [input()] finds nothing left to read and its [EOFError], which
    no handler of the program catches, ends it. *)
Inductive session (A : Type) : Type :=
| Done (a : A)
| EndOfInput.

Arguments Done {A} a.
Arguments EndOfInput {A}.

(** The files by name, and [open(name, 'w').write(content)]. *)
Definition files : Type := string -> option string.

Definition write_file (fs : files) (name content : string) : files :=
  fun n => if String.eqb n name then Some content else fs n.

(** [text or default] *)
Definition or_default (text default : string) : string :=
  if Py.truthy_str text then text else default.

(** ** Protocol catalog: [self.ir_protocols] *)

Record ir_info : Type := {
  address_bits : Z;
  command_bits : Z;
  ir_description : string
}.

Definition ir_protocols : list (string * ir_info) :=
  [ ("NEC", {| address_bits := 8; command_bits := 8;
       ir_description := "Most common IR protocol (8+8 bits)" |});
    ("NECext", {| address_bits := 16; command_bits := 8;
       ir_description := "Extended NEC protocol (16+8 bits)" |});
    ("Samsung32", {| address_bits := 8; command_bits := 8;
       ir_description := "Samsung TVs and devices (8+8 bits)" |});
    ("RC5", {| address_bits := 5; command_bits := 6;
       ir_description := "Philips RC5 protocol (5+6 bits)" |});
    ("RC6", {| address_bits := 8; command_bits := 8;
       ir_description := "Philips RC6 protocol (8+8 bits)" |});
    ("SIRC", {| address_bits := 5; command_bits := 7;
       ir_description := "Sony SIRC 12-bit (5+7 bits)" |});
    ("SIRC15", {| address_bits := 8; command_bits := 7;
       ir_description := "Sony SIRC 15-bit (8+7 bits)" |});
    ("SIRC20", {| address_bits := 13; command_bits := 7;
       ir_description := "Sony SIRC 20-bit (13+7 bits)" |});
    ("RAW", {| address_bits := 0; command_bits := 0;
       ir_description := "Custom raw IR timing" |}) ].

(** [list(d.keys())] *)
Definition keys {V : Type} (d : list (string * V)) : list string := map fst d.

(** ** Menus *)

(** [protocol_list] of [select_protocol]: the names of the catalog chosen by
    [protocol_type], in the order of declaration. *)
Definition protocol_list (protocol_type : string) : list string :=
  if String.eqb protocol_type "subghz" then keys subghz_protocols
  else keys ir_protocols.

(** [select_protocol]: the answers are read from [inputs] until one of them
    decides. *)
Fixpoint select_protocol (protocol_type : string) (inputs : list string)
  : session (option string) :=
  match inputs with
  | [] => EndOfInput
  | line :: rest =>
      let choice := Py.strip line in
      if String.eqb (Py.lower choice) "q" then Done None
      else
        match Py.int 10 choice with
        | Raise _ => Done None
        | Ok n =>
            let idx := n - 1 in
            if (0 <=? idx) && (idx <? Py.len (protocol_list protocol_type))
            then Done (nth_error (protocol_list protocol_type) (Z.to_nat idx))
            else select_protocol protocol_type rest
        end
  end.

(** [manual_raw_entry]: a line of timing values is asked for until one with
    at least four values is confirmed or the operator quits. *)
Fixpoint manual_raw_entry (inputs : list string) : session (option (list Z)) :=
  match inputs with
  | [] => EndOfInput
  | line :: rest =>
      let data_str := Py.strip line in
      if String.eqb (Py.lower data_str) "q" then Done None
      else if String.eqb (Py.lower data_str) "help" then manual_raw_entry rest
      else
        match parse_ints data_str with
        | Raise _ => manual_raw_entry rest
        | Ok raw_data =>
            if Py.len raw_data <? 4 then manual_raw_entry rest
            else
              match rest with
              | [] => EndOfInput
              | answer :: rest' =>
                  let confirm := Py.lower (Py.strip answer) in
                  if String.eqb confirm "y" then Done (Some raw_data)
                  else manual_raw_entry rest'
              end
        end
  end.

(** ** More pattern encoders *)

Definition generate_simple_onoff (in_on_time in_off_time in_repeats : string)
  : outcome :=
  match
    (on_time <- Py.int 10 in_on_time ;;
     off_time <- Py.int 10 in_off_time ;;
     repeats <- Py.int 10 in_repeats ;;
     Ok (fold_left (fun pattern _ => extend pattern [on_time; - off_time])
           (py_range repeats) []))
  with
  | Ok pattern => Pattern pattern
  | Raise _ => Invalid "Invalid input"
  end.

(** One pass of the loop body of [generate_pwm]. *)
Definition pwm_step (short_pulse long_pulse gap : Z) (pattern : list Z)
  (bit : ascii) : list Z :=
  if Ascii.eqb bit "1" then extend pattern [long_pulse; - gap]
  else if Ascii.eqb bit "0" then extend pattern [short_pulse; - gap]
  else pattern.

Definition generate_pwm (in_short in_long in_gap in_data : string) : outcome :=
  match
    (short_pulse <- Py.int 10 in_short ;;
     long_pulse <- Py.int 10 in_long ;;
     gap <- Py.int 10 in_gap ;;
     let data := Py.strip in_data in
     Ok (fold_left (pwm_step short_pulse long_pulse gap) (Py.chars data) []))
  with
  | Ok pattern => Pattern pattern
  | Raise _ => Invalid "Invalid input"
  end.

(** One pass of the loop of [generate_custom_repeat], for the index [i]. *)
Definition custom_repeat_step (base_pattern : list Z) (repeats gap : Z)
  (pattern : list Z) (i : Z) : list Z :=
  let pattern := extend pattern base_pattern in
  if (0 <? gap) && (i <? repeats - 1) then append pattern (- gap)
  else pattern.

Definition generate_custom_repeat (in_base in_repeats in_gap : string)
  : outcome :=
  match
    (let base_str := Py.strip in_base in
     base_pattern <- parse_ints base_str ;;
     repeats <- Py.int 10 in_repeats ;;
     gap <- Py.int 10 in_gap ;;
     Ok (fold_left (custom_repeat_step base_pattern repeats gap)
           (py_range repeats) []))
  with
  | Ok pattern => Pattern pattern
  | Raise _ => Invalid "Invalid input"
  end.

(** One pass of the loop body of [generate_rc5_like], [bit_time] being 889. *)
Definition rc5_step (pattern : list Z) (bit : ascii) : list Z :=
  let bit_time := 889 in
  if Ascii.eqb bit "1" then extend pattern [- bit_time; bit_time]
  else if Ascii.eqb bit "0" then extend pattern [bit_time; - bit_time]
  else pattern.

(** Nothing in the [try] block of [generate_rc5_like] raises [ValueError]:
    the function always returns its pattern. *)
Definition generate_rc5_like (in_data : string) : list Z :=
  let data := Py.strip in_data in
  fold_left rc5_step (Py.chars data) [].

(** The library of [common_ir_patterns], in its order. *)
Definition ir_pattern_library : list (string * list Z) :=
  [ ("Power On/Off", [9000; -4500; 560; -1690; 560; -560; 560; -1690; 560]);
    ("Volume Up", [9000; -4500; 560; -560; 560; -1690; 560; -560; 560]);
    ("Volume Down", [9000; -4500; 560; -1690; 560; -1690; 560; -560; 560]);
    ("Channel Up", [9000; -4500; 560; -560; 560; -560; 560; -1690; 560]);
    ("Channel Down", [9000; -4500; 560; -1690; 560; -560; 560; -1690; 560]) ].

Definition common_ir_patterns (in_choice : string) : option (list Z) :=
  match Py.int 10 in_choice with
  | Ok n =>
      let choice := n - 1 in
      if (0 <=? choice) && (choice <? Py.len (keys ir_pattern_library))
      then nth_error (map snd ir_pattern_library) (Z.to_nat choice)
      else None
  | Raise _ => None
  end.

(** ** Analysis tools *)

(** The two loop bodies of [binary_to_timing]. *)
Definition timing_pwm_step (short_pulse long_pulse : Z) (timing : list Z)
  (bit : ascii) : list Z :=
  if Ascii.eqb bit "1" then extend timing [long_pulse; - short_pulse]
  else if Ascii.eqb bit "0" then extend timing [short_pulse; - short_pulse]
  else timing.

Definition timing_manchester_step (short_pulse : Z) (timing : list Z)
  (bit : ascii) : list Z :=
  if Ascii.eqb bit "1" then extend timing [short_pulse; - short_pulse]
  else if Ascii.eqb bit "0" then extend timing [- short_pulse; short_pulse]
  else timing.

(** The list [timing] that [binary_to_timing] prints. *)
Definition binary_timing (binary : string) (short_pulse long_pulse : Z)
  (encoding : string) : list Z :=
  if String.eqb encoding "pwm" then
    fold_left (timing_pwm_step short_pulse long_pulse) (Py.chars binary) []
  else if String.eqb encoding "manchester" then
    fold_left (timing_manchester_step short_pulse) (Py.chars binary) []
  else [].

(** [binary_to_timing]: the timing printed and the files afterwards; [now]
    is [int(time.time())].  A [ValueError] of [int()] is not caught here. *)
Definition binary_to_timing (now : Z) (fs : files)
  (in_binary in_short in_long in_encoding in_save in_filename : string)
  : result (list Z * files) :=
  let binary := Py.strip in_binary in
  short_pulse <- Py.int 10 in_short ;;
  long_pulse <- Py.int 10 in_long ;;
  let encoding := or_default (Py.lower (Py.strip in_encoding)) "pwm" in
  let timing := binary_timing binary short_pulse long_pulse encoding in
  if String.eqb (Py.lower in_save) "y" then
    let filename :=
      or_default (Py.strip in_filename) ("timing_" ++ Py.str now ++ ".txt") in
    Ok (timing, write_file fs filename (render_timing timing))
  else Ok (timing, fs).

(** [hex_to_binary]: the binary text and the length printed, or [None] when
    the [except ValueError] branch reports invalid hex data. *)
Definition hex_to_binary (in_hex : string) : option (string * Z) :=
  let hex_data := Py.strip in_hex in
  let hex_data := Py.remove_0x hex_data in
  match Py.int 16 hex_data with
  | Ok value =>
      let binary := Py.drop 2 (Py.bin value) in
      Some (binary, Z.of_nat (String.length binary))
  | Raise _ => None
  end.

(** ** Infrared files *)

(** [get_ir_frequency] *)
Definition get_ir_frequency (in_frequency : string) : result Z :=
  let freq_str := Py.strip in_frequency in
  if Py.truthy_str freq_str then Py.int 10 freq_str else Ok 35715.

(** [get_ir_codes] *)
Definition get_ir_codes (protocol in_address in_command : string)
  : result (string * string) :=
  protocol_info <- getitem ir_protocols protocol ;;
  let address := Py.strip in_address in
  let command := Py.strip in_command in
  Ok (Py.upper address, Py.upper command).

Section Infrared.

(** The floating-point numbers of the duty cycle are kept abstract: the
    type, [float(text)], the text an f-string gives a float, and the
    literal [0.33]. *)
Variable float : Type.
Variable float_of_text : string -> result float.
Variable float_text : float -> string.
Variable duty_default : float.

(** The keyword arguments of [create_ir_file]; [protocol] and [output_file]
    are passed by every caller. *)
Record ir_kwargs : Type := {
  ir_protocol : string;
  ir_output_file : string;
  ir_raw_data : option (list Z);
  ir_frequency : option Z;
  ir_duty_cycle : option float;
  ir_address : option string;
  ir_command : option string
}.

(** The list [lines] of [create_ir_file] when it is joined. *)
Definition ir_lines (kw : ir_kwargs) : result (list string) :=
  let lines := ["Filetype: IR signals file"; "Version: 1"] in
  if String.eqb (ir_protocol kw) "RAW" then
    let frequency := match ir_frequency kw with Some f => f | None => 38000 end in
    let duty_cycle :=
      match ir_duty_cycle kw with Some d => d | None => duty_default end in
    match ir_raw_data kw with
    | Some raw_data =>
        Ok (extend lines
              [ "name: Custom_RAW";
                "type: raw";
                "frequency: " ++ Py.str frequency;
                "duty_cycle: " ++ float_text duty_cycle;
                "data: " ++ render_timing raw_data ])
    | None => Raise KeyError
    end
  else
    match ir_address kw, ir_command kw with
    | Some address, Some command =>
        Ok (extend lines
              [ "name: Custom_" ++ ir_protocol kw;
                "type: parsed";
                "protocol: " ++ ir_protocol kw;
                "address: " ++ address;
                "command: " ++ command ])
    | _, _ => Raise KeyError
    end.

Definition create_ir_file (kw : ir_kwargs) : result file :=
  lines <- ir_lines kw ;;
  let content := Py.join nl lines ++ nl in
  Ok {| file_name := ir_output_file kw; file_content := content |}.

(** [get_duty_cycle] *)
Definition get_duty_cycle (in_duty : string) : result float :=
  let duty_str := Py.strip in_duty in
  if Py.truthy_str duty_str then float_of_text duty_str else Ok duty_default.

(** [ir_wizard] once [select_protocol], [create_raw_ir_data] and
    [get_output_filename] have returned [protocol], [raw_data] and
    [output_file]; [None] is the wizard giving up without a file. *)
Definition ir_wizard (protocol : string) (raw_data : list Z)
  (in_frequency in_duty in_address in_command output_file : string)
  : result (option file) :=
  if negb (Py.truthy_str protocol) then Ok None
  else if String.eqb protocol "RAW" then
    match raw_data with
    | [] => Ok None
    | _ :: _ =>
        frequency <- get_ir_frequency in_frequency ;;
        duty_cycle <- get_duty_cycle in_duty ;;
        f <- create_ir_file
               {| ir_protocol := "RAW";
                  ir_output_file := output_file;
                  ir_raw_data := Some raw_data;
                  ir_frequency := Some frequency;
                  ir_duty_cycle := Some duty_cycle;
                  ir_address := None;
                  ir_command := None |} ;;
        Ok (Some f)
    end
  else
    codes <- get_ir_codes protocol in_address in_command ;;
    let address := fst codes in
    let command := snd codes in
    if negb (Py.truthy_str address) || negb (Py.truthy_str command)
    then Ok None
    else
      f <- create_ir_file
             {| ir_protocol := protocol;
                ir_output_file := output_file;
                ir_raw_data := None;
                ir_frequency := None;
                ir_duty_cycle := None;
                ir_address := Some address;
                ir_command := Some command |} ;;
      Ok (Some f).

End Infrared.

Arguments ir_protocol {float} _.
Arguments ir_output_file {float} _.
Arguments ir_raw_data {float} _.
Arguments ir_frequency {float} _.
Arguments ir_duty_cycle {float} _.
Arguments ir_address {float} _.
Arguments ir_command {float} _.

(** ** Vocabulary of the further properties *)

Definition is_bit (c : ascii) : bool := Ascii.eqb c "0" || Ascii.eqb c "1".

(** The bits a text holds, the other characters left out. *)
Definition bits_of (data : string) : list bool :=
  map is_one (filter is_bit (Py.chars data)).

(** [n] copies of [base] with [sep] between two of them. *)
Definition copies_between (base sep : list Z) (n : nat) : list Z :=
  match n with
  | O => []
  | S k => (List.concat (repeat (base ++ sep) k) ++ base)%list
  end.

(** The gap element [generate_custom_repeat] puts between two copies. *)
Definition gap_between (gap : Z) : list Z :=
  if 0 <? gap then [- gap] else [].

(** The cleaned key cut or filled to [hex_chars] characters, as
    [format_key] does before it groups the byte pairs. *)
Definition fit_width (hex_chars : nat) (key : string) : string :=
  if (hex_chars <? String.length key)%nat then Py.take hex_chars key
  else if (String.length key <? hex_chars)%nat then Py.zfill hex_chars key
  else key.

(** An uppercase hex digit: a character of the alphabet of the random
    key. *)
Definition is_upper_hex (c : ascii) : bool :=
  existsb (Ascii.eqb c) hex_alphabet.

Definition upper_hex_or_space (c : ascii) : bool :=
  is_upper_hex c || Ascii.eqb c " ".

(** The lines only the raw branch, and only the parsed branch, of an
    infrared file have. *)
Definition is_ir_raw_line (l : string) : bool :=
  existsb (fun p => Py.startswith p l) ["frequency: "; "duty_cycle: "; "data: "].

Definition is_ir_parsed_line (l : string) : bool :=
  existsb (fun p => Py.startswith p l) ["protocol: "; "address: "; "command: "].

(** An infrared record carries the arguments its branch reads. *)
Definition ir_complete {float : Type} (kw : ir_kwargs float) : bool :=
  if String.eqb (ir_protocol kw) "RAW"
  then match ir_raw_data kw with Some _ => true | None => false end
  else match ir_address kw, ir_command kw with
       | Some _, Some _ => true
       | _, _ => false
       end.

(** A stand-in for the floating-point numbers: the duty cycle as the text
    typed. *)
Definition text_float : Type := string.

(** A text of white space only. *)
Definition is_blank (s : string) : bool := forallb Py.isspace (Py.chars s).

(** A timing file laid out freely: the first value, then each further value
    after its separator, then what follows the last value. *)
Fixpoint timing_layout (first : Z) (rest : list (string * Z)) (post : string)
  : string :=
  match rest with
  | [] => Py.str first ++ post
  | (sep, z) :: r => Py.str first ++ sep ++ timing_layout z r post
  end.

(** * Properties *)

(** ** Strings and lists *)

Section StringFacts.

Lemma Ok_inj {A : Type} (a b : A) : Ok a = Ok b -> a = b.
Proof. now intros [= ->]. Qed.

Lemma append_nil_r (s : string) : s ++ "" = s.
Proof. induction s as [|c r IH]; simpl; [reflexivity | now rewrite IH]. Qed.

Lemma append_assoc (a b c : string) : (a ++ b) ++ c = a ++ (b ++ c).
Proof. induction a as [|x r IH]; simpl; [reflexivity | now rewrite IH]. Qed.

Lemma chars_app (a b : string) :
  Py.chars (a ++ b) = (Py.chars a ++ Py.chars b)%list.
Proof.
  unfold Py.chars. induction a as [|x r IH]; simpl; [reflexivity | now rewrite IH].
Qed.

Lemma strlen_app (a b : string) :
  String.length (a ++ b) = (String.length a + String.length b)%nat.
Proof. induction a as [|x r IH]; simpl; [reflexivity | now rewrite IH]. Qed.

Lemma chars_length (s : string) :
  List.length (Py.chars s) = String.length s.
Proof.
  unfold Py.chars. induction s as [|x r IH]; simpl; [reflexivity | now rewrite IH].
Qed.

Lemma chars_zeros (n : nat) : Py.chars (Py.zeros n) = repeat "0"%char n.
Proof.
  unfold Py.chars. induction n as [|k IH]; simpl; [reflexivity | now rewrite IH].
Qed.

Lemma length_zeros (n : nat) : String.length (Py.zeros n) = n.
Proof. induction n as [|k IH]; simpl; [reflexivity | now rewrite IH]. Qed.

End StringFacts.

(** ** Decimal text of an integer and its parse *)

Section DecimalRoundTrip.

Lemma scan_uint_after_digit (d : uint) (acc : Z) :
  Py.scan_digits 10 Py.AfterDigit acc (NilEmpty.string_of_uint d)
  = Ok (uint_value acc d, "").
Proof.
  revert acc. induction d; intros acc; simpl; try reflexivity; apply IHd.
Qed.

Lemma scan_uint_at_start (d : uint) :
  d <> Nil ->
  Py.scan_digits 10 Py.AtStart 0 (NilEmpty.string_of_uint d)
  = Ok (uint_value 0 d, "").
Proof.
  destruct d; intros H; try congruence; simpl; apply scan_uint_after_digit.
Qed.

Lemma uint_value_lu (d : uint) (acc : Z) :
  uint_value acc d
  = acc * 10 ^ Z.of_N (Unsigned.usize d) + Z.of_N (Unsigned.of_lu (rev d)).
Proof.
  revert acc.
  induction d; intros acc; simpl uint_value; [ simpl; lia | .. ];
    rewrite IHd;
    match goal with
    | |- context [rev (?c d)] =>
        change (rev (c d)) with (revapp d (c Nil));
        rewrite (Unsigned.of_lu_revapp d (c Nil))
    end;
    simpl Unsigned.usize;
    rewrite N2Z.inj_succ, Z.pow_succ_r by lia;
    rewrite N2Z.inj_add, N2Z.inj_mul, N2Z.inj_pow;
    simpl Unsigned.of_lu; simpl Z.of_N; ring.
Qed.

Lemma uint_value_of_uint (d : uint) : uint_value 0 d = Z.of_uint d.
Proof.
  rewrite uint_value_lu. unfold Z.of_uint. rewrite Unsigned.of_uint_alt. lia.
Qed.

Lemma skip_base_prefix_10 (s : string) : Py.skip_base_prefix 10 s = s.
Proof.
  destruct s as [|a [|b r]]; try reflexivity;
    destruct a as [[|] [|] [|] [|] [|] [|] [|] [|]]; reflexivity.
Qed.

Lemma int_after_sign_uint (sign : Z) (d : uint) :
  d <> Nil ->
  Py.int_after_sign 10 sign (NilEmpty.string_of_uint d)
  = Ok (sign * Z.of_uint d).
Proof.
  intros Hd. unfold Py.int_after_sign.
  rewrite skip_base_prefix_10, (scan_uint_at_start d Hd), uint_value_of_uint.
  destruct d; try congruence; reflexivity.
Qed.

Lemma int_uint (d : uint) :
  d <> Nil -> Py.int 10 (NilEmpty.string_of_uint d) = Ok (Z.of_uint d).
Proof.
  intros Hd. unfold Py.int.
  replace (Py.read_sign (Py.skip_c_space (NilEmpty.string_of_uint d)))
    with (1, NilEmpty.string_of_uint d)
    by (destruct d; try congruence; reflexivity).
  cbv iota beta.
  rewrite (int_after_sign_uint 1 d Hd). f_equal. lia.
Qed.

Lemma int_neg_uint (d : uint) :
  d <> Nil ->
  Py.int 10 (String "-" (NilEmpty.string_of_uint d)) = Ok (- Z.of_uint d).
Proof.
  intros Hd. unfold Py.int.
  change (Py.read_sign (Py.skip_c_space (String "-" (NilEmpty.string_of_uint d))))
    with (-1, NilEmpty.string_of_uint d).
  cbv iota beta.
  rewrite (int_after_sign_uint (-1) d Hd). f_equal.
Qed.

Lemma nilzero_text (d : uint) :
  d <> Nil -> NilZero.string_of_uint d = NilEmpty.string_of_uint d.
Proof. destruct d; congruence || reflexivity. Qed.

(** Parsing the decimal text of an integer gives the integer back. *)
Lemma int_str (z : Z) : Py.int 10 (Py.str z) = Ok z.
Proof.
  unfold Py.str. destruct z as [|p|p]; simpl Z.to_int.
  - reflexivity.
  - unfold NilZero.string_of_int.
    rewrite nilzero_text by apply Unsigned.to_uint_nonnil.
    rewrite int_uint by apply Unsigned.to_uint_nonnil.
    unfold Z.of_uint. now rewrite Unsigned.of_to.
  - unfold NilZero.string_of_int.
    rewrite nilzero_text by apply Unsigned.to_uint_nonnil.
    rewrite int_neg_uint by apply Unsigned.to_uint_nonnil.
    unfold Z.of_uint. now rewrite Unsigned.of_to.
Qed.

End DecimalRoundTrip.

(** ** Splitting at white space *)

Section SplitFacts.

Lemma split_from_token (w : string) :
  spaceless w = true ->
  forall (t r : string),
    Py.split_from (Some t) (w ++ r) = Py.split_from (Some (t ++ w)) r.
Proof.
  unfold spaceless, Py.chars.
  induction w as [|c w IH]; intros Hw t r; simpl in *.
  - now rewrite append_nil_r.
  - apply andb_prop in Hw. destruct Hw as [Hc Hw].
    apply negb_true_iff in Hc. rewrite Hc.
    rewrite (IH Hw). now rewrite append_assoc.
Qed.

Lemma split_token_first (w r : string) :
  spaceless w = true -> w <> "" ->
  Py.split_from None (w ++ r) = Py.split_from (Some w) r.
Proof.
  intros Hw Hne. destruct w as [|c w]; [congruence|].
  unfold spaceless, Py.chars in Hw. simpl in Hw.
  apply andb_prop in Hw. destruct Hw as [Hc Hw].
  apply negb_true_iff in Hc. simpl. rewrite Hc.
  now rewrite (split_from_token w Hw).
Qed.

Lemma split_join (ws : list string) :
  Forall (fun w => spaceless w = true /\ w <> "") ws ->
  Py.split (Py.join " " ws) = ws.
Proof.
  unfold Py.split.
  induction ws as [|w ws IH]; intros H; [reflexivity|].
  inversion H as [|? ? [Hw Hne] Hws]; subst.
  destruct ws as [|w2 ws].
  - simpl. rewrite <- (append_nil_r w) at 1.
    now rewrite (split_token_first w "" Hw Hne).
  - change (Py.join " " (w :: w2 :: ws))
      with (w ++ String " " (Py.join " " (w2 :: ws))).
    rewrite (split_token_first w _ Hw Hne).
    change (Py.split_from (Some w) (String " " (Py.join " " (w2 :: ws))))
      with (w :: Py.split_from None (Py.join " " (w2 :: ws))).
    now rewrite (IH Hws).
Qed.

Lemma split_lstrip (s : string) :
  Py.split_from None (Py.lstrip s) = Py.split_from None s.
Proof.
  induction s as [|c r IH]; [reflexivity|].
  simpl. destruct (Py.isspace c) eqn:Hc; [exact IH|].
  simpl. now rewrite Hc.
Qed.

Lemma split_rstrip (s : string) :
  forall tok, Py.split_from tok (Py.rstrip s) = Py.split_from tok s.
Proof.
  induction s as [|c r IH]; intros tok; [reflexivity|].
  simpl Py.rstrip. destruct (Py.rstrip r) as [|c' r'] eqn:Hr.
  - destruct (Py.isspace c) eqn:Hc; simpl; rewrite Hc.
    + rewrite <- (IH None). now destruct tok.
    + now rewrite <- IH.
  - simpl. destruct (Py.isspace c); [destruct tok|]; now rewrite <- IH.
Qed.

(** White space around a text does not change its tokens. *)
Lemma split_strip (s : string) : Py.split (Py.strip s) = Py.split s.
Proof.
  unfold Py.split, Py.strip. now rewrite split_rstrip, split_lstrip.
Qed.

Lemma uint_text_spaceless (d : uint) :
  spaceless (NilEmpty.string_of_uint d) = true.
Proof.
  unfold spaceless, Py.chars. induction d; simpl; auto.
Qed.

Lemma str_token (z : Z) : spaceless (Py.str z) = true /\ Py.str z <> "".
Proof.
  unfold Py.str. destruct z as [|p|p]; simpl Z.to_int.
  - split; [reflexivity | discriminate].
  - unfold NilZero.string_of_int.
    rewrite nilzero_text by apply Unsigned.to_uint_nonnil.
    split; [apply uint_text_spaceless|].
    pose proof (Unsigned.to_uint_nonnil p) as Hn.
    destruct (Pos.to_uint p); try congruence; discriminate.
  - unfold NilZero.string_of_int.
    rewrite nilzero_text by apply Unsigned.to_uint_nonnil.
    split; [|discriminate].
    unfold spaceless, Py.chars. simpl.
    apply (uint_text_spaceless (Pos.to_uint p)).
Qed.

Lemma mapM_int_str (l : list Z) : mapM (Py.int 10) (map Py.str l) = Ok l.
Proof.
  induction l as [|z l IH]; [reflexivity|].
  simpl. rewrite int_str. simpl. now rewrite IH.
Qed.

(** The rendered timing line parses back to the sequence. *)
Lemma parse_render (l : list Z) : parse_ints (render_timing l) = Ok l.
Proof.
  unfold parse_ints, render_timing.
  rewrite split_join; [apply mapM_int_str|].
  apply Forall_forall. intros w Hw.
  apply in_map_iff in Hw. destruct Hw as [z [<- _]]. apply str_token.
Qed.

End SplitFacts.

(** ** The NEC-like encoder *)

Section NecFacts.

Lemma nec_loop (cs : list ascii) (acc : list Z) :
  fold_left nec_step cs acc
  = (acc ++ flat_map nec_bit (map is_one cs))%list.
Proof.
  revert acc. induction cs as [|c cs IH]; intros acc; simpl.
  - now rewrite List.app_nil_r.
  - rewrite IH. unfold nec_step, extend, is_one, nec_bit.
    destruct (Ascii.eqb c "1"); now rewrite <- List.app_assoc.
Qed.

Lemma msb_bits_snoc (n : nat) (v : Z) (b : bool) :
  msb_bits (S n) (2 * v + Z.b2z b) = (msb_bits n v ++ [b])%list.
Proof.
  induction n as [|k IH].
  - unfold msb_bits. change (Z.of_nat 0) with 0.
    now rewrite Z.testbit_0_r.
  - change (msb_bits (S (S k)) (2 * v + Z.b2z b))
      with (Z.testbit (2 * v + Z.b2z b) (Z.of_nat (S k))
              :: msb_bits (S k) (2 * v + Z.b2z b)).
    rewrite IH, Nat2Z.inj_succ, Z.testbit_succ_r by lia. reflexivity.
Qed.

Lemma msb_bits_pad (m n : nat) (v : Z) :
  0 <= v < 2 ^ Z.of_nat n ->
  msb_bits (m + n) v = (repeat false m ++ msb_bits n v)%list.
Proof.
  intros Hv. induction m as [|k IH]; [reflexivity|].
  simpl. rewrite IH. f_equal.
  apply Z.testbit_false; [lia|].
  rewrite Z.div_small; [reflexivity|].
  split; [lia|].
  apply Z.lt_le_trans with (2 ^ Z.of_nat n); [lia|].
  apply Z.pow_le_mono_r; lia.
Qed.

Lemma length_bin_digits_snoc (q : positive) (c : string) :
  String.length c = 1%nat ->
  String.length (Py.bin_digits q ++ c) = S (String.length (Py.bin_digits q)).
Proof. intros Hc. rewrite strlen_app, Hc. lia. Qed.

Lemma bin_digits_bits (p : positive) :
  map is_one (Py.chars (Py.bin_digits p))
  = msb_bits (String.length (Py.bin_digits p)) (Zpos p).
Proof.
  induction p as [q IH|q IH|]; simpl Py.bin_digits.
  - rewrite chars_app, List.map_app, IH.
    rewrite length_bin_digits_snoc by reflexivity.
    change (Zpos q~1) with (2 * Zpos q + Z.b2z true).
    now rewrite msb_bits_snoc.
  - rewrite chars_app, List.map_app, IH.
    rewrite length_bin_digits_snoc by reflexivity.
    change (Zpos q~0) with (2 * Zpos q + Z.b2z false).
    now rewrite msb_bits_snoc.
  - reflexivity.
Qed.

Lemma bin_digits_value (p : positive) :
  Zpos p < 2 ^ Z.of_nat (String.length (Py.bin_digits p)).
Proof.
  induction p as [q IH|q IH|]; simpl Py.bin_digits.
  - rewrite length_bin_digits_snoc by reflexivity.
    rewrite Nat2Z.inj_succ, Z.pow_succ_r by lia. lia.
  - rewrite length_bin_digits_snoc by reflexivity.
    rewrite Nat2Z.inj_succ, Z.pow_succ_r by lia. lia.
  - reflexivity.
Qed.

Lemma bin_digits_length (p : positive) (n : nat) :
  Zpos p < 2 ^ Z.of_nat n -> (String.length (Py.bin_digits p) <= n)%nat.
Proof.
  revert n. induction p as [q IH|q IH|]; intros n Hn; simpl Py.bin_digits.
  - rewrite length_bin_digits_snoc by reflexivity.
    destruct n as [|k]; [simpl in Hn; lia|].
    rewrite Nat2Z.inj_succ, Z.pow_succ_r in Hn by lia.
    specialize (IH k). lia.
  - rewrite length_bin_digits_snoc by reflexivity.
    destruct n as [|k]; [simpl in Hn; lia|].
    rewrite Nat2Z.inj_succ, Z.pow_succ_r in Hn by lia.
    specialize (IH k). lia.
  - simpl. destruct n as [|k]; [simpl in Hn; lia | lia].
Qed.

Lemma bin_digits_head (p : positive) :
  exists r, Py.bin_digits p = String "1" r.
Proof.
  induction p as [q [r IH]|q [r IH]|]; simpl; rewrite ?IH; simpl; eauto.
Qed.

Lemma zfill_bin_digits (w : nat) (p : positive) :
  Py.zfill w (Py.bin_digits p)
  = Py.zeros (w - String.length (Py.bin_digits p)) ++ Py.bin_digits p.
Proof.
  unfold Py.zfill. destruct (bin_digits_head p) as [r Hr].
  destruct (w - String.length (Py.bin_digits p))%nat; [reflexivity|].
  rewrite Hr. reflexivity.
Qed.

Lemma map_is_one_zeros (n : nat) :
  map is_one (Py.chars (Py.zeros n)) = repeat false n.
Proof.
  rewrite chars_zeros. induction n as [|k IH]; simpl; [reflexivity | now rewrite IH].
Qed.

(** The 32 characters the bit loop reads are the 32-bit expansion. *)
Lemma nec_binary_bits (value : Z) :
  0 <= value < 2 ^ 32 ->
  map is_one (Py.chars (Py.zfill 32 (Py.drop 2 (Py.bin value))))
  = msb_bits 32 value.
Proof.
  intros Hv. destruct value as [|p|p]; [reflexivity| |lia].
  change (Py.drop 2 (Py.bin (Zpos p))) with (Py.bin_digits p).
  assert (Hlen : (String.length (Py.bin_digits p) <= 32)%nat)
    by (apply bin_digits_length; change (Z.of_nat 32) with 32; lia).
  rewrite zfill_bin_digits, chars_app, List.map_app, map_is_one_zeros, bin_digits_bits.
  rewrite <- msb_bits_pad by (split; [lia | apply bin_digits_value]).
  f_equal. lia.
Qed.

Lemma zfill_length (w : nat) (s : string) :
  String.length (Py.zfill w s) = Nat.max w (String.length s).
Proof.
  unfold Py.zfill.
  destruct (w - String.length s)%nat as [|k] eqn:Hpad; [lia|].
  destruct s as [|c r].
  - rewrite length_zeros. simpl in *. lia.
  - destruct (Ascii.eqb c "+" || Ascii.eqb c "-"); simpl;
      rewrite strlen_app; simpl; rewrite length_zeros; simpl in *; lia.
Qed.

Lemma length_flat_map_nec_bit (bs : list bool) :
  List.length (flat_map nec_bit bs) = (2 * List.length bs)%nat.
Proof.
  induction bs as [|b bs IH]; [reflexivity|].
  simpl flat_map. rewrite List.length_app, IH. destruct b; simpl; lia.
Qed.

Lemma scan_digits_raises (base : Z) (s : string) :
  forall st acc e, Py.scan_digits base st acc s = Raise e -> e = ValueError.
Proof.
  induction s as [|c r IH]; intros st acc e; simpl.
  - destruct st; congruence.
  - destruct (Ascii.eqb c "_").
    + destruct st; try congruence; apply IH.
    + destruct (Py.digit_value c <? base); [apply IH|].
      destruct st; congruence.
Qed.

(** [int()] raises nothing but [ValueError]. *)
Lemma int_raises (base : Z) (s : string) (e : exn) :
  Py.int base s = Raise e -> e = ValueError.
Proof.
  unfold Py.int. destruct (Py.read_sign (Py.skip_c_space s)) as [sign s1].
  unfold Py.int_after_sign.
  set (s2 := Py.skip_base_prefix base s1).
  assert (H : forall r,
    (vr <- Py.scan_digits base Py.AtStart 0 s2 ;;
     match Py.skip_c_space (snd vr) with
     | "" => Ok (sign * fst vr)
     | String _ _ => Raise ValueError
     end) = r -> r = Raise e -> e = ValueError).
  { intros r <-. destruct (Py.scan_digits base Py.AtStart 0 s2) as [vr|e'] eqn:Hs; simpl.
    - destruct (Py.skip_c_space (snd vr)); congruence.
    - intros [= <-]. eapply scan_digits_raises; eauto. }
  destruct s2 as [|c r]; [eapply H; reflexivity|].
  destruct c as [[|] [|] [|] [|] [|] [|] [|] [|]];
    try (eapply H; reflexivity); congruence.
Qed.

End NecFacts.

(** C5.  For every input that parses as a base-16 integer below 2^32, the
    NEC-like encoder returns the leader [9000, -4500], then for each bit of
    the 32-bit expansion, most significant first, [560, -1690] for 1 and
    [560, -560] for 0, then a lone 560: 2 + 2*32 + 1 = 67 elements. *)
Theorem nec_like_sequence (in_data : string) (value : Z) :
  Py.int 16 (nec_data in_data) = Ok value ->
  0 <= value < 2 ^ 32 ->
  generate_nec_like in_data
  = Pattern ([9000; -4500] ++ flat_map nec_bit (msb_bits 32 value) ++ [560])
  /\ List.length (returned (generate_nec_like in_data)) = 67%nat.
Proof.
  intros Hparse Hrange.
  assert (Hgen : generate_nec_like in_data
    = Pattern ([9000; -4500] ++ flat_map nec_bit (msb_bits 32 value) ++ [560])).
  { unfold generate_nec_like. rewrite Hparse. unfold append.
    rewrite nec_loop, nec_binary_bits by exact Hrange.
    now rewrite <- List.app_assoc. }
  split; [exact Hgen|].
  rewrite Hgen. unfold returned.
  rewrite !List.length_app, length_flat_map_nec_bit. reflexivity.
Qed.

Lemma nec_like_sequence_witness :
  Py.int 16 (nec_data "0x12345678") = Ok 305419896 /\
  0 <= 305419896 < 2 ^ 32 /\
  generate_nec_like "0x12345678"
  = Pattern ([9000; -4500] ++ flat_map nec_bit (msb_bits 32 305419896) ++ [560])
  /\ List.length (returned (generate_nec_like "0x12345678")) = 67%nat.
Proof.
  split; [reflexivity|]. split; [lia|].
  apply (nec_like_sequence "0x12345678" 305419896); [reflexivity | lia].
Defined.

(** C4, as stated, fails: the text [100000000] is 2^32, which does not fit
    in 32 bits, and the encoder returns a pattern of 69 elements for it. *)
Lemma nec_like_accepts_2_pow_32 :
  Py.int 16 (nec_data "100000000") = Ok (2 ^ 32) /\
  (forall message, generate_nec_like "100000000" <> Invalid message) /\
  List.length (returned (generate_nec_like "100000000")) = 69%nat.
Proof.
  split; [reflexivity|]. split; [|reflexivity].
  intros message. vm_compute. discriminate.
Qed.

(** C4, amended.  The NEC-like encoder fails, with the report of invalid hex
    data and the empty list, exactly for the inputs that do not parse as a
    base-16 integer.  It checks no range: every input that parses, a value of
    2^32 or more included, gives a pattern, of 3 + 2 * max(32, number of
    characters of the binary text) elements. *)
Theorem nec_like_fails_on_parse_error_only (in_data : string) :
  match Py.int 16 (nec_data in_data) with
  | Raise e =>
      e = ValueError /\ generate_nec_like in_data = Invalid "Invalid hex data"
  | Ok value =>
      exists pattern,
        generate_nec_like in_data = Pattern pattern /\
        List.length pattern
        = (3 + 2 * Nat.max 32 (String.length (Py.drop 2 (Py.bin value))))%nat
  end.
Proof.
  unfold generate_nec_like.
  destruct (Py.int 16 (nec_data in_data)) as [value|e] eqn:Hparse.
  - eexists. split; [reflexivity|].
    unfold append. rewrite nec_loop, !List.length_app, length_flat_map_nec_bit.
    rewrite List.length_map, chars_length, zfill_length. simpl List.length. lia.
  - split; [|reflexivity]. eapply int_raises; eauto.
Qed.

(** ** The Manchester encoder *)

Section ManchesterFacts.

Lemma manchester_loop (bit_time : Z) (cs : list ascii) (acc : list Z) :
  0 < bit_time ->
  fold_left (manchester_step bit_time) cs acc
  = (acc ++ flat_map (manchester_bit bit_time) cs)%list.
Proof.
  intros Hpos. revert acc. induction cs as [|c cs IH]; intros acc; simpl.
  - now rewrite List.app_nil_r.
  - rewrite IH. unfold manchester_step, manchester_bit, extend.
    assert (Hshort : bit_time / 2 = bit_time ÷ 2)
      by (symmetry; apply Z.quot_div_nonneg; lia).
    assert (Hlong : (- bit_time) / 2 = - (bit_time - bit_time ÷ 2)).
    { rewrite <- Hshort.
      pose proof (Z.div_mod bit_time 2 ltac:(lia)) as H1.
      pose proof (Z.mod_pos_bound bit_time 2 ltac:(lia)) as H2.
      symmetry. apply Z.div_unique with (r := bit_time mod 2); lia. }
    rewrite Hshort, Hlong.
    destruct (Ascii.eqb c "1"); [now rewrite <- List.app_assoc|].
    destruct (Ascii.eqb c "0"); [now rewrite <- List.app_assoc|].
    reflexivity.
Qed.

End ManchesterFacts.

(** C2, as stated, fails: for the odd bit time 5 and the bit string [1] the
    encoder emits [2, -3], not the truncated pair [2, -2]. *)
Lemma manchester_odd_not_truncated :
  generate_manchester "5" "1" = Pattern [2; -3] /\
  flat_map (manchester_truncated_bit 5) (Py.chars "1") = [2; -2] /\
  returned (generate_manchester "5" "1")
  <> flat_map (manchester_truncated_bit 5) (Py.chars "1").
Proof.
  split; [reflexivity|]. split; [reflexivity|]. vm_compute. discriminate.
Qed.

(** C2, amended.  For every positive bit time and every bit string the
    Manchester encoder emits per '1' the pair [+short, -long] and per '0'
    the pair [-long, +short], other characters giving nothing, where [short]
    is [bit_time / 2] rounded down and [long] is [bit_time - short]: the two
    halves are equal for an even bit time, and for an odd one the negative
    half is one microsecond longer, so that no microsecond is lost. *)
Theorem manchester_halves (in_bit_time in_data : string) (bit_time : Z) :
  Py.int 10 in_bit_time = Ok bit_time ->
  0 < bit_time ->
  generate_manchester in_bit_time in_data
  = Pattern (flat_map (manchester_bit bit_time) (Py.chars (Py.strip in_data)))
  /\ (bit_time ÷ 2) + (bit_time - bit_time ÷ 2) = bit_time
  /\ (Z.even bit_time = true -> bit_time - bit_time ÷ 2 = bit_time ÷ 2)
  /\ (Z.odd bit_time = true -> bit_time - bit_time ÷ 2 = bit_time ÷ 2 + 1).
Proof.
  intros Hparse Hpos.
  split.
  { unfold generate_manchester, manchester_pattern. rewrite Hparse.
    now rewrite manchester_loop. }
  assert (Hq : bit_time ÷ 2 = bit_time / 2) by (apply Z.quot_div_nonneg; lia).
  rewrite Hq.
  split; [lia|]. split; intros Hpar.
  - apply Z.even_spec in Hpar. destruct Hpar as [k ->].
    rewrite Z.mul_comm, Z.div_mul by lia. lia.
  - apply Z.odd_spec in Hpar. destruct Hpar as [k ->].
    rewrite Z.mul_comm, Z.div_add_l by lia.
    change (1 / 2) with 0. lia.
Qed.

Lemma manchester_halves_witness :
  Py.int 10 "5" = Ok 5 /\ 0 < 5 /\
  generate_manchester "5" "10"
  = Pattern (flat_map (manchester_bit 5) (Py.chars (Py.strip "10")))
  /\ (5 ÷ 2) + (5 - 5 ÷ 2) = 5
  /\ (Z.even 5 = true -> 5 - 5 ÷ 2 = 5 ÷ 2)
  /\ (Z.odd 5 = true -> 5 - 5 ÷ 2 = 5 ÷ 2 + 1).
Proof.
  split; [reflexivity|]. split; [lia|].
  apply (manchester_halves "5" "10" 5); [reflexivity | lia].
Defined.

(** ** The timing analyzer *)

Section AnalyzerFacts.

Lemma fold_min_is_min (r : list Z) :
  forall x, is_min (fold_left Z.min r x) (x :: r).
Proof.
  induction r as [|y r IH]; intros x; simpl.
  - split; [now left | constructor; [lia | constructor]].
  - destruct (IH (Z.min x y)) as [Hin Hall]. split.
    + destruct Hin as [Hin|Hin]; [|now right; right].
      rewrite <- Hin. destruct (Z.min_spec x y) as [[_ ->]|[_ ->]]; simpl; auto.
    + inversion Hall as [|? ? Hm Hr]; subst.
      constructor; [lia|]. constructor; [lia | exact Hr].
Qed.

Lemma fold_max_is_max (r : list Z) :
  forall x, is_max (fold_left Z.max r x) (x :: r).
Proof.
  induction r as [|y r IH]; intros x; simpl.
  - split; [now left | constructor; [lia | constructor]].
  - destruct (IH (Z.max x y)) as [Hin Hall]. split.
    + destruct Hin as [Hin|Hin]; [|now right; right].
      rewrite <- Hin. destruct (Z.max_spec x y) as [[_ ->]|[_ ->]]; simpl; auto.
    + inversion Hall as [|? ? Hm Hr]; subst.
      constructor; [lia|]. constructor; [lia | exact Hr].
Qed.

(** On a non-empty side neither [min], [max] nor the division raises. *)
Lemma side_stats_nonempty (x : Z) (r : list Z) :
  exists mn mx,
    side_stats (x :: r)
    = Ok (mn, mx, Py.sum (x :: r) / Py.len (x :: r))
    /\ is_min mn (x :: r) /\ is_max mx (x :: r) /\ Py.len (x :: r) <> 0.
Proof.
  exists (fold_left Z.min r x), (fold_left Z.max r x).
  assert (Hlen : Py.len (x :: r) <> 0) by (unfold Py.len; simpl List.length; lia).
  unfold side_stats, Py.min, Py.max, Py.floordiv, bind.
  destruct (Py.len (x :: r) =? 0) eqn:E;
    [apply Z.eqb_eq in E; contradiction|].
  repeat split; try apply fold_min_is_min; try apply fold_max_is_max; exact Hlen.
Qed.

Lemma side_block (line : Z -> Z -> Z -> report_line) (vals : list Z)
  (out : list report_line) :
  exists lines,
    report_side line vals out = ((out ++ lines)%list, Ok tt)
    /\ side_lines line vals lines.
Proof.
  unfold report_side. destruct vals as [|x r].
  - exists []. split; [unfold lift; now rewrite List.app_nil_r | now constructor].
  - destruct (side_stats_nonempty x r) as [mn [mx [Hs [Hmin [Hmax Hlen]]]]].
    exists [line mn mx (Py.sum (x :: r) / Py.len (x :: r))]. split.
    + unfold pbind, lift, print, append. now rewrite Hs.
    + apply side_reported; auto. discriminate.
Qed.

Lemma pbind_print {B : Type} (l : report_line) (k : printing B)
  (out : list report_line) :
  pbind (print l) (fun _ => k) out = k (append out l).
Proof. reflexivity. Qed.

Lemma pbind_ok {A B : Type} (m : printing A) (k : A -> printing B)
  (out out' : list report_line) (a : A) :
  m out = (out', Ok a) -> pbind m k out = k a out'.
Proof. intros H. unfold pbind. now rewrite H. Qed.

Lemma parse_ints_strip (s : string) : parse_ints (Py.strip s) = parse_ints s.
Proof. unfold parse_ints. now rewrite split_strip. Qed.

End AnalyzerFacts.

(** C8.  The analyzer is total on every sequence of integers: it finishes
    without an exception, so without a division by zero and without
    rejecting the input, whatever the signs and the zeros; it reports the
    three counts, then minimum, maximum and average of the positive values
    only if there is one, then those of the absolute values of the negative
    values only if there is one, and an empty side is left out.  The same
    holds from the typed line that renders the sequence. *)
Theorem analyze_total (timing : list Z) :
  exists on off,
    analyze timing []
    = ([ TotalValues (Py.len timing);
         PositiveValues (Py.len (filter (fun x => 0 <? x) timing));
         NegativeValues (Py.len (filter (fun x => x <? 0) timing)) ]
       ++ on ++ off, Ok tt)%list
    /\ side_lines OnTimes (filter (fun x => 0 <? x) timing) on
    /\ side_lines OffTimes (map Z.abs (filter (fun x => x <? 0) timing)) off
    /\ analyze_timing (render_timing timing) [] = analyze timing [].
Proof.
  set (head := [ TotalValues (Py.len timing);
         PositiveValues (Py.len (filter (fun x => 0 <? x) timing));
         NegativeValues (Py.len (filter (fun x => x <? 0) timing)) ]).
  destruct (side_block OnTimes (filter (fun x => 0 <? x) timing) head)
    as [on [Hon Son]].
  destruct (side_block OffTimes (map Z.abs (filter (fun x => x <? 0) timing))
              (head ++ on)%list) as [off [Hoff Soff]].
  assert (Hrun : analyze timing [] = ((head ++ on ++ off)%list, Ok tt)).
  { unfold analyze. rewrite !pbind_print.
    change (append (append (append [] (TotalValues (Py.len timing))) _) _)
      with head.
    rewrite (pbind_ok _ _ _ _ _ Hon), Hoff. now rewrite <- List.app_assoc. }
  exists on, off. repeat split; auto.
  unfold analyze_timing.
  rewrite (pbind_ok _ _ [] [] timing).
  - now rewrite Hrun.
  - unfold lift. now rewrite parse_ints_strip, parse_render.
Qed.

(** ** The serializer *)

Section SerializerFacts.

Lemma text_lines_from_line (w : string) :
  no_line_feed w = true ->
  forall cur r,
    text_lines_from cur (w ++ r) = text_lines_from (cur ++ w) r.
Proof.
  unfold no_line_feed, Py.chars.
  induction w as [|c w IH]; intros Hw cur r; simpl in *.
  - now rewrite append_nil_r.
  - apply andb_prop in Hw. destruct Hw as [Hc Hw].
    apply negb_true_iff in Hc. rewrite Hc.
    rewrite (IH Hw). now rewrite append_assoc.
Qed.

(** The text the serializer writes splits back into the lines it joined. *)
Lemma text_lines_join (lines : list string) :
  Forall (fun l => no_line_feed l = true) lines ->
  lines <> [] ->
  text_lines (Py.join nl lines ++ nl) = lines.
Proof.
  unfold text_lines.
  induction lines as [|w ws IH]; intros H Hne; [congruence|].
  inversion H as [|? ? Hw Hws]; subst.
  destruct ws as [|w2 ws].
  - simpl Py.join. rewrite (text_lines_from_line w Hw). reflexivity.
  - change (Py.join nl (w :: w2 :: ws) ++ nl)
      with ((w ++ nl ++ Py.join nl (w2 :: ws)) ++ nl).
    rewrite !append_assoc, (text_lines_from_line w Hw).
    change (text_lines_from ("" ++ w) (nl ++ Py.join nl (w2 :: ws) ++ nl))
      with (w :: text_lines_from "" (Py.join nl (w2 :: ws) ++ nl)).
    rewrite IH; [reflexivity | exact Hws | discriminate].
Qed.

Lemma has_line_append (p : string) (lines : list string) (l : string) :
  has_line p (append lines l) = has_line p lines || Py.startswith p l.
Proof.
  unfold has_line, append. rewrite existsb_app. simpl. now rewrite orb_false_r.
Qed.

Lemma has_line_append_if {A : Type} (p : string) (truthy : A -> bool)
  (field : option A) (line : A -> string) (lines : list string) :
  (forall v, Py.startswith p (line v) = false) ->
  has_line p (append_if truthy field line lines) = has_line p lines.
Proof.
  intros Hp. unfold append_if. destruct field as [v|]; [|reflexivity].
  destruct (truthy v); [|reflexivity].
  now rewrite has_line_append, Hp, orb_false_r.
Qed.

End SerializerFacts.

(** The key of the record is the key of the Holtek sample that
    [generate_samples] writes. *)
Lemma holtek_record_key : kw_key holtek_record = kw_key sample_holtek.
Proof. reflexivity. Qed.

(** C1, as stated, fails: the Holtek record serializes to 7 lines, the five
    header lines, [Bit: 40] and the [Key:] line, not to 6. *)
Lemma holtek_record_not_six_lines :
  exists f,
    create_subghz_file holtek_record = Ok f /\
    List.length (text_lines (file_content f)) = 7%nat /\
    List.length (text_lines (file_content f)) <> 6%nat.
Proof.
  eexists. split; [reflexivity|]. split; [reflexivity|].
  vm_compute. discriminate.
Qed.

(** C1, amended.  Serializing the Holtek record, with the key
    [52AAAABBCCDDEEFF] normalized to 10 bytes and bit count 40, produces a
    file of exactly 7 lines, none of them a [RAW_Data] line or a [TE]
    line. *)
Theorem holtek_record_seven_lines :
  exists f,
    create_subghz_file holtek_record = Ok f /\
    text_lines (file_content f)
    = [ "Filetype: Flipper SubGhz Key File";
        "Version: 1";
        "Frequency: 418000000";
        "Preset: FuriHalSubGhzPresetOok270Async";
        "Protocol: Holtek";
        "Bit: 40";
        "Key: 00 00 52 AA AA BB CC DD EE FF" ] /\
    List.length (text_lines (file_content f)) = 7%nat /\
    has_line "RAW_Data" (text_lines (file_content f)) = false /\
    has_line "TE" (text_lines (file_content f)) = false.
Proof.
  eexists. split; [reflexivity|]. repeat split; reflexivity.
Qed.

Section SerializerBranches.

(** Split on every optional field and on its truth value. *)
Ltac field_cases kw :=
  destruct (kw_bit_count kw) as [bit_count|];
    [destruct (Py.truthy_int bit_count)|];
  (destruct (kw_key kw) as [key|]; [destruct (Py.truthy_str key)|]);
  (destruct (kw_te kw) as [te|]; [destruct (Py.truthy_int te)|]);
  (destruct (kw_data kw) as [data|]; [destruct (Py.truthy_str data)|]);
  destruct (1 <? match kw_repeat kw with Some r => r | None => 1 end).

(** The serializer raises only for RAW without [raw_data]. *)
Lemma subghz_lines_ok (kw : kwargs) :
  (kw_protocol kw = "RAW" -> kw_raw_data kw <> None) ->
  exists lines, subghz_lines kw = Ok lines.
Proof.
  intros Hraw. unfold subghz_lines.
  destruct (String.eqb_spec (kw_protocol kw) "RAW") as [Heq|Hne].
  - destruct (kw_raw_data kw) as [raw|]; [eauto|].
    now specialize (Hraw Heq).
  - eauto.
Qed.

(** The [TE] line is written exactly for a protocol other than RAW with a
    non-zero [te] argument. *)
Lemma te_line_iff (kw : kwargs) (lines : list string) :
  subghz_lines kw = Ok lines ->
  has_line "TE: " lines
  = negb (String.eqb (kw_protocol kw) "RAW")
    && match kw_te kw with Some t => Py.truthy_int t | None => false end.
Proof.
  unfold subghz_lines. destruct (String.eqb (kw_protocol kw) "RAW").
  - destruct (kw_raw_data kw); intros [= <-]; reflexivity.
  - intros [= <-]. unfold append_if. field_cases kw; reflexivity.
Qed.

(** The [Key] line is written exactly for a protocol other than RAW with a
    non-empty [key] argument. *)
Lemma key_line_iff (kw : kwargs) (lines : list string) :
  subghz_lines kw = Ok lines ->
  has_line "Key: " lines
  = negb (String.eqb (kw_protocol kw) "RAW")
    && match kw_key kw with Some k => Py.truthy_str k | None => false end.
Proof.
  unfold subghz_lines. destruct (String.eqb (kw_protocol kw) "RAW").
  - destruct (kw_raw_data kw); intros [= <-]; reflexivity.
  - intros [= <-]. unfold append_if. field_cases kw; reflexivity.
Qed.

Lemma branch_counts (kw : kwargs) (lines : list string) :
  subghz_lines kw = Ok lines ->
  List.length (filter is_raw_line lines)
  = (if String.eqb (kw_protocol kw) "RAW" then 1 else 0)%nat /\
  (String.eqb (kw_protocol kw) "RAW" = true ->
   filter is_structured_line lines = []) /\
  List.length lines
  = (5 + List.length (filter is_raw_line lines)
     + List.length (filter is_structured_line lines))%nat.
Proof.
  unfold subghz_lines. destruct (String.eqb (kw_protocol kw) "RAW").
  - destruct (kw_raw_data kw); intros [= <-]; repeat split; reflexivity.
  - intros [= <-]. unfold append_if.
    field_cases kw; repeat split; try reflexivity; discriminate.
Qed.

Lemma has_line_append_given {A : Type} (p : string) (truthy : A -> bool)
  (field : option A) (line : A -> string) (lines : list string) :
  has_line p (append_if truthy field line lines)
  = has_line p lines
    || match field with
       | Some v => truthy v && Py.startswith p (line v)
       | None => false
       end.
Proof.
  destruct field as [v|]; simpl; [destruct (truthy v); simpl|];
    rewrite ?has_line_append, ?orb_false_r; reflexivity.
Qed.



(** The lines of the structured branch, one equation for each. *)
Lemma structured_lines_iff (kw : kwargs) (lines : list string) :
  subghz_lines kw = Ok lines ->
  has_line "Bit: " lines
  = negb (String.eqb (kw_protocol kw) "RAW")
    && given Py.truthy_int (kw_bit_count kw) /\
  has_line "Key: " lines
  = negb (String.eqb (kw_protocol kw) "RAW")
    && given Py.truthy_str (kw_key kw) /\
  has_line "TE: " lines
  = negb (String.eqb (kw_protocol kw) "RAW")
    && given Py.truthy_int (kw_te kw) /\
  has_line "Data: " lines
  = negb (String.eqb (kw_protocol kw) "RAW")
    && given Py.truthy_str (kw_data kw) /\
  has_line "Repeat: " lines
  = negb (String.eqb (kw_protocol kw) "RAW") && repeats kw.
Proof.
  unfold subghz_lines, repeats.
  destruct (String.eqb (kw_protocol kw) "RAW").
  - destruct (kw_raw_data kw); intros [= <-]; repeat split; reflexivity.
  - intros [= <-].
    destruct (1 <? match kw_repeat kw with Some r => r | None => 1 end);
      rewrite ?has_line_append, !has_line_append_given; unfold given;
      destruct (kw_bit_count kw) as [b|]; destruct (kw_key kw) as [k|];
      destruct (kw_te kw) as [t|]; destruct (kw_data kw) as [d|];
      simpl; rewrite ?andb_false_r, ?andb_true_r, ?orb_false_r, ?orb_true_r;
      repeat split; reflexivity.
Qed.



End SerializerBranches.



(** C6, as stated, fails of the serializer: the catalog entry of Holtek
    requires no timing element, yet handed a [te] of 400 for Holtek
    [create_subghz_file] writes the line [TE: 400].  The serializer does not
    look the protocol up. *)
Lemma holtek_te_line_written :
  exists info lines f,
    getitem subghz_protocols "Holtek" = Ok info /\
    needs_te info = false /\
    subghz_lines holtek_with_te = Ok lines /\
    create_subghz_file holtek_with_te = Ok f /\
    In "TE: 400" (text_lines (file_content f)) /\
    has_line "TE: " lines = true.
Proof.
  eexists. eexists. eexists.
  split; [reflexivity|]. split; [reflexivity|]. split; [reflexivity|].
  split; [reflexivity|]. split; [|reflexivity].
  vm_compute. tauto.
Qed.

(** C6, amended.  The serializer writes a [TE] line exactly when the
    protocol is not RAW and a non-zero [te] is among its arguments; it does
    not consult the catalog.  The catalog is consulted by the wizard that
    builds the arguments: in a file the wizard writes, the [TE] line is
    there exactly when the protocol is not RAW, its catalog entry requires
    a timing element and a non-zero TE value was given, so for a protocol
    whose entry requires none, such as Holtek, there is no [TE] line
    whatever TE value is supplied. *)
Theorem te_line_only_if_required (kw : kwargs) (lines : list string) :
  subghz_lines kw = Ok lines ->
  has_line "TE: " lines
  = negb (String.eqb (kw_protocol kw) "RAW")
    && given Py.truthy_int (kw_te kw) /\
  forall protocol frequency key data te repeat output_file,
    wizard_params protocol frequency key data te repeat output_file = Ok kw ->
    exists info,
      getitem subghz_protocols protocol = Ok info /\
      has_line "TE: " lines
      = negb (String.eqb protocol "RAW") && needs_te info
        && given Py.truthy_int te /\
      (has_line "TE: " lines = true ->
       protocol <> "RAW" /\ needs_te info = true /\
       exists t, te = Some t /\ t <> 0) /\
      (needs_te info = false -> has_line "TE: " lines = false).
Proof.
  intros Hlines.
  destruct (structured_lines_iff kw lines Hlines) as [_ [_ [Hte _]]].
  split; [exact Hte|].
  intros protocol frequency key data te repeat output_file Hkw.
  unfold wizard_params in Hkw.
  destruct (getitem subghz_protocols protocol) as [info|e] eqn:Hinfo;
    [|discriminate].
  simpl in Hkw. apply Ok_inj in Hkw. subst kw.
  cbn [kw_protocol kw_te] in Hte.
  exists info. split; [reflexivity|].
  assert (Heq : has_line "TE: " lines
                = negb (String.eqb protocol "RAW") && needs_te info
                  && given Py.truthy_int te).
  { rewrite Hte. unfold given. destruct te as [t|].
    - destruct (needs_te info); destruct (Py.truthy_int t) eqn:Ht;
        cbn [andb]; rewrite ?Ht, ?andb_false_r, ?andb_true_r; reflexivity.
    - now rewrite !andb_false_r. }
  split; [exact Heq|]. rewrite Heq. split.
  - intros H. apply andb_prop in H. destruct H as [H Ht].
    apply andb_prop in H. destruct H as [Hraw Hneeds].
    apply negb_true_iff in Hraw. apply String.eqb_neq in Hraw.
    destruct te as [t|]; [|discriminate].
    repeat split; auto. exists t. split; [reflexivity|].
    unfold given, Py.truthy_int in Ht. apply negb_true_iff in Ht.
    now apply Z.eqb_neq.
  - intros Hno. rewrite Hno. now rewrite andb_false_r.
Qed.

Lemma te_line_only_if_required_witness :
  subghz_lines holtek_with_repeat = Ok holtek_lines /\
  has_line "TE: " holtek_lines
  = negb (String.eqb (kw_protocol holtek_with_repeat) "RAW")
    && given Py.truthy_int (kw_te holtek_with_repeat) /\
  forall protocol frequency key data te repeat output_file,
    wizard_params protocol frequency key data te repeat output_file
    = Ok holtek_with_repeat ->
    exists info,
      getitem subghz_protocols protocol = Ok info /\
      has_line "TE: " holtek_lines
      = negb (String.eqb protocol "RAW") && needs_te info
        && given Py.truthy_int te /\
      (has_line "TE: " holtek_lines = true ->
       protocol <> "RAW" /\ needs_te info = true /\
       exists t, te = Some t /\ t <> 0) /\
      (needs_te info = false -> has_line "TE: " holtek_lines = false).
Proof.
  split; [reflexivity|].
  apply (te_line_only_if_required holtek_with_repeat holtek_lines).
  reflexivity.
Defined.

(** C10.  An empty key input is returned unchanged, with no padding to the
    width of the protocol, and the file written from it has no [Key] line. *)
Theorem empty_key_omitted (draw : nat -> nat)
  (protocol in_key in_data in_te : string) (frequency repeat : Z)
  (output_file key data : string) (te : option Z)
  (kw : kwargs) (lines : list string) :
  Py.strip in_key = "" ->
  get_protocol_data draw protocol in_key in_data in_te = Ok (key, data, te) ->
  wizard_params protocol frequency key data te repeat output_file = Ok kw ->
  subghz_lines kw = Ok lines ->
  key = "" /\
  (forall hex_chars, format_key hex_chars (Py.strip in_key) = "") /\
  has_line "Key: " lines = false.
Proof.
  intros Hempty Hdata Hkw Hlines.
  assert (Hkey : key = "").
  { unfold get_protocol_data in Hdata. rewrite Hempty in Hdata.
    destruct (getitem subghz_protocols protocol) as [info|e]; [|discriminate].
    simpl in Hdata.
    match type of Hdata with
    | bind ?m _ = _ => destruct m as [t|e]; [|discriminate]
    end.
    simpl in Hdata. now injection Hdata as <- _ _. }
  split; [exact Hkey|]. split; [now rewrite Hempty|].
  rewrite (key_line_iff _ _ Hlines).
  unfold wizard_params in Hkw.
  destruct (getitem subghz_protocols protocol) as [info|e]; [|discriminate].
  simpl in Hkw. injection Hkw as <-. simpl kw_key. rewrite Hkey.
  apply andb_false_r.
Qed.

Lemma empty_key_omitted_witness :
  Py.strip "" = "" /\
  get_protocol_data (fun _ => 0%nat) "Holtek" "" "" "" = Ok ("", "", None) /\
  "" = "" /\
  (forall hex_chars, format_key hex_chars (Py.strip "") = "") /\
  has_line "Key: "
    [ "Filetype: Flipper SubGhz Key File"; "Version: 1";
      "Frequency: 418000000"; "Preset: FuriHalSubGhzPresetOok270Async";
      "Protocol: Holtek"; "Bit: 40" ] = false.
Proof.
  split; [reflexivity|]. split; [reflexivity|].
  apply (empty_key_omitted (fun _ => 0%nat) "Holtek" "" "" "" 418000000 1
           "holtek.sub" "" "" None
           {| kw_protocol := "Holtek"; kw_frequency := 418000000;
              kw_output_file := "holtek.sub"; kw_preset := None;
              kw_raw_data := None; kw_bit_count := Some 40;
              kw_key := Some ""; kw_te := None; kw_data := None;
              kw_repeat := Some 1 |}); reflexivity.
Defined.

(** C9.  A timing sequence rendered as the space-joined text of the
    [RAW_Data] and [data] lines and parsed back, by stripping, splitting at
    white space and converting every token to an integer, is the sequence
    itself; so is what [load_raw_from_file] returns for a file holding that
    text. *)
Theorem timing_round_trip (seq : list Z) (in_filename : string) :
  parse_ints (Py.strip (render_timing seq)) = Ok seq /\
  load_raw_from_file (fun _ => Some (render_timing seq)) in_filename
  = Some seq.
Proof.
  assert (H : parse_ints (Py.strip (render_timing seq)) = Ok seq)
    by (rewrite parse_ints_strip; apply parse_render).
  split; [exact H|]. unfold load_raw_from_file. now rewrite H.
Qed.

(** ** The key normalizer *)

Section NormalizerFacts.

Lemma all_chars_app (P : ascii -> bool) (a b : string) :
  all_chars P (a ++ b) = all_chars P a && all_chars P b.
Proof. unfold all_chars. now rewrite chars_app, forallb_app. Qed.

Lemma all_chars_zeros (P : ascii -> bool) (n : nat) :
  P "0"%char = true -> all_chars P (Py.zeros n) = true.
Proof.
  intros H0. unfold all_chars, Py.chars.
  induction n as [|k IH]; simpl; [reflexivity | now rewrite H0].
Qed.

Lemma all_chars_zfill (P : ascii -> bool) (n : nat) (s : string) :
  P "0"%char = true -> all_chars P (Py.zfill n s) = all_chars P s.
Proof.
  intros H0. unfold Py.zfill.
  destruct (n - String.length s)%nat as [|k]; [reflexivity|].
  destruct s as [|c r].
  - now rewrite all_chars_zeros.
  - destruct (Ascii.eqb c "+" || Ascii.eqb c "-").
    + change (all_chars P (String c (Py.zeros (S k) ++ r)))
        with (P c && all_chars P (Py.zeros (S k) ++ r)).
      now rewrite all_chars_app, all_chars_zeros.
    + now rewrite all_chars_app, all_chars_zeros.
Qed.

(** Induction on a text two characters at a time. *)
Lemma string_pair_ind (P : string -> Prop) :
  P "" ->
  (forall a, P (String a "")) ->
  (forall a b r, P r -> P (String a (String b r))) ->
  forall s, P s.
Proof.
  intros H0 H1 H2 s.
  enough (H : P s /\ forall a, P (String a s)) by apply H.
  induction s as [|c r [IHr IHc]]; split; auto.
Qed.

Lemma byte_pairs_nil (s : string) : byte_pairs s = [] -> s = "".
Proof. destruct s as [|a [|b r]]; simpl; congruence. Qed.

(** Grouping in byte pairs adds spaces and nothing else. *)
Lemma all_chars_group (P : ascii -> bool) (s : string) :
  P " "%char = true -> all_chars P (group_pairs s) = all_chars P s.
Proof.
  intros Hsp. unfold group_pairs.
  induction s as [|a|a b r IH] using string_pair_ind; try reflexivity.
  simpl byte_pairs.
  destruct (byte_pairs r) as [|p ps] eqn:Hr.
  - apply byte_pairs_nil in Hr. now subst r.
  - change (Py.join " " (String a (String b "") :: p :: ps))
      with (String a (String b (String " " (Py.join " " (p :: ps))))).
    unfold all_chars in *. simpl. simpl in IH. rewrite Hsp, IH. reflexivity.
Qed.

Lemma take_all (n : nat) (s : string) :
  (String.length s <= n)%nat -> Py.take n s = s.
Proof.
  revert n. induction s as [|c r IH]; intros n Hn; destruct n as [|k];
    simpl in *; try reflexivity; try lia.
  rewrite IH by lia. reflexivity.
Qed.

Lemma upper_char_cleaned (c : ascii) :
  cleaned_char (Py.upper_char c) = negb (Ascii.eqb c " ").
Proof. destruct c as [[|] [|] [|] [|] [|] [|] [|] [|]]; reflexivity. Qed.

Lemma clean_hex_cleaned (s : string) :
  all_chars cleaned_char (clean_hex s) = true.
Proof.
  unfold clean_hex, all_chars, Py.chars, Py.upper.
  induction (Py.remove_0x s) as [|c r IH]; [reflexivity|].
  simpl. destruct (Ascii.eqb c " ") eqn:Hc; [exact IH|].
  simpl. now rewrite upper_char_cleaned, Hc.
Qed.

Lemma hex_or_space_cleaned (s : string) :
  all_chars cleaned_char s = true ->
  all_chars hex_or_space s = all_chars is_hex_digit s.
Proof.
  unfold all_chars, Py.chars. induction s as [|c r IH]; [reflexivity|].
  simpl. intros H. apply andb_prop in H. destruct H as [Hc Hr].
  rewrite (IH Hr). f_equal. unfold hex_or_space.
  unfold cleaned_char in Hc. apply andb_prop in Hc. destruct Hc as [Hc _].
  apply negb_true_iff in Hc. now rewrite Hc, orb_false_r.
Qed.

Lemma all_chars_take (P : ascii -> bool) (n : nat) (s : string) :
  all_chars P s = true -> all_chars P (Py.take n s) = true.
Proof.
  unfold all_chars, Py.chars. revert n.
  induction s as [|c r IH]; intros n H; destruct n as [|k]; try reflexivity.
  simpl in *. apply andb_prop in H. destruct H as [Hc Hr].
  now rewrite Hc, IH.
Qed.

(** The key prompt raises for no typed key: with a catalog protocol that
    takes no timing element the whole dialogue returns. *)
Lemma get_protocol_data_returns (draw : nat -> nat)
  (protocol in_key in_data in_te : string) (info : subghz_info) :
  getitem subghz_protocols protocol = Ok info ->
  needs_te info = false ->
  exists key data,
    get_protocol_data draw protocol in_key in_data in_te
    = Ok (key, data, None).
Proof.
  intros Hinfo Hte. unfold get_protocol_data. rewrite Hinfo. simpl.
  rewrite Hte. simpl. eauto.
Qed.

End NormalizerFacts.

(** ** From the written text back to the lines *)

Section WrittenText.

Lemma no_line_feed_app (a b : string) :
  no_line_feed (a ++ b) = no_line_feed a && no_line_feed b.
Proof. unfold no_line_feed. now rewrite chars_app, forallb_app. Qed.

Lemma no_line_feed_uint (d : uint) :
  no_line_feed (NilEmpty.string_of_uint d) = true.
Proof. unfold no_line_feed, Py.chars. induction d; simpl; auto. Qed.

Lemma no_line_feed_str (z : Z) : no_line_feed (Py.str z) = true.
Proof.
  unfold Py.str. destruct z as [|p|p]; simpl Z.to_int; [reflexivity| |];
    unfold NilZero.string_of_int;
    rewrite nilzero_text by apply Unsigned.to_uint_nonnil.
  - apply no_line_feed_uint.
  - apply (no_line_feed_uint (Pos.to_uint p)).
Qed.

Lemma no_line_feed_render (l : list Z) : no_line_feed (render_timing l) = true.
Proof.
  unfold render_timing. induction l as [|z l IH]; [reflexivity|].
  destruct l as [|z2 l]; [apply no_line_feed_str|].
  change (Py.join " " (map Py.str (z :: z2 :: l)))
    with (Py.str z ++ String " " (Py.join " " (map Py.str (z2 :: l)))).
  rewrite no_line_feed_app, no_line_feed_str.
  exact IH.
Qed.

Lemma Forall_append {A : Type} (P : A -> Prop) (xs : list A) (x : A) :
  Forall P xs -> P x -> Forall P (append xs x).
Proof.
  intros Hxs Hx. unfold append. apply Forall_app. split; [exact Hxs|].
  now constructor.
Qed.

Lemma Forall_append_if {A : Type} (P : string -> Prop) (truthy : A -> bool)
  (field : option A) (line : A -> string) (lines : list string) :
  Forall P lines ->
  (forall v, field = Some v -> P (line v)) ->
  Forall P (append_if truthy field line lines).
Proof.
  intros Hl Hv. unfold append_if. destruct field as [v|]; [|exact Hl].
  destruct (truthy v); [|exact Hl]. apply Forall_append; auto.
Qed.

Lemma subghz_lines_clean (kw : kwargs) (lines : list string) :
  clean_fields kw = true ->
  subghz_lines kw = Ok lines ->
  Forall (fun l => no_line_feed l = true) lines.
Proof.
  unfold clean_fields. intros Hc.
  apply andb_prop in Hc. destruct Hc as [Hc Hdata].
  apply andb_prop in Hc. destruct Hc as [Hc Hkey].
  apply andb_prop in Hc. destruct Hc as [Hproto Hpreset].
  unfold subghz_lines. cbv zeta.
  match goal with
  | |- context [append_if _ (kw_bit_count kw) _ ?h] => set (head := h)
  end.
  assert (Hhead : Forall (fun l => no_line_feed l = true) head).
  { unfold head. repeat apply Forall_append; cbv beta.
    - repeat constructor.
    - rewrite no_line_feed_app. now rewrite no_line_feed_str.
    - rewrite no_line_feed_app. now destruct (kw_preset kw).
    - rewrite no_line_feed_app. now rewrite Hproto. }
  destruct (String.eqb (kw_protocol kw) "RAW").
  - destruct (kw_raw_data kw) as [raw|]; [|discriminate].
    intros H. apply Ok_inj in H. subst lines.
    apply Forall_append; [exact Hhead|]. cbv beta.
    rewrite no_line_feed_app. now rewrite no_line_feed_render.
  - intros H. apply Ok_inj in H. subst lines.
    match goal with
    | |- Forall _ (if _ then append ?b _ else _) =>
        assert (Hbody : Forall (fun l => no_line_feed l = true) b)
    end.
    { repeat apply Forall_append_if; [exact Hhead| | | |];
        intros v Hv; cbv beta; rewrite no_line_feed_app.
      - now rewrite no_line_feed_str.
      - rewrite Hv in Hkey. now rewrite Hkey.
      - now rewrite no_line_feed_str.
      - rewrite Hv in Hdata. now rewrite Hdata. }
    destruct (1 <? _); [|exact Hbody].
    apply Forall_append; [exact Hbody|]. cbv beta.
    rewrite no_line_feed_app. now rewrite no_line_feed_str.
Qed.

(** With text arguments free of line feeds, the lines of the written file
    are the lines the serializer joined. *)
Lemma written_text_lines (kw : kwargs) (lines : list string) (f : file) :
  clean_fields kw = true ->
  subghz_lines kw = Ok lines ->
  create_subghz_file kw = Ok f ->
  text_lines (file_content f) = lines.
Proof.
  intros Hc Hl Hf. unfold create_subghz_file in Hf. rewrite Hl in Hf.
  simpl in Hf. injection Hf as <-. simpl file_content.
  apply text_lines_join; [now apply (subghz_lines_clean kw)|].
  destruct (branch_counts kw lines Hl) as [_ [_ Hlen]].
  destruct lines; [simpl in Hlen; lia | discriminate].
Qed.

(** A run of the wizard for a protocol other than RAW that writes a file is
    the dialogue, the assembly of the arguments and the serializer in turn. *)
Lemma subghz_wizard_structured (draw : nat -> nat) (protocol : string)
  (frequency : Z) (raw_data : list Z)
  (in_key in_data in_te in_repeat output_file : string) (f : file) :
  protocol <> "RAW" ->
  subghz_wizard draw protocol frequency raw_data in_key in_data in_te
    in_repeat output_file = Ok (Some f) ->
  exists key data te repeat kw lines,
    get_protocol_data draw protocol in_key in_data in_te = Ok (key, data, te) /\
    get_repeat_count in_repeat = Ok repeat /\
    wizard_params protocol frequency key data te repeat output_file = Ok kw /\
    subghz_lines kw = Ok lines /\
    file_content f = Py.join nl lines ++ nl.
Proof.
  intros Hne. unfold subghz_wizard.
  destruct (negb (Py.truthy_str protocol)); [discriminate|].
  destruct (negb (Py.truthy_int frequency)); [discriminate|].
  apply String.eqb_neq in Hne. rewrite Hne.
  destruct (get_protocol_data draw protocol in_key in_data in_te)
    as [[[key data] te]|e] eqn:Hdata; [|discriminate].
  simpl.
  destruct (get_repeat_count in_repeat) as [repeat|e] eqn:Hrep; [|discriminate].
  simpl.
  destruct (wizard_params protocol frequency key data te repeat output_file)
    as [kw|e] eqn:Hkw; [|discriminate].
  simpl. unfold create_subghz_file.
  destruct (subghz_lines kw) as [lines|e] eqn:Hlines; [|discriminate].
  simpl. intros H. apply Ok_inj in H. injection H as <-.
  exists key, data, te, repeat, kw, lines. repeat split; auto.
Qed.

End WrittenText.

(** * Further properties *)

(** ** The other pattern encoders *)

Section EncoderLoops.

Lemma simple_onoff_loop (a b : Z) (l : list Z) (acc : list Z) :
  fold_left (fun pattern _ => extend pattern [a; b]) l acc
  = (acc ++ List.concat (repeat [a; b] (List.length l)))%list.
Proof.
  revert acc. induction l as [|x l IH]; intros acc; simpl.
  - now rewrite List.app_nil_r.
  - rewrite IH. unfold extend. now rewrite <- List.app_assoc.
Qed.

Lemma length_py_range (n : Z) : List.length (py_range n) = Z.to_nat n.
Proof. unfold py_range. now rewrite List.length_map, List.length_seq. Qed.

Lemma pairs_length (a b : Z) (n : nat) :
  List.length (List.concat (repeat [a; b] n)) = (2 * n)%nat.
Proof. induction n as [|k IH]; simpl in *; lia. Qed.

Lemma pairs_nth (a b : Z) (n i : nat) :
  (i < n)%nat ->
  nth (2 * i) (List.concat (repeat [a; b] n)) 0 = a /\
  nth (2 * i + 1) (List.concat (repeat [a; b] n)) 0 = b.
Proof.
  revert i. induction n as [|k IH]; intros i Hi; [lia|].
  destruct i as [|j]; [split; reflexivity|].
  replace (2 * S j)%nat with (S (S (2 * j))) by lia.
  replace (S (S (2 * j)) + 1)%nat with (S (S (2 * j + 1))) by lia.
  simpl repeat. simpl List.concat. simpl nth. apply IH. lia.
Qed.

(** The bit loops read the bits of the text and nothing else. *)
Lemma bit_loop (step : list Z -> ascii -> list Z) (pair : bool -> list Z)
  (cs : list ascii) (acc : list Z) :
  (forall p c, step p c
     = if is_bit c then (p ++ pair (is_one c))%list else p) ->
  fold_left step cs acc
  = (acc ++ flat_map pair (map is_one (filter is_bit cs)))%list.
Proof.
  intros Hstep. revert acc. induction cs as [|c cs IH]; intros acc; simpl.
  - now rewrite List.app_nil_r.
  - rewrite IH, Hstep. destruct (is_bit c); [|reflexivity].
    simpl. now rewrite <- List.app_assoc.
Qed.

Lemma bit_cases (c : ascii) :
  (Ascii.eqb c "1" = true /\ is_bit c = true /\ is_one c = true) \/
  (Ascii.eqb c "1" = false /\ Ascii.eqb c "0" = true /\ is_bit c = true
   /\ is_one c = false) \/
  (Ascii.eqb c "1" = false /\ Ascii.eqb c "0" = false /\ is_bit c = false).
Proof.
  unfold is_bit, is_one.
  destruct (Ascii.eqb c "1"), (Ascii.eqb c "0"); simpl; intuition auto.
Qed.

Ltac by_bit_cases c :=
  let H := fresh "H" in
  destruct (bit_cases c) as [H|[H|H]]; decompose [and] H;
  repeat match goal with
         | E : _ = _ |- _ => rewrite E; clear E
         end;
  reflexivity.

Lemma pwm_loop (short_pulse long_pulse gap : Z) (cs : list ascii) :
  fold_left (pwm_step short_pulse long_pulse gap) cs []
  = flat_map (fun b : bool => [if b then long_pulse else short_pulse; - gap])
      (map is_one (filter is_bit cs)).
Proof.
  rewrite (bit_loop _
    (fun b : bool => [if b then long_pulse else short_pulse; - gap])); [reflexivity|].
  intros p c. unfold pwm_step, extend. by_bit_cases c.
Qed.

Lemma rc5_loop (cs : list ascii) :
  fold_left rc5_step cs []
  = flat_map (fun b : bool => if b then [-889; 889] else [889; -889])
      (map is_one (filter is_bit cs)).
Proof.
  rewrite (bit_loop _
    (fun b : bool => if b then [-889; 889] else [889; -889])); [reflexivity|].
  intros p c. unfold rc5_step, extend. by_bit_cases c.
Qed.

Lemma manchester_bits (bit_time : Z) (cs : list ascii) :
  fold_left (manchester_step bit_time) cs []
  = flat_map (fun b : bool =>
                if b then [bit_time / 2; (- bit_time) / 2]
                else [(- bit_time) / 2; bit_time / 2])
      (map is_one (filter is_bit cs)).
Proof.
  rewrite (bit_loop _
    (fun b : bool => if b then [bit_time / 2; (- bit_time) / 2]
                     else [(- bit_time) / 2; bit_time / 2])); [reflexivity|].
  intros p c. unfold manchester_step, extend. by_bit_cases c.
Qed.

Lemma timing_pwm_loop (short_pulse long_pulse : Z) (cs : list ascii) :
  fold_left (timing_pwm_step short_pulse long_pulse) cs []
  = fold_left (pwm_step short_pulse long_pulse short_pulse) cs [].
Proof. reflexivity. Qed.

Lemma timing_manchester_loop (short_pulse : Z) (cs : list ascii) :
  fold_left (timing_manchester_step short_pulse) cs []
  = fold_left (manchester_step (2 * short_pulse)) cs [].
Proof.
  rewrite manchester_bits.
  rewrite (bit_loop _
    (fun b : bool => if b then [short_pulse; - short_pulse]
                     else [- short_pulse; short_pulse])).
  - replace (2 * short_pulse / 2) with short_pulse
      by (rewrite Z.mul_comm, Z.div_mul; lia).
    replace (- (2 * short_pulse) / 2) with (- short_pulse)
      by (replace (- (2 * short_pulse)) with ((- short_pulse) * 2) by lia;
          rewrite Z.div_mul; lia).
    reflexivity.
  - intros p c. unfold timing_manchester_step, extend. by_bit_cases c.
Qed.

Lemma custom_repeat_loop (base : list Z) (repeats gap : Z) (m : nat) :
  forall (a : nat) (acc : list Z),
    Z.of_nat (a + m) = repeats ->
    fold_left (custom_repeat_step base repeats gap)
      (map Z.of_nat (seq a m)) acc
    = (acc ++ copies_between base (gap_between gap) m)%list.
Proof.
  induction m as [|k IH]; intros a acc Hn; simpl.
  - now rewrite List.app_nil_r.
  - rewrite (IH (S a)) by lia.
    unfold custom_repeat_step, extend, append, gap_between.
    destruct k as [|j].
    + replace (Z.of_nat a <? repeats - 1) with false
        by (symmetry; apply Z.ltb_ge; lia).
      rewrite andb_false_r. simpl. now rewrite List.app_nil_r.
    + replace (Z.of_nat a <? repeats - 1) with true
        by (symmetry; apply Z.ltb_lt; lia).
      rewrite andb_true_r. unfold copies_between.
      simpl repeat. simpl List.concat.
      destruct (0 <? gap); rewrite <- !List.app_assoc; reflexivity.
Qed.

Lemma length_copies_between (base sep : list Z) (n : nat) :
  List.length (copies_between base sep n)
  = (n * List.length base + (n - 1) * List.length sep)%nat.
Proof.
  destruct n as [|k]; [reflexivity|]. unfold copies_between.
  rewrite List.length_app.
  assert (H : List.length (List.concat (repeat (base ++ sep)%list k))
              = (k * (List.length base + List.length sep))%nat).
  { induction k as [|j IH]; [reflexivity|].
    simpl repeat. simpl List.concat. rewrite !List.length_app, IH. lia. }
  rewrite H. lia.
Qed.

End EncoderLoops.

(** X1.  [generate_simple_onoff] checks no range: for inputs that parse it
    returns [max(0, repeats)] copies of the pair [on_time, -off_time], so a
    repeat count of zero or less gives the empty pattern without an error;
    the pattern has twice as many elements as copies, [on_time] at every
    even index and [-off_time] at every odd index. *)
Theorem simple_onoff_pairs (in_on_time in_off_time in_repeats : string)
  (on_time off_time repeats : Z) :
  Py.int 10 in_on_time = Ok on_time ->
  Py.int 10 in_off_time = Ok off_time ->
  Py.int 10 in_repeats = Ok repeats ->
  exists pattern,
    generate_simple_onoff in_on_time in_off_time in_repeats = Pattern pattern /\
    List.length pattern = (2 * Z.to_nat repeats)%nat /\
    forall i, (i < Z.to_nat repeats)%nat ->
      nth (2 * i) pattern 0 = on_time /\
      nth (2 * i + 1) pattern 0 = - off_time.
Proof.
  intros Hon Hoff Hrep. unfold generate_simple_onoff.
  rewrite Hon, Hoff, Hrep. simpl bind.
  rewrite simple_onoff_loop, length_py_range. simpl app.
  eexists. split; [reflexivity|]. split.
  - apply pairs_length.
  - intros i Hi. now apply pairs_nth.
Qed.

Lemma simple_onoff_pairs_witness :
  Py.int 10 "500" = Ok 500 /\ Py.int 10 "300" = Ok 300 /\
  Py.int 10 "-2" = Ok (-2) /\
  exists pattern,
    generate_simple_onoff "500" "300" "-2" = Pattern pattern /\
    List.length pattern = (2 * Z.to_nat (-2))%nat /\
    forall i, (i < Z.to_nat (-2))%nat ->
      nth (2 * i) pattern 0 = 500 /\
      nth (2 * i + 1) pattern 0 = - 300.
Proof.
  split; [reflexivity|]. split; [reflexivity|]. split; [reflexivity|].
  apply (simple_onoff_pairs "500" "300" "-2" 500 300 (-2)); reflexivity.
Defined.

(** X2.  [generate_pwm] emits, for the bits of the typed text in order, the
    pair [long_pulse, -gap] for 1 and [short_pulse, -gap] for 0, and skips
    every other character: two elements for each bit character. *)
Theorem pwm_pattern (in_short in_long in_gap in_data : string)
  (short_pulse long_pulse gap : Z) :
  Py.int 10 in_short = Ok short_pulse ->
  Py.int 10 in_long = Ok long_pulse ->
  Py.int 10 in_gap = Ok gap ->
  generate_pwm in_short in_long in_gap in_data
  = Pattern
      (flat_map (fun b : bool => [if b then long_pulse else short_pulse; - gap])
         (bits_of (Py.strip in_data))) /\
  List.length (returned (generate_pwm in_short in_long in_gap in_data))
  = (2 * List.length (bits_of (Py.strip in_data)))%nat.
Proof.
  intros Hs Hl Hg. unfold generate_pwm. rewrite Hs, Hl, Hg. simpl bind.
  rewrite pwm_loop. fold (bits_of (Py.strip in_data)).
  split; [reflexivity|]. simpl returned.
  induction (bits_of (Py.strip in_data)) as [|b bs IH]; simpl in *; lia.
Qed.

Lemma pwm_pattern_witness :
  Py.int 10 "300" = Ok 300 /\ Py.int 10 "900" = Ok 900 /\
  Py.int 10 "400" = Ok 400 /\
  generate_pwm "300" "900" "400" "1 0x"
  = Pattern
      (flat_map (fun b : bool => [if b then 900 else 300; - 400])
         (bits_of (Py.strip "1 0x"))) /\
  List.length (returned (generate_pwm "300" "900" "400" "1 0x"))
  = (2 * List.length (bits_of (Py.strip "1 0x")))%nat.
Proof.
  split; [reflexivity|]. split; [reflexivity|]. split; [reflexivity|].
  apply (pwm_pattern "300" "900" "400" "1 0x" 300 900 400); reflexivity.
Defined.

(** X3.  The RC5-like encoder is the Manchester encoder at bit time 1778
    with every sign inverted, whatever the text: it neither checks for 13
    bits nor rejects other characters. *)
Theorem rc5_is_inverted_manchester (in_data : string) :
  generate_rc5_like in_data
  = map Z.opp (returned (generate_manchester "1778" in_data)) /\
  List.length (generate_rc5_like in_data)
  = (2 * List.length (bits_of (Py.strip in_data)))%nat.
Proof.
  unfold generate_rc5_like.
  change (generate_manchester "1778" in_data)
    with (Pattern (manchester_pattern 1778 (Py.strip in_data))).
  unfold returned, manchester_pattern.
  rewrite rc5_loop, manchester_bits. fold (bits_of (Py.strip in_data)).
  change (1778 / 2) with 889. change (- (1778) / 2) with (-889).
  induction (bits_of (Py.strip in_data)) as [|b bs [IH1 IH2]];
    [split; reflexivity|].
  simpl flat_map. rewrite List.map_app, List.length_app, <- IH1, IH2.
  destruct b; split; simpl; try reflexivity; lia.
Qed.

(** X4.  [generate_custom_repeat] returns [max(0, repeats)] copies of the
    base pattern with the single element [-gap] between two consecutive
    copies when the gap is positive, and nothing between them otherwise;
    no gap follows the last copy. *)
Theorem custom_repeat_copies (in_base in_repeats in_gap : string)
  (base_pattern : list Z) (repeats gap : Z) :
  parse_ints (Py.strip in_base) = Ok base_pattern ->
  Py.int 10 in_repeats = Ok repeats ->
  Py.int 10 in_gap = Ok gap ->
  generate_custom_repeat in_base in_repeats in_gap
  = Pattern
      (copies_between base_pattern (gap_between gap) (Z.to_nat repeats)) /\
  List.length (returned (generate_custom_repeat in_base in_repeats in_gap))
  = (Z.to_nat repeats * List.length base_pattern
     + (Z.to_nat repeats - 1) * List.length (gap_between gap))%nat.
Proof.
  intros Hb Hr Hg. unfold generate_custom_repeat.
  rewrite Hb, Hr, Hg. simpl bind. unfold py_range.
  destruct (Z.to_nat repeats) as [|k] eqn:Hn.
  - split; reflexivity.
  - rewrite (custom_repeat_loop base_pattern repeats gap (S k) 0 []) by lia.
    simpl app. split; [reflexivity|].
    exact (length_copies_between base_pattern (gap_between gap) (S k)).
Qed.

Lemma custom_repeat_copies_witness :
  parse_ints (Py.strip "500 -500") = Ok [500; -500] /\
  Py.int 10 "3" = Ok 3 /\ Py.int 10 "9000" = Ok 9000 /\
  generate_custom_repeat "500 -500" "3" "9000"
  = Pattern (copies_between [500; -500] (gap_between 9000) (Z.to_nat 3)) /\
  List.length (returned (generate_custom_repeat "500 -500" "3" "9000"))
  = (Z.to_nat 3 * List.length [500; -500]%Z
     + (Z.to_nat 3 - 1) * List.length (gap_between 9000))%nat.
Proof.
  split; [reflexivity|]. split; [reflexivity|]. split; [reflexivity|].
  apply (custom_repeat_copies "500 -500" "3" "9000" [500; -500] 3 9000);
    reflexivity.
Defined.

(** ** The analysis tools *)

Section BinaryToTiming.

Lemma binary_to_timing_timing (now : Z) (fs : files)
  (in_binary in_short in_long in_encoding in_save in_filename : string)
  (short_pulse long_pulse : Z) :
  Py.int 10 in_short = Ok short_pulse ->
  Py.int 10 in_long = Ok long_pulse ->
  exists fs',
    binary_to_timing now fs in_binary in_short in_long in_encoding in_save
      in_filename
    = Ok (binary_timing (Py.strip in_binary) short_pulse long_pulse
            (or_default (Py.lower (Py.strip in_encoding)) "pwm"), fs').
Proof.
  intros Hs Hl. unfold binary_to_timing. rewrite Hs, Hl. simpl bind.
  destruct (String.eqb (Py.lower in_save) "y"); eauto.
Qed.

Lemma mapM_raises {A : Type} (f : A -> result Z) (xs : list A) (e : exn) :
  (forall x e', f x = Raise e' -> e' = ValueError) ->
  mapM f xs = Raise e -> e = ValueError.
Proof.
  intros Hf. induction xs as [|x xs IH]; simpl; [discriminate|].
  destruct (f x) as [y|e'] eqn:Hx; simpl.
  - destruct (mapM f xs) as [ys|e'']; simpl; [discriminate|].
    intros [= <-]. now apply IH.
  - intros [= <-]. eapply Hf; eauto.
Qed.

(** A timing text that does not parse raises [ValueError] and nothing
    else. *)
Lemma parse_ints_raises (text : string) (e : exn) :
  parse_ints text = Raise e -> e = ValueError.
Proof.
  unfold parse_ints. apply mapM_raises. intros x e'. apply int_raises.
Qed.

End BinaryToTiming.

(** X5.  With the encoding [manchester], [binary_to_timing] gives for every
    short pulse the pattern of the Manchester encoder at the bit time
    [2 * short_pulse]; the long pulse plays no part. *)
Theorem binary_to_timing_manchester (now : Z) (fs : files)
  (in_binary in_short in_long in_encoding in_save in_filename : string)
  (short_pulse long_pulse : Z) :
  Py.int 10 in_short = Ok short_pulse ->
  Py.int 10 in_long = Ok long_pulse ->
  Py.lower (Py.strip in_encoding) = "manchester" ->
  exists fs',
    binary_to_timing now fs in_binary in_short in_long in_encoding in_save
      in_filename
    = Ok (manchester_pattern (2 * short_pulse) (Py.strip in_binary), fs').
Proof.
  intros Hs Hl He.
  destruct (binary_to_timing_timing now fs in_binary in_short in_long
              in_encoding in_save in_filename _ _ Hs Hl) as [fs' H].
  exists fs'. rewrite H, He. unfold binary_timing, manchester_pattern.
  simpl. now rewrite timing_manchester_loop.
Qed.

Lemma binary_to_timing_manchester_witness :
  Py.int 10 "445" = Ok 445 /\ Py.int 10 "900" = Ok 900 /\
  Py.lower (Py.strip " Manchester") = "manchester" /\
  exists fs',
    binary_to_timing 0 (fun _ => None) "10" "445" "900" " Manchester" "n" ""
    = Ok (manchester_pattern (2 * 445) (Py.strip "10"), fs').
Proof.
  split; [reflexivity|]. split; [reflexivity|]. split; [reflexivity|].
  apply (binary_to_timing_manchester 0 (fun _ => None) "10" "445" "900"
           " Manchester" "n" "" 445 900); reflexivity.
Defined.

(** X6.  [binary_to_timing] rejects no encoding name: a blank answer means
    [pwm], with the pairs [long, -short] for 1 and [short, -short] for 0,
    and any name other than [pwm] and [manchester] gives the empty timing
    without an error. *)
Theorem binary_to_timing_encoding_names (now : Z) (fs : files)
  (in_binary in_short in_long in_encoding in_save in_filename : string)
  (short_pulse long_pulse : Z) :
  Py.int 10 in_short = Ok short_pulse ->
  Py.int 10 in_long = Ok long_pulse ->
  exists timing fs',
    binary_to_timing now fs in_binary in_short in_long in_encoding in_save
      in_filename = Ok (timing, fs') /\
    (Py.lower (Py.strip in_encoding) = "" \/
     Py.lower (Py.strip in_encoding) = "pwm" ->
     timing
     = flat_map
         (fun b : bool =>
            [if b then long_pulse else short_pulse; - short_pulse])
         (bits_of (Py.strip in_binary))) /\
    (Py.lower (Py.strip in_encoding) <> "" ->
     Py.lower (Py.strip in_encoding) <> "pwm" ->
     Py.lower (Py.strip in_encoding) <> "manchester" ->
     timing = []).
Proof.
  intros Hs Hl.
  destruct (binary_to_timing_timing now fs in_binary in_short in_long
              in_encoding in_save in_filename _ _ Hs Hl) as [fs' H].
  eexists. exists fs'. split; [exact H|]. split.
  - intros He.
    assert (Hp : or_default (Py.lower (Py.strip in_encoding)) "pwm" = "pwm")
      by (destruct He as [-> | ->]; reflexivity).
    rewrite Hp. unfold binary_timing. simpl.
    rewrite timing_pwm_loop. apply pwm_loop.
  - intros H0 H1 H2. unfold binary_timing, or_default.
    destruct (Py.lower (Py.strip in_encoding)) as [|c r] eqn:He;
      [congruence|].
    simpl Py.truthy_str. cbv iota.
    apply String.eqb_neq in H1. apply String.eqb_neq in H2.
    now rewrite H1, H2.
Qed.

Lemma binary_to_timing_encoding_names_witness :
  Py.int 10 "300" = Ok 300 /\ Py.int 10 "900" = Ok 900 /\
  exists timing fs',
    binary_to_timing 0 (fun _ => None) "10" "300" "900" "nrz" "n" ""
    = Ok (timing, fs') /\
    (Py.lower (Py.strip "nrz") = "" \/ Py.lower (Py.strip "nrz") = "pwm" ->
     timing
     = flat_map (fun b : bool => [if b then 900 else 300; - 300])
         (bits_of (Py.strip "10"))) /\
    (Py.lower (Py.strip "nrz") <> "" ->
     Py.lower (Py.strip "nrz") <> "pwm" ->
     Py.lower (Py.strip "nrz") <> "manchester" ->
     timing = []).
Proof.
  split; [reflexivity|]. split; [reflexivity|].
  apply (binary_to_timing_encoding_names 0 (fun _ => None) "10" "300" "900"
           "nrz" "n" "" 300 900); reflexivity.
Defined.

(** X7.  A timing that [binary_to_timing] saves under a typed file name is
    read back by [load_raw_from_file], asked for that name, as the same
    list of integers, whatever the files were before. *)
Theorem saved_timing_loads_back (now : Z) (fs fs' : files)
  (in_binary in_short in_long in_encoding in_save in_filename : string)
  (timing : list Z) :
  binary_to_timing now fs in_binary in_short in_long in_encoding in_save
    in_filename = Ok (timing, fs') ->
  Py.lower in_save = "y" ->
  Py.strip in_filename <> "" ->
  load_raw_from_file fs' in_filename = Some timing.
Proof.
  unfold binary_to_timing. intros Hrun Hsave Hname.
  destruct (Py.int 10 in_short) as [short_pulse|e]; [|discriminate].
  destruct (Py.int 10 in_long) as [long_pulse|e]; [|discriminate].
  simpl in Hrun. rewrite Hsave in Hrun. simpl in Hrun.
  unfold or_default in Hrun at 1.
  destruct (Py.strip in_filename) as [|c r] eqn:Hf; [congruence|].
  simpl Py.truthy_str in Hrun. cbv iota in Hrun.
  injection Hrun as <- <-.
  unfold load_raw_from_file, write_file. rewrite Hf, String.eqb_refl.
  now rewrite parse_ints_strip, parse_render.
Qed.

Lemma saved_timing_loads_back_witness :
  binary_to_timing 0 (fun _ => None) "10" "300" "900" "" "Y" " t.txt "
  = Ok ([900; -300; 300; -300],
        write_file (fun _ => None) "t.txt" "900 -300 300 -300") /\
  Py.lower "Y" = "y" /\
  Py.strip " t.txt " <> "" /\
  load_raw_from_file
    (write_file (fun _ => None) "t.txt" "900 -300 300 -300") " t.txt "
  = Some [900; -300; 300; -300].
Proof.
  split; [reflexivity|]. split; [reflexivity|]. split; [discriminate|].
  apply (saved_timing_loads_back 0 (fun _ => None) _ "10" "300" "900" "" "Y"
           " t.txt "); [reflexivity | reflexivity | discriminate].
Defined.

(** ** Signs and lengths of binary texts *)

Section BinaryText.

Lemma bin_digits_lower (p : positive) :
  2 ^ (Z.of_nat (String.length (Py.bin_digits p)) - 1) <= Zpos p.
Proof.
  induction p as [q IH|q IH|]; simpl Py.bin_digits.
  - rewrite length_bin_digits_snoc by reflexivity.
    rewrite Nat2Z.inj_succ.
    replace (Z.succ (Z.of_nat (String.length (Py.bin_digits q))) - 1)
      with (Z.succ (Z.of_nat (String.length (Py.bin_digits q)) - 1)) by lia.
    destruct (bin_digits_head q) as [r Hr].
    rewrite Z.pow_succ_r by (rewrite Hr; simpl String.length; lia). lia.
  - rewrite length_bin_digits_snoc by reflexivity.
    rewrite Nat2Z.inj_succ.
    replace (Z.succ (Z.of_nat (String.length (Py.bin_digits q))) - 1)
      with (Z.succ (Z.of_nat (String.length (Py.bin_digits q)) - 1)) by lia.
    destruct (bin_digits_head q) as [r Hr].
    rewrite Z.pow_succ_r by (rewrite Hr; simpl String.length; lia). lia.
  - reflexivity.
Qed.

(** The 32 characters read for a negative value: the letter [b] that
    [bin(value)[2:]] leaves in front counts as a zero bit. *)
Lemma nec_binary_bits_negative (p : positive) :
  Zpos p < 2 ^ 31 ->
  map is_one (Py.chars (Py.zfill 32 (Py.drop 2 (Py.bin (Zneg p)))))
  = msb_bits 32 (Zpos p).
Proof.
  intros Hv.
  change (Py.drop 2 (Py.bin (Zneg p))) with (String "b" (Py.bin_digits p)).
  assert (Hlen : (String.length (Py.bin_digits p) <= 31)%nat)
    by (apply bin_digits_length; change (Z.of_nat 31) with 31; lia).
  unfold Py.zfill. simpl String.length.
  destruct (32 - S (String.length (Py.bin_digits p)))%nat as [|k] eqn:Hpad.
  - assert (Hl : String.length (Py.bin_digits p) = 31%nat) by lia.
    change (Py.chars (String "b" (Py.bin_digits p)))
      with ("b"%char :: Py.chars (Py.bin_digits p)).
    simpl map. rewrite bin_digits_bits, Hl.
    change (is_one "b") with false.
    symmetry. apply (msb_bits_pad 1 31).
    rewrite <- Hl. split; [lia | apply bin_digits_value].
  - change (Ascii.eqb "b" "+" || Ascii.eqb "b" "-") with false. cbv iota.
    rewrite chars_app, List.map_app, map_is_one_zeros.
    change (Py.chars (String "b" (Py.bin_digits p)))
      with ("b"%char :: Py.chars (Py.bin_digits p)).
    simpl map. rewrite bin_digits_bits.
    change (is_one "b") with false.
    change (false :: msb_bits (String.length (Py.bin_digits p)) (Zpos p))
      with (repeat false 1
              ++ msb_bits (String.length (Py.bin_digits p)) (Zpos p))%list.
    rewrite List.app_assoc, <- List.repeat_app.
    rewrite <- msb_bits_pad by (split; [lia | apply bin_digits_value]).
    f_equal. lia.
Qed.

End BinaryText.

(** X8.  The NEC-like encoder ignores a minus sign: for a typed value [-v]
    with [0 < v < 2^31] it returns the pattern of [v], because the letter
    [b] left in the binary text is read as a zero bit. *)
Theorem nec_like_ignores_sign (in_data : string) (v : Z) :
  Py.int 16 (nec_data in_data) = Ok (- v) ->
  0 < v < 2 ^ 31 ->
  generate_nec_like in_data
  = Pattern ([9000; -4500] ++ flat_map nec_bit (msb_bits 32 v) ++ [560]).
Proof.
  intros Hparse Hv. unfold generate_nec_like. rewrite Hparse. unfold append.
  destruct v as [|p|p]; try lia.
  change (- Zpos p) with (Zneg p).
  rewrite nec_loop, nec_binary_bits_negative by lia.
  now rewrite <- List.app_assoc.
Qed.

Lemma nec_like_ignores_sign_witness :
  Py.int 16 (nec_data "-0x12345678") = Ok (- 305419896) /\
  0 < 305419896 < 2 ^ 31 /\
  generate_nec_like "-0x12345678"
  = Pattern ([9000; -4500] ++ flat_map nec_bit (msb_bits 32 305419896)
             ++ [560]).
Proof.
  split; [reflexivity|]. split; [lia|].
  apply (nec_like_ignores_sign "-0x12345678" 305419896); [reflexivity | lia].
Defined.

(** X9.  For a typed value [v > 0], [hex_to_binary] prints the binary text
    without leading zeros and as its length the number [n] of significant
    bits, [2^(n-1) <= v < 2^n], however many zero digits the hex text had
    in front. *)
Theorem hex_to_binary_length (in_hex : string) (v : Z) :
  Py.int 16 (Py.remove_0x (Py.strip in_hex)) = Ok v ->
  0 < v ->
  exists binary n,
    hex_to_binary in_hex = Some (binary, n) /\
    n = Z.of_nat (String.length binary) /\
    Py.startswith "1" binary = true /\
    2 ^ (n - 1) <= v < 2 ^ n.
Proof.
  intros Hparse Hv. unfold hex_to_binary. rewrite Hparse.
  destruct v as [|p|p]; try lia.
  change (Py.drop 2 (Py.bin (Zpos p))) with (Py.bin_digits p).
  do 2 eexists. split; [reflexivity|]. split; [reflexivity|]. split.
  - destruct (bin_digits_head p) as [r ->]. reflexivity.
  - split; [apply bin_digits_lower | apply bin_digits_value].
Qed.

Lemma hex_to_binary_length_witness :
  Py.int 16 (Py.remove_0x (Py.strip "0x000F")) = Ok 15 /\
  0 < 15 /\
  exists binary n,
    hex_to_binary "0x000F" = Some (binary, n) /\
    n = Z.of_nat (String.length binary) /\
    Py.startswith "1" binary = true /\
    2 ^ (n - 1) <= 15 < 2 ^ n.
Proof.
  split; [reflexivity|]. split; [lia|].
  apply (hex_to_binary_length "0x000F" 15); [reflexivity | lia].
Defined.

(** ** Menus *)

Section MenuFacts.

Lemma getitem_keys {V : Type} (d : list (string * V)) (name : string) :
  In name (keys d) -> exists v, getitem d name = Ok v.
Proof.
  unfold keys. induction d as [|[k v] d IH]; simpl; [tauto|].
  intros [Hk|Hin].
  - subst k. rewrite String.eqb_refl. eauto.
  - destruct (String.eqb k name); eauto.
Qed.

Lemma select_protocol_choice (protocol_type : string) (inputs : list string)
  (name : string) :
  select_protocol protocol_type inputs = Done (Some name) ->
  exists line n,
    In line inputs /\
    Py.int 10 (Py.strip line) = Ok n /\
    1 <= n <= Py.len (protocol_list protocol_type) /\
    nth_error (protocol_list protocol_type) (Z.to_nat (n - 1)) = Some name.
Proof.
  induction inputs as [|line rest IH]; simpl; [discriminate|].
  destruct (String.eqb (Py.lower (Py.strip line)) "q"); [discriminate|].
  destruct (Py.int 10 (Py.strip line)) as [n|e] eqn:Hn; [|discriminate].
  destruct ((0 <=? n - 1) && (n - 1 <? Py.len (protocol_list protocol_type)))
    eqn:Hrange.
  - intros [= Hnth]. exists line, n.
    apply andb_prop in Hrange. destruct Hrange as [H0 H1].
    apply Z.leb_le in H0. apply Z.ltb_lt in H1.
    repeat split; auto; lia.
  - intros H. destruct (IH H) as [l [m [Hin Hm]]].
    exists l, m. split; [now right | exact Hm].
Qed.

(** The serializer raises for no record of a protocol other than RAW. *)
Lemma create_subghz_file_structured (kw : kwargs) :
  kw_protocol kw <> "RAW" -> exists f, create_subghz_file kw = Ok f.
Proof.
  intros Hne. destruct (subghz_lines_ok kw) as [lines Hl]; [congruence|].
  unfold create_subghz_file. rewrite Hl. simpl. eauto.
Qed.

(** A name chosen in the Sub-GHz menu is in the Sub-GHz catalog. *)
Lemma selected_subghz_protocol (inputs : list string) (name : string) :
  select_protocol "subghz" inputs = Done (Some name) ->
  exists info, getitem subghz_protocols name = Ok info.
Proof.
  intros Hsel.
  destruct (select_protocol_choice _ _ _ Hsel) as [line [n [_ [_ [_ Hnth]]]]].
  apply nth_error_In in Hnth. now apply getitem_keys.
Qed.

End MenuFacts.

(** X10.  [select_protocol] returns nothing but a name of the catalog it
    shows: the name returned is the entry, in the order of declaration, that
    one of the answers numbered from 1, and looking it up in that catalog
    succeeds. *)
Theorem select_protocol_in_catalog (protocol_type : string)
  (inputs : list string) (name : string) :
  select_protocol protocol_type inputs = Done (Some name) ->
  (exists line n,
     In line inputs /\
     Py.int 10 (Py.strip line) = Ok n /\
     1 <= n <= Py.len (protocol_list protocol_type) /\
     nth_error (protocol_list protocol_type) (Z.to_nat (n - 1)) = Some name) /\
  if String.eqb protocol_type "subghz"
  then exists info, getitem subghz_protocols name = Ok info
  else exists info, getitem ir_protocols name = Ok info.
Proof.
  intros Hsel. pose proof (select_protocol_choice _ _ _ Hsel) as Hc.
  split; [exact Hc|].
  destruct Hc as [line [n [_ [_ [_ Hnth]]]]].
  apply nth_error_In in Hnth. unfold protocol_list in Hnth.
  destruct (String.eqb protocol_type "subghz"); now apply getitem_keys.
Qed.

Lemma select_protocol_in_catalog_witness :
  select_protocol "subghz" ["0"; "12"; " 10 "] = Done (Some "Holtek") /\
  (exists line n,
     In line ["0"; "12"; " 10 "] /\
     Py.int 10 (Py.strip line) = Ok n /\
     1 <= n <= Py.len (protocol_list "subghz") /\
     nth_error (protocol_list "subghz") (Z.to_nat (n - 1)) = Some "Holtek") /\
  if String.eqb "subghz" "subghz"
  then exists info, getitem subghz_protocols "Holtek" = Ok info
  else exists info, getitem ir_protocols "Holtek" = Ok info.
Proof.
  split; [reflexivity|].
  apply (select_protocol_in_catalog "subghz" ["0"; "12"; " 10 "] "Holtek").
  reflexivity.
Defined.

(** X11.  For a protocol chosen in the Sub-GHz menu the wizard never fails
    on a missing catalog entry or a missing keyword argument: whatever is
    typed, it raises no [KeyError]. *)
Theorem subghz_wizard_finds_every_key (draw : nat -> nat)
  (inputs : list string) (protocol : string) (frequency : Z)
  (raw_data : list Z) (in_key in_data in_te in_repeat output_file : string) :
  select_protocol "subghz" inputs = Done (Some protocol) ->
  subghz_wizard draw protocol frequency raw_data in_key in_data in_te
    in_repeat output_file <> Raise KeyError.
Proof.
  intros Hsel.
  destruct (selected_subghz_protocol _ _ Hsel) as [info Hinfo].
  unfold subghz_wizard.
  destruct (negb (Py.truthy_str protocol)); [discriminate|].
  destruct (negb (Py.truthy_int frequency)); [discriminate|].
  destruct (String.eqb_spec protocol "RAW") as [Hraw|Hne].
  - destruct raw_data as [|x r]; [discriminate|].
    unfold create_subghz_file, subghz_lines. simpl. discriminate.
  - assert (Hfile : forall key data te repeat,
      bind (wizard_params protocol frequency key data te repeat output_file)
        (fun params => bind (create_subghz_file params)
                         (fun f => Ok (Some f)))
      <> Raise KeyError).
    { intros key data te repeat. unfold wizard_params. rewrite Hinfo. simpl.
      match goal with
      | |- bind (create_subghz_file ?kw) _ <> _ =>
          destruct (create_subghz_file_structured kw Hne) as [f ->]
      end.
      discriminate. }
    destruct (get_protocol_data draw protocol in_key in_data in_te)
      as [kdt|e] eqn:Hdata.
    + simpl bind at 1.
      destruct (get_repeat_count in_repeat) as [r|e] eqn:Hrep.
      * simpl bind at 1. apply Hfile.
      * simpl. intros [= ->]. unfold get_repeat_count in Hrep.
        destruct (Py.truthy_str (Py.strip in_repeat)); [|discriminate].
        apply int_raises in Hrep. discriminate.
    + simpl. intros [= ->]. unfold get_protocol_data in Hdata.
      rewrite Hinfo in Hdata. simpl in Hdata.
      destruct (needs_te info); [|discriminate].
      destruct (Py.truthy_str (Py.strip in_te)); [|discriminate].
      destruct (Py.int 10 (Py.strip in_te)) as [t|e] eqn:Hte;
        [discriminate|].
      simpl in Hdata. apply int_raises in Hte. congruence.
Qed.

Lemma subghz_wizard_finds_every_key_witness :
  select_protocol "subghz" ["0"; " 10 "] = Done (Some "Holtek") /\
  subghz_wizard (fun _ => 0%nat) "Holtek" 418000000 [] "52AAAABBCCDDEEFF"
    "" "" "" "holtek.sub" <> Raise KeyError.
Proof.
  split; [reflexivity|].
  apply (subghz_wizard_finds_every_key (fun _ => 0%nat) ["0"; " 10 "]
           "Holtek" 418000000 [] "52AAAABBCCDDEEFF" "" "" "" "holtek.sub").
  reflexivity.
Defined.

(** X12.  [manual_raw_entry] hands back only a confirmed line of at least
    four values: the list returned has four elements or more and is the
    parse of a typed line that is directly followed by the answer [y] (in
    either letter case, white space around it ignored). *)
Theorem manual_raw_entry_at_least_four (inputs : list string)
  (raw_data : list Z) :
  manual_raw_entry inputs = Done (Some raw_data) ->
  (4 <= List.length raw_data)%nat /\
  exists before line answer rest,
    inputs = extend before (line :: answer :: rest) /\
    In line inputs /\
    parse_ints (Py.strip line) = Ok raw_data /\
    Py.lower (Py.strip answer) = "y".
Proof.
  remember (List.length inputs) as n eqn:Hn.
  revert inputs Hn.
  induction n as [n IH] using lt_wf_ind. intros inputs Hn.
  destruct inputs as [|line rest]; simpl; [discriminate|].
  assert (Hrest : manual_raw_entry rest = Done (Some raw_data) ->
    (4 <= List.length raw_data)%nat /\
    exists before l answer rest',
      line :: rest = extend before (l :: answer :: rest') /\
      In l (line :: rest) /\
      parse_ints (Py.strip l) = Ok raw_data /\
      Py.lower (Py.strip answer) = "y").
  { intros H. destruct (IH (List.length rest)) with (inputs := rest)
      as [H4 [before [l [a [r [Heq [Hin [Hl Hy]]]]]]]];
      auto; [simpl in Hn; lia|].
    split; [exact H4|]. exists (line :: before), l, a, r.
    split; [unfold extend in *; simpl; now rewrite Heq|].
    split; [now right | now split]. }
  destruct (String.eqb (Py.lower (Py.strip line)) "q"); [discriminate|].
  destruct (String.eqb (Py.lower (Py.strip line)) "help"); [exact Hrest|].
  destruct (parse_ints (Py.strip line)) as [vals|e] eqn:Hparse; [|exact Hrest].
  destruct (Py.len vals <? 4) eqn:Hlen; [exact Hrest|].
  destruct rest as [|answer rest']; [discriminate|].
  destruct (String.eqb_spec (Py.lower (Py.strip answer)) "y") as [Hy|Hn'].
  - intros [= <-]. apply Z.ltb_ge in Hlen. unfold Py.len in Hlen.
    split; [lia|]. exists [], line, answer, rest'.
    split; [reflexivity|]. split; [now left | now split].
  - intros H. destruct (IH (List.length rest')) with (inputs := rest')
      as [H4 [before [l [a [r [Heq [Hin [Hl Hy]]]]]]]];
      auto; [simpl in Hn; lia|].
    split; [exact H4|]. exists (line :: answer :: before), l, a, r.
    split; [unfold extend in *; simpl; now rewrite Heq|].
    split; [now right; right | now split].
Qed.

Lemma manual_raw_entry_at_least_four_witness :
  manual_raw_entry ["help"; "1 2 3"; "1 2 x 4"; "9000 -4500 560 -560"; "n";
                    " 500 -500 1000 -500 "; "Y"]
  = Done (Some [500; -500; 1000; -500]) /\
  (4 <= List.length [500; -500; 1000; -500]%Z)%nat /\
  exists before line answer rest,
    ["help"; "1 2 3"; "1 2 x 4"; "9000 -4500 560 -560"; "n";
     " 500 -500 1000 -500 "; "Y"]
    = extend before (line :: answer :: rest) /\
    In line ["help"; "1 2 3"; "1 2 x 4"; "9000 -4500 560 -560"; "n";
             " 500 -500 1000 -500 "; "Y"] /\
    parse_ints (Py.strip line) = Ok [500; -500; 1000; -500] /\
    Py.lower (Py.strip answer) = "y".
Proof.
  split; [reflexivity|].
  apply (manual_raw_entry_at_least_four
           ["help"; "1 2 3"; "1 2 x 4"; "9000 -4500 560 -560"; "n";
            " 500 -500 1000 -500 "; "Y"] [500; -500; 1000; -500]).
  reflexivity.
Defined.

(** X13.  Every pattern [common_ir_patterns] returns is an NEC frame of
    three bits: the leader [9000, -4500], three bit pairs of the NEC-like
    encoder and the lone closing 560. *)
Theorem common_ir_patterns_are_nec_frames (in_choice : string)
  (pattern : list Z) :
  common_ir_patterns in_choice = Some pattern ->
  exists b1 b2 b3,
    pattern = ([9000; -4500] ++ flat_map nec_bit [b1; b2; b3] ++ [560])%list.
Proof.
  unfold common_ir_patterns.
  destruct (Py.int 10 in_choice) as [n|e]; [|discriminate].
  destruct ((0 <=? n - 1) && (n - 1 <? Py.len (keys ir_pattern_library)));
    [|discriminate].
  destruct (Z.to_nat (n - 1)) as [|[|[|[|[|k]]]]]; simpl;
    try (intros [= <-]).
  - exists true, false, true. reflexivity.
  - exists false, true, false. reflexivity.
  - exists true, true, false. reflexivity.
  - exists false, false, true. reflexivity.
  - exists true, false, true. reflexivity.
  - destruct k; discriminate.
Qed.

Lemma common_ir_patterns_are_nec_frames_witness :
  common_ir_patterns "2"
  = Some [9000; -4500; 560; -560; 560; -1690; 560; -560; 560] /\
  exists b1 b2 b3,
    [9000; -4500; 560; -560; 560; -1690; 560; -560; 560]
    = ([9000; -4500] ++ flat_map nec_bit [b1; b2; b3] ++ [560])%list.
Proof.
  split; [reflexivity|].
  apply (common_ir_patterns_are_nec_frames "2"). reflexivity.
Defined.

(** ** More on the timing analyzer *)

Section AnalyzerReport.

(** The report of the analyzer: the three counts, then the line of each
    side that has values. *)
Lemma analyze_report (timing : list Z) :
  exists on off,
    analyze timing []
    = ([ TotalValues (Py.len timing);
         PositiveValues (Py.len (filter (fun x => 0 <? x) timing));
         NegativeValues (Py.len (filter (fun x => x <? 0) timing)) ]
       ++ on ++ off, Ok tt)%list
    /\ side_lines OnTimes (filter (fun x => 0 <? x) timing) on
    /\ side_lines OffTimes (map Z.abs (filter (fun x => x <? 0) timing)) off.
Proof.
  set (head := [ TotalValues (Py.len timing);
         PositiveValues (Py.len (filter (fun x => 0 <? x) timing));
         NegativeValues (Py.len (filter (fun x => x <? 0) timing)) ]).
  destruct (side_block OnTimes (filter (fun x => 0 <? x) timing) head)
    as [on [Hon Son]].
  destruct (side_block OffTimes (map Z.abs (filter (fun x => x <? 0) timing))
              (head ++ on)%list) as [off [Hoff Soff]].
  exists on, off. repeat split; auto.
  unfold analyze. rewrite !pbind_print.
  change (append (append (append [] (TotalValues (Py.len timing))) _) _)
    with head.
  rewrite (pbind_ok _ _ _ _ _ Hon), Hoff. now rewrite <- List.app_assoc.
Qed.

Lemma sum_from (vals : list Z) (acc : Z) :
  fold_left Z.add vals acc = acc + fold_left Z.add vals 0.
Proof.
  revert acc. induction vals as [|x r IH]; intros acc; simpl; [lia|].
  rewrite (IH (acc + x)), (IH x). lia.
Qed.

Lemma sum_bounds (vals : list Z) (lo hi : Z) :
  Forall (fun x => lo <= x) vals ->
  Forall (fun x => x <= hi) vals ->
  Py.len vals * lo <= Py.sum vals <= Py.len vals * hi.
Proof.
  unfold Py.sum, Py.len.
  induction vals as [|x r IH]; intros Hlo Hhi; [simpl; lia|].
  inversion Hlo as [|? ? Hx Hr]; inversion Hhi as [|? ? Hx' Hr']; subst.
  specialize (IH Hr Hr'). simpl fold_left. rewrite sum_from.
  simpl List.length. rewrite Nat2Z.inj_succ. lia.
Qed.

(** The floored average of some values lies between their minimum and
    their maximum. *)
Lemma average_between (vals : list Z) (mn mx : Z) :
  is_min mn vals -> is_max mx vals -> Py.len vals <> 0 ->
  mn <= Py.sum vals / Py.len vals <= mx.
Proof.
  intros [_ Hmin] [_ Hmax] Hlen.
  assert (Hpos : 0 < Py.len vals) by (unfold Py.len in *; lia).
  destruct (sum_bounds vals mn mx Hmin Hmax) as [Hlo Hhi]. split.
  - apply Z.div_le_lower_bound; [exact Hpos | lia].
  - apply Z.div_le_upper_bound; [exact Hpos | lia].
Qed.

Lemma positive_side (timing : list Z) (x : Z) :
  In x (filter (fun x => 0 <? x) timing) -> 0 < x.
Proof. intros H. apply filter_In in H. now apply Z.ltb_lt. Qed.

Lemma negative_side (timing : list Z) (x : Z) :
  In x (map Z.abs (filter (fun x => x <? 0) timing)) -> 0 < x.
Proof.
  intros H. apply in_map_iff in H. destruct H as [y [<- Hy]].
  apply filter_In in Hy. destruct Hy as [_ Hy]. apply Z.ltb_lt in Hy. lia.
Qed.

Lemma count_signs (timing : list Z) :
  Py.len timing
  = Py.len (filter (fun x => 0 <? x) timing)
    + Py.len (filter (fun x => x <? 0) timing)
    + Py.len (filter (fun x => x =? 0) timing).
Proof.
  unfold Py.len. induction timing as [|x r IH]; [reflexivity|].
  simpl filter. simpl List.length at 1. rewrite Nat2Z.inj_succ, IH.
  destruct (Z.ltb_spec 0 x), (Z.ltb_spec x 0), (Z.eqb_spec x 0);
    try lia; simpl List.length; rewrite ?Nat2Z.inj_succ; lia.
Qed.

End AnalyzerReport.

(** X14.  Every statistics line of the analyzer is ordered and positive:
    the minimum is above zero, the negative side being reported through
    absolute values, and the floored average lies between the minimum and
    the maximum. *)
Theorem report_statistics_ordered (timing : list Z) (mn mx avg : Z) :
  In (OnTimes mn mx avg) (fst (analyze timing [])) \/
  In (OffTimes mn mx avg) (fst (analyze timing [])) ->
  0 < mn /\ mn <= avg /\ avg <= mx.
Proof.
  destruct (analyze_report timing) as [on [off [Hrun [Son Soff]]]].
  rewrite Hrun. simpl fst. intros [Hin|Hin].
  - repeat (destruct Hin as [Hin|Hin]; [discriminate|]).
    apply in_app_or in Hin. destruct Hin as [Hin|Hin].
    + inversion Son as [Hnil Heq|m1 m2 Hne Hmin Hmax Hlen Heq];
        subst on; [destruct Hin|].
      destruct Hin as [[= -> -> <-]|[]].
      pose proof (average_between _ _ _ Hmin Hmax Hlen).
      destruct Hmin as [Hm _]. apply positive_side in Hm. lia.
    + inversion Soff as [Hnil Heq|m1 m2 Hne Hmin Hmax Hlen Heq];
        subst off; [destruct Hin|].
      destruct Hin as [Hin|[]]. discriminate.
  - repeat (destruct Hin as [Hin|Hin]; [discriminate|]).
    apply in_app_or in Hin. destruct Hin as [Hin|Hin].
    + inversion Son as [Hnil Heq|m1 m2 Hne Hmin Hmax Hlen Heq];
        subst on; [destruct Hin|].
      destruct Hin as [Hin|[]]. discriminate.
    + inversion Soff as [Hnil Heq|m1 m2 Hne Hmin Hmax Hlen Heq];
        subst off; [destruct Hin|].
      destruct Hin as [[= -> -> <-]|[]].
      pose proof (average_between _ _ _ Hmin Hmax Hlen).
      destruct Hmin as [Hm _]. apply negative_side in Hm. lia.
Qed.

Lemma report_statistics_ordered_witness :
  (In (OnTimes 500 1000 750) (fst (analyze [500; -500; 1000; -500; 0] [])) \/
   In (OffTimes 500 1000 750) (fst (analyze [500; -500; 1000; -500; 0] [])))
  /\ 0 < 500 /\ 500 <= 750 /\ 750 <= 1000.
Proof.
  split; [left; right; right; right; left; reflexivity|].
  apply (report_statistics_ordered [500; -500; 1000; -500; 0] 500 1000 750).
  left. right. right. right. left. reflexivity.
Defined.

(** X15.  A zero in the sequence is counted in the total and on neither
    side: the total printed is the positive count plus the negative count
    plus the number of zeros. *)
Theorem report_counts_zeros (timing : list Z) :
  exists positives negatives rest,
    analyze timing []
    = ([ TotalValues
           (positives + negatives
            + Py.len (filter (fun x => x =? 0) timing));
         PositiveValues positives;
         NegativeValues negatives ] ++ rest, Ok tt)%list /\
    0 <= positives /\ 0 <= negatives.
Proof.
  destruct (analyze_report timing) as [on [off [Hrun _]]].
  exists (Py.len (filter (fun x => 0 <? x) timing)),
         (Py.len (filter (fun x => x <? 0) timing)), (on ++ off)%list.
  rewrite Hrun, <- count_signs. unfold Py.len. repeat split; lia.
Qed.

(** X16.  A typed line with a token that is no integer is rejected as a
    whole: the analyzer prints the report of invalid timing data and
    nothing else, and no exception leaves it. *)
Theorem analyze_timing_rejects_bad_token (in_timing : string) (e : exn) :
  parse_ints (Py.strip in_timing) = Raise e ->
  analyze_timing in_timing [] = ([InvalidTimingData], Ok tt).
Proof.
  intros Hparse. pose proof (parse_ints_raises _ _ Hparse) as ->.
  unfold analyze_timing, pbind, lift. now rewrite Hparse.
Qed.

Lemma analyze_timing_rejects_bad_token_witness :
  parse_ints (Py.strip "500 -500 1e3") = Raise ValueError /\
  analyze_timing "500 -500 1e3" [] = ([InvalidTimingData], Ok tt).
Proof.
  split; [reflexivity|].
  apply (analyze_timing_rejects_bad_token "500 -500 1e3" ValueError).
  reflexivity.
Defined.

(** ** More on the key normalizer *)

Section KeyField.

Lemma format_key_fit (hex_chars : nat) (key : string) :
  key <> "" ->
  format_key hex_chars key = group_pairs (fit_width hex_chars (clean_hex key)).
Proof. destruct key; [congruence | reflexivity]. Qed.

Lemma length_take (n : nat) (s : string) :
  String.length (Py.take n s) = Nat.min n (String.length s).
Proof.
  revert n. induction s as [|c r IH]; intros [|k]; simpl; auto.
Qed.

Lemma fit_width_length (hex_chars : nat) (k : string) :
  String.length (fit_width hex_chars k) = hex_chars.
Proof.
  unfold fit_width.
  destruct (Nat.ltb_spec hex_chars (String.length k)).
  - rewrite length_take. lia.
  - destruct (Nat.ltb_spec (String.length k) hex_chars).
    + rewrite zfill_length. lia.
    + lia.
Qed.

Lemma fit_width_exact (k : string) : fit_width (String.length k) k = k.
Proof. unfold fit_width. now rewrite Nat.ltb_irrefl. Qed.

Lemma fit_width_cleaned (hex_chars : nat) (k : string) :
  all_chars cleaned_char k = true ->
  all_chars cleaned_char (fit_width hex_chars k) = true.
Proof.
  intros Hk. unfold fit_width.
  destruct (hex_chars <? String.length k)%nat; [now apply all_chars_take|].
  destruct (String.length k <? hex_chars)%nat; [|exact Hk].
  now rewrite all_chars_zfill.
Qed.

Lemma remove_spaces_keeps (c : ascii) (r : string) :
  Ascii.eqb c " " = false ->
  Py.remove_spaces (String c r) = String c (Py.remove_spaces r).
Proof. intros H. simpl. now rewrite H. Qed.

Lemma remove_spaces_group (s : string) :
  all_chars (fun c => negb (Ascii.eqb c " ")) s = true ->
  Py.remove_spaces (group_pairs s) = s.
Proof.
  unfold group_pairs, all_chars, Py.chars.
  induction s as [|a|a b r IH] using string_pair_ind; simpl.
  - reflexivity.
  - intros H. rewrite andb_true_r in H. apply negb_true_iff in H.
    now rewrite H.
  - intros H. apply andb_prop in H. destruct H as [Ha H].
    apply andb_prop in H. destruct H as [Hb Hr].
    apply negb_true_iff in Ha. apply negb_true_iff in Hb.
    destruct (byte_pairs r) as [|p ps] eqn:Hp.
    + apply byte_pairs_nil in Hp. subst r. simpl. now rewrite Ha, Hb.
    + change (Py.join " " (String a (String b "") :: p :: ps))
        with (String a (String b (String " " (Py.join " " (p :: ps))))).
      rewrite !remove_spaces_keeps by assumption.
      change (Py.remove_spaces (String " " (Py.join " " (p :: ps))))
        with (Py.remove_spaces (Py.join " " (p :: ps))).
      now rewrite (IH Hr).
Qed.

Lemma cleaned_no_space (s : string) :
  all_chars cleaned_char s = true ->
  all_chars (fun c => negb (Ascii.eqb c " ")) s = true.
Proof.
  unfold all_chars, Py.chars, cleaned_char.
  induction s as [|c r IH]; simpl; [reflexivity|].
  intros H. apply andb_prop in H. destruct H as [Hc Hr].
  apply andb_prop in Hc. destruct Hc as [Hc _]. now rewrite Hc, IH.
Qed.

Lemma cleaned_no_lower (s : string) :
  all_chars cleaned_char s = true ->
  all_chars (fun c => negb (is_lower c)) s = true.
Proof.
  unfold all_chars, Py.chars, cleaned_char.
  induction s as [|c r IH]; simpl; [reflexivity|].
  intros H. apply andb_prop in H. destruct H as [Hc Hr].
  apply andb_prop in Hc. destruct Hc as [_ Hc]. now rewrite Hc, IH.
Qed.

Lemma remove_0x_keeps (c : ascii) (r : string) :
  match r with
  | String c2 _ => is_lower c2 = false
  | EmptyString => True
  end ->
  Py.remove_0x (String c r) = String c (Py.remove_0x r).
Proof.
  intros Hr.
  destruct c as [[|] [|] [|] [|] [|] [|] [|] [|]]; try reflexivity.
  destruct r as [|c2 r2]; [reflexivity|].
  destruct c2 as [[|] [|] [|] [|] [|] [|] [|] [|]]; try reflexivity.
  discriminate Hr.
Qed.

Lemma remove_0x_no_lower (s : string) :
  all_chars (fun c => negb (is_lower c)) s = true -> Py.remove_0x s = s.
Proof.
  unfold all_chars, Py.chars.
  induction s as [|c r IH]; [reflexivity|].
  intros H. simpl in H. apply andb_prop in H. destruct H as [_ Hr].
  rewrite remove_0x_keeps.
  - now rewrite (IH Hr).
  - destruct r as [|c2 r2]; [exact I|].
    simpl in Hr. apply andb_prop in Hr. destruct Hr as [Hc2 _].
    now apply negb_true_iff in Hc2.
Qed.

Lemma upper_no_lower (s : string) :
  all_chars (fun c => negb (is_lower c)) s = true -> Py.upper s = s.
Proof.
  unfold all_chars, Py.chars, Py.upper.
  induction s as [|c r IH]; [reflexivity|].
  simpl. intros H. apply andb_prop in H. destruct H as [Hc Hr].
  rewrite (IH Hr). unfold Py.upper_char. unfold is_lower in Hc.
  apply negb_true_iff in Hc. now rewrite Hc.
Qed.

(** Cleaning a grouped field gives back the text that was grouped. *)
Lemma clean_hex_group (s : string) :
  all_chars cleaned_char s = true -> clean_hex (group_pairs s) = s.
Proof.
  intros Hs. unfold clean_hex.
  assert (Hlow : all_chars (fun c => negb (is_lower c)) (group_pairs s) = true)
    by (rewrite all_chars_group by reflexivity; now apply cleaned_no_lower).
  rewrite (remove_0x_no_lower _ Hlow).
  rewrite remove_spaces_group by now apply cleaned_no_space.
  apply upper_no_lower. now apply cleaned_no_lower.
Qed.

Lemma byte_pairs_even (s : string) :
  forall n, String.length s = (2 * n)%nat ->
  List.length (byte_pairs s) = n /\
  Forall (fun g => String.length g = 2%nat) (byte_pairs s).
Proof.
  induction s as [|a|a b r IH] using string_pair_ind; intros n Hn.
  - simpl in *. split; [lia | constructor].
  - simpl in Hn. lia.
  - destruct n as [|k]; [simpl in Hn; lia|].
    destruct (IH k) as [Hl Hf]; [simpl in Hn; lia|].
    simpl. split; [now rewrite Hl | constructor; auto].
Qed.

Lemma chars_of_list (l : list ascii) : Py.chars (string_of_list_ascii l) = l.
Proof. apply list_ascii_of_string_of_list_ascii. Qed.

Lemma random_hex_upper (draw : nat -> nat) (n : nat) :
  all_chars is_upper_hex (random_hex draw n) = true.
Proof.
  unfold all_chars, random_hex. rewrite chars_of_list.
  apply forallb_forall. intros c Hc.
  apply in_map_iff in Hc. destruct Hc as [i [<- _]].
  assert (Hi : (draw i mod 16 < 16)%nat) by (apply Nat.mod_upper_bound; lia).
  revert Hi. generalize (draw i mod 16)%nat. intros j Hj.
  do 16 (destruct j as [|j]; [reflexivity|]). lia.
Qed.

Lemma random_hex_length (draw : nat -> nat) (n : nat) :
  String.length (random_hex draw n) = n.
Proof.
  unfold random_hex. rewrite <- chars_length, chars_of_list.
  now rewrite List.length_map, List.length_seq.
Qed.

Lemma all_chars_weaken (P Q : ascii -> bool) (s : string) :
  (forall c, P c = true -> Q c = true) ->
  all_chars P s = true -> all_chars Q s = true.
Proof.
  intros HPQ. unfold all_chars. rewrite !forallb_forall. auto.
Qed.

End KeyField.

(** ** What the key normalizer keeps *)

Section KeptCharacters.

Lemma remove_0x_step (c : ascii) (s : string) :
  (c = "0"%char -> Py.startswith "x" s = false) ->
  Py.remove_0x (String c s) = String c (Py.remove_0x s).
Proof.
  intros Hx.
  destruct c as [[|] [|] [|] [|] [|] [|] [|] [|]]; try reflexivity.
  specialize (Hx eq_refl).
  destruct s as [|c2 s2]; [reflexivity|].
  destruct c2 as [[|] [|] [|] [|] [|] [|] [|] [|]]; try reflexivity.
  discriminate Hx.
Qed.

(** A character that is no space and opens no [0x] is kept, uppercased. *)
Lemma clean_hex_keeps (c : ascii) (s : string) :
  c <> " "%char ->
  (c = "0"%char -> Py.startswith "x" s = false) ->
  clean_hex (String c s) = String (Py.upper_char c) (clean_hex s).
Proof.
  intros Hsp Hx. unfold clean_hex. rewrite (remove_0x_step c s Hx).
  simpl. apply Ascii.eqb_neq in Hsp. now rewrite Hsp.
Qed.

Lemma upper_char_hex (c : ascii) :
  is_hex_digit (Py.upper_char c) = is_hex_digit c.
Proof. destruct c as [[|] [|] [|] [|] [|] [|] [|] [|]]; reflexivity. Qed.

Lemma in_remove_spaces (c : ascii) (s : string) :
  In c (Py.chars (Py.remove_spaces s)) -> In c (Py.chars s).
Proof.
  unfold Py.chars. induction s as [|a r IH]; simpl; [tauto|].
  destruct (Ascii.eqb a " "); simpl; tauto.
Qed.

Lemma in_zfill (c : ascii) (n : nat) (s : string) :
  In c (Py.chars s) -> In c (Py.chars (Py.zfill n s)).
Proof.
  unfold Py.zfill. destruct (n - String.length s)%nat as [|k]; [tauto|].
  destruct s as [|a r]; [intros []|].
  destruct (Ascii.eqb a "+" || Ascii.eqb a "-").
  - change (Py.chars (String a (Py.zeros (S k) ++ r)))
      with (a :: Py.chars (Py.zeros (S k) ++ r)).
    rewrite chars_app. intros [Ha|Hr]; [now left | right].
    apply in_or_app. now right.
  - rewrite chars_app. intros H. apply in_or_app. now right.
Qed.

Lemma in_fit_width (c : ascii) (n : nat) (k : string) :
  In c (Py.chars (Py.take n k)) -> In c (Py.chars (fit_width n k)).
Proof.
  unfold fit_width.
  destruct (Nat.ltb_spec n (String.length k)); [tauto|].
  rewrite (take_all n k) by lia.
  destruct (String.length k <? n)%nat; [apply in_zfill | tauto].
Qed.

(** Without its spaces the field is the cleaned key at its width. *)
Lemma format_key_unspaced (hex_chars : nat) (key : string) :
  key <> "" ->
  Py.remove_spaces (format_key hex_chars key)
  = fit_width hex_chars (clean_hex key).
Proof.
  intros Hne. rewrite format_key_fit by exact Hne.
  apply remove_spaces_group, cleaned_no_space, fit_width_cleaned,
    clean_hex_cleaned.
Qed.

End KeptCharacters.

(** C3, as stated, fails: the typed key [ZZ] raises nothing and comes back as
    the field [00 00 ZZ]; the marker [0X] is kept; a tab inside is kept. *)
Lemma key_with_non_hex_is_accepted :
  get_protocol_data (fun _ => 0%nat) "Nice_Flo" "ZZ" "" ""
  = Ok ("00 00 ZZ", "", None) /\
  all_chars hex_or_space "00 00 ZZ" = false /\
  format_key 6 "0X12AB" = "0X 12 AB" /\
  format_key 6 (String "A" (String "009" "1234"))
  = String "A" (String "009" " 12 34").
Proof. repeat split; reflexivity. Qed.

(** C3, amended.  For every non-empty typed key the normalizer removes each
    lowercase [0x], a leading one included, and each space; every other
    character is kept and uppercased, so [0X], a tab or a letter that is no
    hex digit stays.  It checks no digit and raises nothing: every
    character within the first [hex_chars] of the cleaned text comes
    through into the field, and the field consists of hex digits and spaces
    exactly when those characters are hex digits. *)
Theorem format_key_checks_no_digit (hex_chars : nat) (key : string) :
  key <> "" ->
  (forall s, clean_hex ("0x" ++ s) = clean_hex s) /\
  (forall s, clean_hex (String " " s) = clean_hex s) /\
  (forall c s,
     c <> " "%char ->
     (c = "0"%char -> Py.startswith "x" s = false) ->
     clean_hex (String c s) = String (Py.upper_char c) (clean_hex s)) /\
  (forall c, is_hex_digit (Py.upper_char c) = is_hex_digit c) /\
  all_chars cleaned_char (clean_hex key) = true /\
  format_key hex_chars ("0x" ++ key) = format_key hex_chars key /\
  Py.remove_spaces (format_key hex_chars key)
  = fit_width hex_chars (clean_hex key) /\
  (forall c,
     In c (Py.chars (Py.take hex_chars (clean_hex key))) ->
     In c (Py.chars (format_key hex_chars key))) /\
  all_chars hex_or_space (format_key hex_chars key)
  = all_chars is_hex_digit (Py.take hex_chars (clean_hex key)) /\
  (forall draw protocol info in_key in_data in_te,
     getitem subghz_protocols protocol = Ok info ->
     Py.strip in_key = key ->
     Py.lower key <> "random" ->
     (needs_te info = false ->
      exists data,
        get_protocol_data draw protocol in_key in_data in_te
        = Ok (format_key (key_bytes info * 2) key, data, None)) /\
     (forall e,
        get_protocol_data draw protocol in_key in_data in_te = Raise e ->
        get_protocol_data draw protocol "" in_data in_te = Raise e)).
Proof.
  intros Hne.
  assert (Hclean := clean_hex_cleaned key).
  split; [reflexivity|]. split; [reflexivity|].
  split; [exact clean_hex_keeps|]. split; [exact upper_char_hex|].
  split; [exact Hclean|]. split.
  { destruct key as [|c r]; [congruence | reflexivity]. }
  split; [now apply format_key_unspaced|]. split.
  { intros c Hc. apply in_remove_spaces.
    rewrite format_key_unspaced by exact Hne. now apply in_fit_width. }
  split.
  { rewrite <- hex_or_space_cleaned by now apply all_chars_take.
    rewrite format_key_fit by exact Hne.
    rewrite all_chars_group by reflexivity.
    unfold fit_width.
    destruct (Nat.ltb_spec hex_chars (String.length (clean_hex key)))
      as [Hlong|Hshort]; [reflexivity|].
    rewrite (take_all hex_chars _ Hshort).
    destruct (String.length (clean_hex key) <? hex_chars)%nat; [|reflexivity].
    now rewrite all_chars_zfill. }
  intros draw protocol info in_key in_data in_te Hinfo Hstrip Hrandom.
  apply String.eqb_neq in Hrandom.
  unfold get_protocol_data. rewrite Hinfo. cbn [bind].
  rewrite Hstrip, Hrandom. split.
  - intros Hte. rewrite Hte. cbn [bind]. eauto.
  - intros e.
    match goal with
    | |- bind ?m _ = _ -> _ => destruct m as [t|e']
    end; cbn [bind]; [discriminate | tauto].
Qed.

Lemma format_key_checks_no_digit_witness :
  "ZZ" <> "" /\
  (forall s, clean_hex ("0x" ++ s) = clean_hex s) /\
  (forall s, clean_hex (String " " s) = clean_hex s) /\
  (forall c s,
     c <> " "%char ->
     (c = "0"%char -> Py.startswith "x" s = false) ->
     clean_hex (String c s) = String (Py.upper_char c) (clean_hex s)) /\
  (forall c, is_hex_digit (Py.upper_char c) = is_hex_digit c) /\
  all_chars cleaned_char (clean_hex "ZZ") = true /\
  format_key 6 ("0x" ++ "ZZ") = format_key 6 "ZZ" /\
  Py.remove_spaces (format_key 6 "ZZ") = fit_width 6 (clean_hex "ZZ") /\
  (forall c,
     In c (Py.chars (Py.take 6 (clean_hex "ZZ"))) ->
     In c (Py.chars (format_key 6 "ZZ"))) /\
  all_chars hex_or_space (format_key 6 "ZZ")
  = all_chars is_hex_digit (Py.take 6 (clean_hex "ZZ")) /\
  (forall draw protocol info in_key in_data in_te,
     getitem subghz_protocols protocol = Ok info ->
     Py.strip in_key = "ZZ" ->
     Py.lower "ZZ" <> "random" ->
     (needs_te info = false ->
      exists data,
        get_protocol_data draw protocol in_key in_data in_te
        = Ok (format_key (key_bytes info * 2) "ZZ", data, None)) /\
     (forall e,
        get_protocol_data draw protocol in_key in_data in_te = Raise e ->
        get_protocol_data draw protocol "" in_data in_te = Raise e)).
Proof.
  split; [discriminate|].
  apply (format_key_checks_no_digit 6 "ZZ"). discriminate.
Defined.

(** X17.  Formatting a key is idempotent: the field [format_key] returns is
    left unchanged when it is typed in again for the same width. *)
Theorem format_key_idempotent (hex_chars : nat) (key : string) :
  format_key hex_chars (format_key hex_chars key) = format_key hex_chars key.
Proof.
  destruct key as [|c r]; [reflexivity|].
  rewrite (format_key_fit hex_chars (String c r)) by discriminate.
  set (s := fit_width hex_chars (clean_hex (String c r))).
  assert (Hs : all_chars cleaned_char s = true)
    by (apply fit_width_cleaned, clean_hex_cleaned).
  destruct (group_pairs s) as [|c' r'] eqn:Hg; [reflexivity|].
  rewrite format_key_fit by discriminate.
  rewrite <- Hg, (clean_hex_group s Hs).
  rewrite <- (fit_width_length hex_chars (clean_hex (String c r))) at 1.
  fold s. now rewrite fit_width_exact.
Qed.

(** X18.  Whatever is typed as a key, a word other than the empty one, the
    key field [get_protocol_data] returns holds exactly the key bytes of the
    catalog entry: it is that many groups of two characters joined by single
    spaces. *)
Theorem key_field_width (draw : nat -> nat)
  (protocol in_key in_data in_te : string) (info : subghz_info)
  (key data : string) (te : option Z) :
  getitem subghz_protocols protocol = Ok info ->
  get_protocol_data draw protocol in_key in_data in_te = Ok (key, data, te) ->
  Py.strip in_key <> "" ->
  key = group_pairs (Py.remove_spaces key) /\
  List.length (byte_pairs (Py.remove_spaces key)) = key_bytes info /\
  Forall (fun g => String.length g = 2%nat)
    (byte_pairs (Py.remove_spaces key)).
Proof.
  intros Hinfo Hrun Hne. unfold get_protocol_data in Hrun.
  rewrite Hinfo in Hrun. simpl bind in Hrun.
  match type of Hrun with
  | bind ?m _ = _ => destruct m as [t|e]; [|discriminate]
  end.
  simpl in Hrun. injection Hrun as <- _ _.
  assert (H : exists s,
    (if String.eqb (Py.lower (Py.strip in_key)) "random"
     then group_pairs (random_hex draw (key_bytes info * 2))
     else format_key (key_bytes info * 2) (Py.strip in_key))
    = group_pairs s /\
    all_chars (fun c => negb (Ascii.eqb c " ")) s = true /\
    String.length s = (2 * key_bytes info)%nat).
  { destruct (String.eqb (Py.lower (Py.strip in_key)) "random").
    - exists (random_hex draw (key_bytes info * 2)). split; [reflexivity|].
      split; [|rewrite random_hex_length; lia].
      apply (all_chars_weaken is_upper_hex); [|apply random_hex_upper].
      intros c. destruct c as [[|] [|] [|] [|] [|] [|] [|] [|]];
        reflexivity || discriminate.
    - exists (fit_width (key_bytes info * 2) (clean_hex (Py.strip in_key))).
      split; [now apply format_key_fit|].
      split; [|rewrite fit_width_length; lia].
      apply cleaned_no_space, fit_width_cleaned, clean_hex_cleaned. }
  destruct H as [s [-> [Hs Hlen]]].
  rewrite (remove_spaces_group s Hs).
  split; [reflexivity|]. now apply byte_pairs_even.
Qed.

Lemma key_field_width_witness :
  getitem subghz_protocols "Nice_Flo"
  = Ok {| bits := 12; key_bytes := 3; needs_te := false; default_te := None;
          description := "Nice rolling code remotes (12-bit)" |} /\
  get_protocol_data (fun _ => 0%nat) "Nice_Flo" "0x1 ab cd ef 99" "" ""
  = Ok ("1A BC DE", "", None) /\
  Py.strip "0x1 ab cd ef 99" <> "" /\
  "1A BC DE" = group_pairs (Py.remove_spaces "1A BC DE") /\
  List.length (byte_pairs (Py.remove_spaces "1A BC DE")) = 3%nat /\
  Forall (fun g => String.length g = 2%nat)
    (byte_pairs (Py.remove_spaces "1A BC DE")).
Proof.
  split; [reflexivity|]. split; [reflexivity|]. split; [discriminate|].
  apply (key_field_width (fun _ => 0%nat) "Nice_Flo" "0x1 ab cd ef 99" "" ""
           {| bits := 12; key_bytes := 3; needs_te := false;
              default_te := None;
              description := "Nice rolling code remotes (12-bit)" |}
           "1A BC DE" "" None); [reflexivity | reflexivity | discriminate].
Defined.

(** X19.  The answer [random], in any case, gives a key field of uppercase
    hex digits and spaces only, whatever the generator draws. *)
Theorem random_key_is_hex (draw : nat -> nat)
  (protocol in_key in_data in_te : string) (key data : string)
  (te : option Z) :
  get_protocol_data draw protocol in_key in_data in_te = Ok (key, data, te) ->
  Py.lower (Py.strip in_key) = "random" ->
  all_chars upper_hex_or_space key = true.
Proof.
  intros Hrun Hrandom. unfold get_protocol_data in Hrun.
  destruct (getitem subghz_protocols protocol) as [info|e]; [|discriminate].
  simpl bind in Hrun. rewrite Hrandom in Hrun.
  match type of Hrun with
  | bind ?m _ = _ => destruct m as [t|e]; [|discriminate]
  end.
  simpl in Hrun. injection Hrun as <- _ _.
  rewrite all_chars_group by reflexivity.
  apply (all_chars_weaken is_upper_hex); [|apply random_hex_upper].
  intros c Hc. unfold upper_hex_or_space. now rewrite Hc.
Qed.

Lemma random_key_is_hex_witness :
  get_protocol_data (fun i => (7 * i + 3)%nat) "Came" " RaNdOm " "" ""
  = Ok ("3A 18 F6", "", None) /\
  Py.lower (Py.strip " RaNdOm ") = "random" /\
  all_chars upper_hex_or_space "3A 18 F6" = true.
Proof.
  split; [reflexivity|]. split; [reflexivity|].
  apply (random_key_is_hex (fun i => (7 * i + 3)%nat) "Came" " RaNdOm " "" ""
           "3A 18 F6" "" None); reflexivity.
Defined.

(** ** The repeat line *)

Section RepeatLine.

Ltac repeat_cases kw :=
  destruct (kw_bit_count kw) as [bit_count|];
    [destruct (Py.truthy_int bit_count)|];
  (destruct (kw_key kw) as [key|]; [destruct (Py.truthy_str key)|]);
  (destruct (kw_te kw) as [te|]; [destruct (Py.truthy_int te)|]);
  (destruct (kw_data kw) as [data|]; [destruct (Py.truthy_str data)|]);
  destruct (1 <? match kw_repeat kw with Some r => r | None => 1 end).

Lemma repeat_line_iff (kw : kwargs) (lines : list string) :
  subghz_lines kw = Ok lines ->
  has_line "Repeat: " lines
  = negb (String.eqb (kw_protocol kw) "RAW")
    && (1 <? match kw_repeat kw with Some r => r | None => 1 end).
Proof.
  unfold subghz_lines. destruct (String.eqb (kw_protocol kw) "RAW").
  - destruct (kw_raw_data kw); intros [= <-]; reflexivity.
  - intros [= <-]. unfold append_if. repeat_cases kw; reflexivity.
Qed.

End RepeatLine.

(** X20.  On the path from the wizard to the file, the [Repeat] line is
    written exactly when the repeat count typed is above 1; a blank answer
    means 1, and it, zero and negative counts leave the line out. *)
Theorem repeat_line_above_one (protocol : string) (frequency : Z)
  (key data : string) (te : option Z) (in_repeat : string) (repeat : Z)
  (output_file : string) (kw : kwargs) (lines : list string) :
  get_repeat_count in_repeat = Ok repeat ->
  wizard_params protocol frequency key data te repeat output_file = Ok kw ->
  subghz_lines kw = Ok lines ->
  has_line "Repeat: " lines = (1 <? repeat) /\
  (Py.strip in_repeat = "" -> has_line "Repeat: " lines = false).
Proof.
  intros Hrep Hkw Hlines. rewrite (repeat_line_iff _ _ Hlines).
  assert (Hraw : String.eqb (kw_protocol kw) "RAW" = false).
  { destruct (String.eqb (kw_protocol kw) "RAW") eqn:Hr; [|reflexivity].
    unfold subghz_lines in Hlines. rewrite Hr in Hlines.
    unfold wizard_params in Hkw.
    destruct (getitem subghz_protocols protocol); [|discriminate].
    simpl in Hkw. injection Hkw as <-. discriminate. }
  rewrite Hraw. simpl negb. rewrite andb_true_l.
  unfold wizard_params in Hkw.
  destruct (getitem subghz_protocols protocol); [|discriminate].
  simpl in Hkw. injection Hkw as <-. simpl kw_repeat.
  split; [reflexivity|]. intros Hblank.
  unfold get_repeat_count in Hrep. rewrite Hblank in Hrep.
  now injection Hrep as <-.
Qed.

Lemma repeat_line_above_one_witness :
  get_repeat_count " 3 " = Ok 3 /\
  wizard_params "Came" 433920000 "00 0A BC" "" None 3 "came.sub"
  = Ok {| kw_protocol := "Came"; kw_frequency := 433920000;
          kw_output_file := "came.sub"; kw_preset := None;
          kw_raw_data := None; kw_bit_count := Some 12;
          kw_key := Some "00 0A BC"; kw_te := None; kw_data := None;
          kw_repeat := Some 3 |} /\
  subghz_lines
    {| kw_protocol := "Came"; kw_frequency := 433920000;
       kw_output_file := "came.sub"; kw_preset := None;
       kw_raw_data := None; kw_bit_count := Some 12;
       kw_key := Some "00 0A BC"; kw_te := None; kw_data := None;
       kw_repeat := Some 3 |}
  = Ok [ "Filetype: Flipper SubGhz Key File"; "Version: 1";
         "Frequency: 433920000"; "Preset: FuriHalSubGhzPresetOok270Async";
         "Protocol: Came"; "Bit: 12"; "Key: 00 0A BC"; "Repeat: 3" ] /\
  has_line "Repeat: "
    [ "Filetype: Flipper SubGhz Key File"; "Version: 1";
      "Frequency: 433920000"; "Preset: FuriHalSubGhzPresetOok270Async";
      "Protocol: Came"; "Bit: 12"; "Key: 00 0A BC"; "Repeat: 3" ]
  = (1 <? 3) /\
  (Py.strip " 3 " = "" ->
   has_line "Repeat: "
     [ "Filetype: Flipper SubGhz Key File"; "Version: 1";
       "Frequency: 433920000"; "Preset: FuriHalSubGhzPresetOok270Async";
       "Protocol: Came"; "Bit: 12"; "Key: 00 0A BC"; "Repeat: 3" ]
   = false).
Proof.
  split; [reflexivity|]. split; [reflexivity|]. split; [reflexivity|].
  apply (repeat_line_above_one "Came" 433920000 "00 0A BC" "" None " 3 " 3
           "came.sub"
           {| kw_protocol := "Came"; kw_frequency := 433920000;
              kw_output_file := "came.sub"; kw_preset := None;
              kw_raw_data := None; kw_bit_count := Some 12;
              kw_key := Some "00 0A BC"; kw_te := None; kw_data := None;
              kw_repeat := Some 3 |}); reflexivity.
Defined.

(** X21.  The data field is the typed text cleaned and grouped, never cut
    and never padded: with its spaces removed it is the cleaned text,
    digit for digit. *)
Theorem data_field_keeps_every_digit (draw : nat -> nat)
  (protocol in_key in_data in_te : string) (key data : string)
  (te : option Z) :
  get_protocol_data draw protocol in_key in_data in_te = Ok (key, data, te) ->
  Py.remove_spaces data = clean_hex (Py.strip in_data).
Proof.
  intros Hrun. unfold get_protocol_data in Hrun.
  destruct (getitem subghz_protocols protocol) as [info|e]; [|discriminate].
  simpl bind in Hrun.
  match type of Hrun with
  | bind ?m _ = _ => destruct m as [t|e]; [|discriminate]
  end.
  simpl in Hrun. injection Hrun as _ <- _.
  destruct (Py.strip in_data) as [|c r]; [reflexivity|].
  simpl Py.truthy_str. cbv iota.
  apply remove_spaces_group, cleaned_no_space, clean_hex_cleaned.
Qed.

Lemma data_field_keeps_every_digit_witness :
  get_protocol_data (fun _ => 0%nat) "Came" "" " 0xabc de " ""
  = Ok ("", "AB CD E", None) /\
  Py.remove_spaces "AB CD E" = clean_hex (Py.strip " 0xabc de ").
Proof.
  split; [reflexivity|].
  apply (data_field_keeps_every_digit (fun _ => 0%nat) "Came" ""
           " 0xabc de " "" "" "AB CD E" None). reflexivity.
Defined.

(** ** Infrared files *)

Section InfraredFacts.

Variable float : Type.
Variable float_of_text : string -> result float.
Variable float_text : float -> string.
Variable duty_default : float.

Lemma truthy_upper (s : string) :
  Py.truthy_str (Py.upper s) = Py.truthy_str s.
Proof. now destruct s. Qed.

(** X22.  An infrared file has seven lines in either branch: the two header
    lines, the name and the type, and then for RAW the frequency, the duty
    cycle and the data and no protocol, address or command line, and for
    any other protocol the reverse; the text written ends with a line
    feed. *)
Theorem ir_file_branches (kw : ir_kwargs float) :
  ir_complete kw = true ->
  exists lines f,
    ir_lines float float_text duty_default kw = Ok lines /\
    create_ir_file float float_text duty_default kw = Ok f /\
    file_content f = Py.join nl lines ++ nl /\
    List.length lines = 7%nat /\
    List.length (filter is_ir_raw_line lines)
    = (if String.eqb (ir_protocol kw) "RAW" then 3 else 0)%nat /\
    List.length (filter is_ir_parsed_line lines)
    = (if String.eqb (ir_protocol kw) "RAW" then 0 else 3)%nat.
Proof.
  unfold ir_complete, create_ir_file, ir_lines. intros Hc.
  destruct (String.eqb (ir_protocol kw) "RAW").
  - destruct (ir_raw_data kw) as [raw|]; [|discriminate].
    do 2 eexists. repeat split; reflexivity.
  - destruct (ir_address kw) as [a|]; [|discriminate].
    destruct (ir_command kw) as [c|]; [|discriminate].
    do 2 eexists. repeat split; reflexivity.
Qed.

(** X23.  For a protocol of the infrared catalog other than RAW the wizard
    writes a file only when both the address and the command typed are not
    blank, and then the file holds them in uppercase. *)
Theorem ir_wizard_needs_both_codes (protocol : string) (info : ir_info)
  (raw_data : list Z)
  (in_frequency in_duty in_address in_command output_file : string) :
  getitem ir_protocols protocol = Ok info ->
  protocol <> "RAW" ->
  ir_wizard float float_of_text float_text duty_default protocol raw_data
    in_frequency in_duty in_address in_command output_file
  = Ok (if Py.truthy_str (Py.strip in_address)
           && Py.truthy_str (Py.strip in_command)
        then Some {| file_name := output_file;
                     file_content :=
                       Py.join nl
                         [ "Filetype: IR signals file";
                           "Version: 1";
                           "name: Custom_" ++ protocol;
                           "type: parsed";
                           "protocol: " ++ protocol;
                           "address: " ++ Py.upper (Py.strip in_address);
                           "command: " ++ Py.upper (Py.strip in_command) ]
                       ++ nl |}
        else None).
Proof.
  intros Hinfo Hne. unfold ir_wizard.
  assert (Ht : Py.truthy_str protocol = true).
  { destruct protocol; [discriminate Hinfo | reflexivity]. }
  rewrite Ht. simpl negb. cbv iota.
  apply String.eqb_neq in Hne. rewrite Hne.
  unfold get_ir_codes. rewrite Hinfo. simpl bind. simpl fst. simpl snd.
  rewrite !truthy_upper.
  destruct (Py.truthy_str (Py.strip in_address)); [|reflexivity].
  destruct (Py.truthy_str (Py.strip in_command)); [|reflexivity].
  simpl orb. cbv iota.
  unfold create_ir_file, ir_lines. simpl ir_protocol. rewrite Hne.
  reflexivity.
Qed.

(** X24.  When the frequency answer of the raw infrared wizard is blank the
    file says [frequency: 35715], the default of the prompt, not the 38000
    the serializer would fill in by itself. *)
Theorem ir_wizard_default_frequency (x : Z) (rest : list Z)
  (in_frequency in_duty in_address in_command output_file : string)
  (duty_cycle : float) :
  Py.strip in_frequency = "" ->
  get_duty_cycle float float_of_text duty_default in_duty = Ok duty_cycle ->
  ir_wizard float float_of_text float_text duty_default "RAW" (x :: rest)
    in_frequency in_duty in_address in_command output_file
  = Ok (Some {| file_name := output_file;
                file_content :=
                  Py.join nl
                    [ "Filetype: IR signals file";
                      "Version: 1";
                      "name: Custom_RAW";
                      "type: raw";
                      "frequency: 35715";
                      "duty_cycle: " ++ float_text duty_cycle;
                      "data: " ++ render_timing (x :: rest) ]
                  ++ nl |}).
Proof.
  intros Hblank Hduty. unfold ir_wizard. simpl negb. cbv iota.
  simpl String.eqb. cbv iota.
  unfold get_ir_frequency. rewrite Hblank. simpl bind. rewrite Hduty.
  reflexivity.
Qed.

End InfraredFacts.

Lemma ir_file_branches_witness :
  ir_complete
    {| ir_protocol := "RAW"; ir_output_file := "sample_ir_raw.ir";
       ir_raw_data := Some [9000; -4500; 560; -560; 560; -1690; 560; -560; 560];
       ir_frequency := Some 38000; ir_duty_cycle := Some ("0.33" : text_float);
       ir_address := None; ir_command := None |} = true /\
  exists lines f,
    ir_lines text_float (fun d => d) "0.33"
      {| ir_protocol := "RAW"; ir_output_file := "sample_ir_raw.ir";
         ir_raw_data :=
           Some [9000; -4500; 560; -560; 560; -1690; 560; -560; 560];
         ir_frequency := Some 38000; ir_duty_cycle := Some "0.33";
         ir_address := None; ir_command := None |} = Ok lines /\
    create_ir_file text_float (fun d => d) "0.33"
      {| ir_protocol := "RAW"; ir_output_file := "sample_ir_raw.ir";
         ir_raw_data :=
           Some [9000; -4500; 560; -560; 560; -1690; 560; -560; 560];
         ir_frequency := Some 38000; ir_duty_cycle := Some "0.33";
         ir_address := None; ir_command := None |} = Ok f /\
    file_content f = Py.join nl lines ++ nl /\
    List.length lines = 7%nat /\
    List.length (filter is_ir_raw_line lines) = 3%nat /\
    List.length (filter is_ir_parsed_line lines) = 0%nat.
Proof.
  split; [reflexivity|].
  apply (ir_file_branches text_float (fun d => d) "0.33"
           {| ir_protocol := "RAW"; ir_output_file := "sample_ir_raw.ir";
              ir_raw_data :=
                Some [9000; -4500; 560; -560; 560; -1690; 560; -560; 560];
              ir_frequency := Some 38000; ir_duty_cycle := Some "0.33";
              ir_address := None; ir_command := None |}).
  reflexivity.
Defined.

Lemma ir_wizard_needs_both_codes_witness :
  getitem ir_protocols "NEC"
  = Ok {| address_bits := 8; command_bits := 8;
          ir_description := "Most common IR protocol (8+8 bits)" |} /\
  "NEC" <> "RAW" /\
  ir_wizard text_float (fun t => Ok t) (fun d => d) "0.33" "NEC" [] "" ""
    " 0a " "  " "nec.ir"
  = Ok (if Py.truthy_str (Py.strip " 0a ") && Py.truthy_str (Py.strip "  ")
        then Some {| file_name := "nec.ir";
                     file_content :=
                       Py.join nl
                         [ "Filetype: IR signals file";
                           "Version: 1";
                           "name: Custom_" ++ "NEC";
                           "type: parsed";
                           "protocol: " ++ "NEC";
                           "address: " ++ Py.upper (Py.strip " 0a ");
                           "command: " ++ Py.upper (Py.strip "  ") ]
                       ++ nl |}
        else None).
Proof.
  split; [reflexivity|]. split; [discriminate|].
  apply (ir_wizard_needs_both_codes text_float (fun t => Ok t) (fun d => d)
           "0.33" "NEC"
           {| address_bits := 8; command_bits := 8;
              ir_description := "Most common IR protocol (8+8 bits)" |}
           [] "" "" " 0a " "  " "nec.ir"); [reflexivity | discriminate].
Defined.

Lemma ir_wizard_default_frequency_witness :
  Py.strip "  " = "" /\
  get_duty_cycle text_float (fun t => Ok t) "0.33" "0.5" = Ok "0.5" /\
  ir_wizard text_float (fun t => Ok t) (fun d => d) "0.33" "RAW"
    [9000; -4500] "  " "0.5" "" "" "raw.ir"
  = Ok (Some {| file_name := "raw.ir";
                file_content :=
                  Py.join nl
                    [ "Filetype: IR signals file";
                      "Version: 1";
                      "name: Custom_RAW";
                      "type: raw";
                      "frequency: 35715";
                      "duty_cycle: " ++ "0.5";
                      "data: " ++ render_timing [9000; -4500] ]
                  ++ nl |}).
Proof.
  split; [reflexivity|]. split; [reflexivity|].
  apply (ir_wizard_default_frequency text_float (fun t => Ok t) (fun d => d)
           "0.33" 9000 [-4500] "  " "0.5" "" "" "raw.ir" "0.5");
    reflexivity.
Defined.

(** ** More on reading a timing file *)

Section LoaderFacts.

Lemma split_skip_blank (ws : string) (r : string) :
  is_blank ws = true ->
  Py.split_from None (ws ++ r) = Py.split_from None r.
Proof.
  unfold is_blank, Py.chars. induction ws as [|c ws IH]; simpl; [reflexivity|].
  intros H. apply andb_prop in H. destruct H as [Hc Hws].
  rewrite Hc. now apply IH.
Qed.

Lemma split_end_token (t ws r : string) :
  is_blank ws = true -> ws <> "" ->
  Py.split_from (Some t) (ws ++ r) = t :: Py.split_from None r.
Proof.
  intros Hb Hne. destruct ws as [|c ws]; [congruence|].
  unfold is_blank, Py.chars in Hb. simpl in Hb.
  apply andb_prop in Hb. destruct Hb as [Hc Hws].
  simpl. rewrite Hc. f_equal. now apply split_skip_blank.
Qed.

Lemma split_last_token (t ws : string) :
  is_blank ws = true -> Py.split_from (Some t) ws = [t].
Proof.
  intros Hb. destruct ws as [|c ws]; [reflexivity|].
  rewrite <- (append_nil_r (String c ws)).
  rewrite split_end_token by (auto; discriminate). reflexivity.
Qed.

Lemma split_layout (rest : list (string * Z)) (post : string) :
  Forall (fun it => is_blank (fst it) = true /\ fst it <> "") rest ->
  is_blank post = true ->
  forall first,
    Py.split_from None (timing_layout first rest post)
    = map Py.str (first :: map snd rest).
Proof.
  intros Hrest Hpost.
  induction rest as [|[sep z] r IH]; intros first; simpl timing_layout.
  - destruct (str_token first) as [Hs Hne].
    rewrite (split_token_first _ _ Hs Hne). now rewrite split_last_token.
  - inversion Hrest as [|? ? [Hb Hn] Hr]; subst. simpl in Hb, Hn.
    destruct (str_token first) as [Hs Hne].
    rewrite (split_token_first _ _ Hs Hne).
    rewrite (split_end_token _ _ _ Hb Hn).
    rewrite (IH Hr). reflexivity.
Qed.

(** The first two lines of every Sub-GHz file. *)
Lemma subghz_lines_head (kw : kwargs) (lines : list string) :
  subghz_lines kw = Ok lines ->
  exists rest,
    lines = "Filetype: Flipper SubGhz Key File" :: "Version: 1" :: rest.
Proof.
  unfold subghz_lines. destruct (String.eqb (kw_protocol kw) "RAW").
  - destruct (kw_raw_data kw); intros [= <-]; eexists; reflexivity.
  - intros [= <-]. unfold append_if.
    destruct (kw_bit_count kw) as [bit_count|];
      [destruct (Py.truthy_int bit_count)|];
    (destruct (kw_key kw) as [key|]; [destruct (Py.truthy_str key)|]);
    (destruct (kw_te kw) as [te|]; [destruct (Py.truthy_int te)|]);
    (destruct (kw_data kw) as [data|]; [destruct (Py.truthy_str data)|]);
    destruct (1 <? match kw_repeat kw with Some r => r | None => 1 end);
    eexists; reflexivity.
Qed.

End LoaderFacts.

(** X25.  [load_raw_from_file] reads a timing file however it is laid out:
    with any white space, line feeds included, before the first value,
    between two values and after the last one, it returns the values in
    their order. *)
Theorem load_any_layout (fs : files) (in_filename : string)
  (pre post : string) (first : Z) (rest : list (string * Z)) :
  is_blank pre = true ->
  is_blank post = true ->
  Forall (fun it => is_blank (fst it) = true /\ fst it <> "") rest ->
  fs (Py.strip in_filename) = Some (pre ++ timing_layout first rest post) ->
  load_raw_from_file fs in_filename = Some (first :: map snd rest).
Proof.
  intros Hpre Hpost Hrest Hfile. unfold load_raw_from_file. rewrite Hfile.
  rewrite parse_ints_strip. unfold parse_ints, Py.split.
  rewrite (split_skip_blank _ _ Hpre), (split_layout _ _ Hrest Hpost).
  now rewrite mapM_int_str.
Qed.

Lemma load_any_layout_witness :
  is_blank nl = true /\
  is_blank (nl ++ nl) = true /\
  Forall (fun it => is_blank (fst it) = true /\ fst it <> "")
    [(nl, -4500); ("  " ++ nl, 560)] /\
  write_file (fun _ => None) "t.txt"
    (nl ++ timing_layout 9000 [(nl, -4500); ("  " ++ nl, 560)] (nl ++ nl))
    (Py.strip "t.txt")
  = Some (nl ++ timing_layout 9000 [(nl, -4500); ("  " ++ nl, 560)]
            (nl ++ nl)) /\
  load_raw_from_file
    (write_file (fun _ => None) "t.txt"
       (nl ++ timing_layout 9000 [(nl, -4500); ("  " ++ nl, 560)] (nl ++ nl)))
    "t.txt"
  = Some (9000 :: map snd [(nl, -4500); ("  " ++ nl, 560)]).
Proof.
  split; [reflexivity|]. split; [reflexivity|].
  split; [repeat constructor; discriminate|]. split; [reflexivity|].
  apply (load_any_layout _ "t.txt" nl (nl ++ nl) 9000
           [(nl, -4500); ("  " ++ nl, 560)]);
    [reflexivity | reflexivity | repeat constructor; discriminate
    | reflexivity].
Defined.

(** X26.  [load_raw_from_file] reads back no Sub-GHz file the generator
    wrote: the first token of every such file, [Filetype:], is no integer,
    and the loader gives up with its report of an invalid format. *)
Theorem loader_rejects_generated_file (kw : kwargs) (f : file) (fs : files)
  (in_filename : string) :
  create_subghz_file kw = Ok f ->
  load_raw_from_file
    (write_file fs (Py.strip in_filename) (file_content f)) in_filename
  = None.
Proof.
  unfold create_subghz_file. intros Hf.
  destruct (subghz_lines kw) as [lines|e] eqn:Hl; [|discriminate].
  destruct (subghz_lines_head kw lines Hl) as [rest ->].
  unfold bind in Hf. apply Ok_inj in Hf. subst f. cbn [file_content].
  unfold load_raw_from_file, write_file. rewrite String.eqb_refl.
  rewrite parse_ints_strip. unfold parse_ints, Py.split.
  change (Py.join nl
            ("Filetype: Flipper SubGhz Key File" :: "Version: 1" :: rest) ++ nl)
    with ("Filetype:"
          ++ String " " ("Flipper SubGhz Key File"
                         ++ nl ++ Py.join nl ("Version: 1" :: rest) ++ nl)).
  rewrite split_token_first by (reflexivity || discriminate).
  change (Py.split_from (Some "Filetype:") (String " " ?r))
    with ("Filetype:" :: Py.split_from None r).
  reflexivity.
Qed.

Lemma loader_rejects_generated_file_witness :
  create_subghz_file sample_raw
  = Ok {| file_name := "sample_raw.sub";
          file_content :=
            Py.join nl
              [ "Filetype: Flipper SubGhz Key File"; "Version: 1";
                "Frequency: 315000000";
                "Preset: FuriHalSubGhzPresetOok270Async"; "Protocol: RAW";
                "RAW_Data: 500 -500 1000 -500 500 -1000 1000 -500" ] ++ nl |}
  /\
  load_raw_from_file
    (write_file (fun _ => None) (Py.strip "sample_raw.sub")
       (Py.join nl
          [ "Filetype: Flipper SubGhz Key File"; "Version: 1";
            "Frequency: 315000000";
            "Preset: FuriHalSubGhzPresetOok270Async"; "Protocol: RAW";
            "RAW_Data: 500 -500 1000 -500 500 -1000 1000 -500" ] ++ nl))
    "sample_raw.sub"
  = None.
Proof.
  split; [reflexivity|].
  apply (loader_rejects_generated_file sample_raw
           {| file_name := "sample_raw.sub";
              file_content :=
                Py.join nl
                  [ "Filetype: Flipper SubGhz Key File"; "Version: 1";
                    "Frequency: 315000000";
                    "Preset: FuriHalSubGhzPresetOok270Async"; "Protocol: RAW";
                    "RAW_Data: 500 -500 1000 -500 500 -1000 1000 -500" ]
                ++ nl |} (fun _ => None) "sample_raw.sub").
  reflexivity.
Defined.
